(** * OpenClaw memory suite: a shallow embedding of the recall/capture engine

    The plugins of the suite are JavaScript modules.  This development
    embeds the functions the specification talks about and proves (or
    refutes) its statements about them.

    Conventions of the embedding.
    - A JavaScript string is the list of its UTF-16 code units
      ([list N]); [length] is then the [.length] of the source.
    - Integer-valued numbers (counters, character totals, millisecond
      timestamps) are [Z]; a property that may be absent ([undefined])
      is an [option].
    - Similarity scores handed to the cluster selector and the rate
      computed by [toFixed] are IEEE doubles ([PrimFloat.float]), the
      number type of the source.
    - [Date.now], the embedding provider, the vector store and the
      logger are the environment of the handlers. *)

From Stdlib Require Import ZArith NArith List Bool Lia.
From Stdlib Require Import Strings.String Strings.Ascii.
From Stdlib Require Import Floats.PrimFloat Floats.FloatOps Floats.SpecFloat.
From Stdlib Require Import Numbers.Cyclic.Int63.Uint63.
From Stdlib Require Import Reals.Reals Lra.
From stdpp Require Import gmap.

Set Warnings "-inexact-float,-register-all".
Local Open Scope nat_scope.

(* ================================================================== *)
(** * JavaScript strings *)
(* ================================================================== *)

Module Js.

(** The code units of an ASCII literal. *)
Definition lit (s : string) : list N :=
  map N_of_ascii (list_ascii_of_string s).

(** [WhiteSpace] and [LineTerminator] of ECMAScript: what
    [String.prototype.trim] strips and what [\s] matches. *)
Definition is_space (c : N) : bool :=
  ((9 <=? c) && (c <=? 13) || (c =? 32) || (c =? 160) || (c =? 5760)
   || (8192 <=? c) && (c <=? 8202) || (c =? 8232) || (c =? 8233)
   || (c =? 8239) || (c =? 8287) || (c =? 12288) || (c =? 65279))%N.

Fixpoint trimStart (s : list N) : list N :=
  match s with
  | c :: s' => if is_space c then trimStart s' else s
  | [] => []
  end.

Definition trimEnd (s : list N) : list N := rev (trimStart (rev s)).

(** [s.trim()] *)
Definition trim (s : list N) : list N := trimEnd (trimStart s).

(** [s.slice(0, n)] for an integer [0 <= n] *)
Definition slice0 (n : nat) (s : list N) : list N := firstn n s.

(** [parts.join(sep)] *)
Fixpoint join (sep : list N) (parts : list (list N)) : list N :=
  match parts with
  | [] => []
  | [p] => p
  | p :: rest => p ++ sep ++ join sep rest
  end.

End Js.

(** [js "text"] is the list of the code units of an ASCII literal,
    computed where it is written. *)
Notation "'js' s" :=
  (ltac:(let v := eval vm_compute in (Js.lit s) in exact v))
  (at level 8, s at level 0, only parsing).

(* ================================================================== *)
(** * Regular expressions *)
(* ================================================================== *)

(** A backtracking matcher in the style of the ECMAScript semantics
    (continuation passing, leftmost alternative first, greedy or lazy
    repetition).  Every regular expression of the source is written
    as a term of [re] and run by this matcher. *)
Module Regex.

Inductive re : Type :=
| Eps
| Chr (cls : N -> bool)
| Seq (r1 r2 : re)
| Alt (r1 r2 : re)
| Rep (greedy : bool) (min : nat) (max : option nat) (r : re)
| Group (n : nat) (r : re)
| Bol
| Eol
| WordB.

(** A position inside one match attempt: the number of code units
    consumed since the attempt started, the code unit before the
    position (none at the start of the input) and what is left. *)
Record pos : Type := Pos { off : nat; prev : option N; rest : list N }.

(** Capture groups: group number, start and end offset. *)
Definition caps : Type := list (nat * (nat * nat)).

Definition cont : Type := pos -> caps -> option (pos * caps).
Definition matcher : Type := pos -> caps -> cont -> option (pos * caps).

Definition is_word (c : N) : bool :=
  ((48 <=? c) && (c <=? 57) || (65 <=? c) && (c <=? 90)
   || (97 <=? c) && (c <=? 122) || (c =? 95))%N.

Definition word_before (p : pos) : bool :=
  match prev p with Some c => is_word c | None => false end.

Definition word_after (p : pos) : bool :=
  match rest p with c :: _ => is_word c | [] => false end.

Definition max_zero (max : option nat) : bool :=
  match max with Some 0 => true | _ => false end.

Definition max_pred (max : option nat) : option nat :=
  match max with Some n => Some (Nat.pred n) | None => None end.

(** RepeatMatcher of the language specification: an iteration that
    is not required by [min] and consumes nothing is rejected. *)
Fixpoint rep_loop (body : matcher) (greedy : bool) (fuel min : nat)
    (max : option nat) (p : pos) (c : caps) (k : cont) : option (pos * caps) :=
  match fuel with
  | 0 => None
  | S fuel' =>
      if max_zero max then k p c
      else
        let d : cont := fun p' c' =>
          if (min =? 0) && (off p' =? off p) then None
          else rep_loop body greedy fuel' (Nat.pred min) (max_pred max) p' c' k in
        if negb (min =? 0) then body p c d
        else if greedy then
          match body p c d with
          | Some z => Some z
          | None => k p c
          end
        else
          match k p c with
          | Some z => Some z
          | None => body p c d
          end
  end.

Fixpoint m (r : re) (p : pos) (c : caps) (k : cont) {struct r}
  : option (pos * caps) :=
  match r with
  | Eps => k p c
  | Chr cls =>
      match rest p with
      | ch :: tl => if cls ch then k (Pos (S (off p)) (Some ch) tl) c else None
      | [] => None
      end
  | Seq r1 r2 => m r1 p c (fun p' c' => m r2 p' c' k)
  | Alt r1 r2 =>
      match m r1 p c k with
      | Some z => Some z
      | None => m r2 p c k
      end
  | Rep greedy min max r' =>
      rep_loop (m r') greedy (S (min + length (rest p))) min max p c k
  | Group n r' =>
      m r' p c (fun p' c' => k p' ((n, (off p, off p')) :: c'))
  | Bol => match prev p with None => k p c | Some _ => None end
  | Eol => match rest p with [] => k p c | _ :: _ => None end
  | WordB => if xorb (word_before p) (word_after p) then k p c else None
  end.

Arguments rep_loop : simpl never.
Arguments m !r p c k /.

(** One match attempt at a position: the length of the match and
    its captures. *)
Definition match_at (r : re) (before : option N) (s : list N) : option (nat * caps) :=
  match m r (Pos 0 before s) [] (fun p c => Some (p, c)) with
  | Some (p, c) => Some (off p, c)
  | None => None
  end.

(** The leftmost match at or after the current position:
    its start (relative), its length and its captures. *)
Fixpoint search (r : re) (start : nat) (before : option N) (s : list N)
  : option (nat * nat * caps) :=
  match match_at r before s with
  | Some (len, c) => Some (start, len, c)
  | None =>
      match s with
      | ch :: tl => search r (S start) (Some ch) tl
      | [] => None
      end
  end.

(** [regex.test(s)] for a regular expression without the [g] flag. *)
Definition test (r : re) (s : list N) : bool :=
  match search r 0 None s with Some _ => true | None => false end.

(** The text of capture group [n] of a match that starts at [start]. *)
Definition group (s : list N) (start : nat) (c : caps) (n : nat) : option (list N) :=
  match find (fun g => fst g =? n) c with
  | Some (_, (a, b)) => Some (firstn (b - a) (skipn (start + a) s))
  | None => None
  end.

(** [s.replace(regex, repl)] for a regular expression with the [g]
    flag and a replacement text without [$]: every match, left to
    right, the search resuming after each match.  [skip] counts the
    code units of the current match that are still to be dropped. *)
Fixpoint replace_from (r : re) (repl : list N) (before : option N) (skip : nat)
    (s : list N) : list N :=
  match skip with
  | S skip' =>
      match s with
      | ch :: tl => replace_from r repl (Some ch) skip' tl
      | [] => []
      end
  | 0 =>
      match match_at r before s with
      | Some (S len, _) =>
          repl ++ match s with
                  | ch :: tl => replace_from r repl (Some ch) len tl
                  | [] => []
                  end
      | Some (0, _) =>
          repl ++ match s with
                  | ch :: tl => ch :: replace_from r repl (Some ch) 0 tl
                  | [] => []
                  end
      | None =>
          match s with
          | ch :: tl => ch :: replace_from r repl (Some ch) 0 tl
          | [] => []
          end
      end
  end.

Definition replace_all (r : re) (repl : list N) (s : list N) : list N :=
  replace_from r repl None 0 s.

(** [s.split(regex)] for a separator that matches no empty text:
    [piece] is the current piece, reversed. *)
Fixpoint split_from (r : re) (before : option N) (skip : nat)
    (piece s : list N) : list (list N) :=
  match s with
  | [] => [rev piece]
  | ch :: tl =>
      match skip with
      | S skip' => split_from r (Some ch) skip' piece tl
      | 0 =>
          match match_at r before s with
          | Some (S len, _) => rev piece :: split_from r (Some ch) len [] tl
          | _ => split_from r (Some ch) 0 (ch :: piece) tl
          end
      end
  end.

Definition split (r : re) (s : list N) : list (list N) :=
  split_from r None 0 [] s.

(** The successive results of [regex.exec(s)] for a regular
    expression with the [g] flag that matches no empty text: start,
    length and captures of each match. *)
Fixpoint exec_from (r : re) (start : nat) (before : option N) (skip : nat)
    (s : list N) : list (nat * nat * caps) :=
  match s with
  | [] => []
  | ch :: tl =>
      match skip with
      | S skip' => exec_from r (S start) (Some ch) skip' tl
      | 0 =>
          match match_at r before s with
          | Some (S len, c) =>
              (start, S len, c) :: exec_from r (S start) (Some ch) len tl
          | _ => exec_from r (S start) (Some ch) 0 tl
          end
      end
  end.

Definition exec_all (r : re) (s : list N) : list (nat * nat * caps) :=
  exec_from r 0 None 0 s.

(** [s.match(regex)] without the [g] flag: the groups of the
    leftmost match. *)
Definition match_groups (r : re) (s : list N) : option (nat -> list N) :=
  match search r 0 None s with
  | Some (start, _, c) =>
      Some (fun n => match group s start c n with Some t => t | None => [] end)
  | None => None
  end.

(** ** Building blocks *)

Definition seq (rs : list re) : re := fold_right Seq Eps rs.

Definition exactly (c : N) : N -> bool := N.eqb c.

(** Canonicalize of the [i] flag (without [u]): on the Basic Latin
    letters it folds the case; a code unit from 128 on never folds to
    one below 128. *)
Definition upper (c : N) : N :=
  if ((97 <=? c) && (c <=? 122))%N then (c - 32)%N else c.

Definition is_ci (c : N) : N -> bool := fun ch => (upper ch =? upper c)%N.

(** A literal, case sensitive. *)
Definition str (s : list N) : re := seq (map (fun c => Chr (exactly c)) s).

(** A literal under the [i] flag. *)
Definition str_ci (s : list N) : re := seq (map (fun c => Chr (is_ci c)) s).

Definition space : N -> bool := Js.is_space.
Definition non_space : N -> bool := fun c => negb (Js.is_space c).

Definition alnum (c : N) : bool :=
  ((48 <=? c) && (c <=? 57) || (65 <=? c) && (c <=? 90)
   || (97 <=? c) && (c <=? 122))%N.

Definition one_of (s : list N) : N -> bool :=
  fun c => existsb (N.eqb c) s.

(** [.] : anything but a line terminator *)
Definition dot (c : N) : bool :=
  negb ((c =? 10) || (c =? 13) || (c =? 8232) || (c =? 8233))%N.

(** An alternation, leftmost first. *)
Definition alt (rs : list re) : re :=
  match rs with
  | [] => Eps
  | r :: rest => fold_left Alt rest r
  end.

Definition any (c : N) : bool := true.

Definition star (cls : N -> bool) : re := Rep true 0 None (Chr cls).
Definition plus (cls : N -> bool) : re := Rep true 1 None (Chr cls).
Definition opt (r : re) : re := Rep true 0 (Some 1) r.

End Regex.

(* ================================================================== *)
(** * Redaction *)
(* ================================================================== *)

Import Regex.

(** The masking patterns, in the order of the source:
<<
    /sk-[A-Za-z0-9]{20,}/g,
    /(api[_-]?key\s*[:=]\s*\S+)/gi,
    /(token\s*[:=]\s*\S+)/gi,
    /(bearer\s+\S+)/gi,
    /(authorization\s*[:=]\s*\S+)/gi
>> *)
Definition pattern_sk : re :=
  Seq (str (js "sk-")) (Rep true 20 None (Chr alnum)).

Definition pattern_api_key : re :=
  Group 1 (seq [str_ci (js "api"); opt (Chr (one_of (js "_-"))); str_ci (js "key");
                star space; Chr (one_of (js ":=")); star space; plus non_space]).

Definition pattern_token : re :=
  Group 1 (seq [str_ci (js "token"); star space; Chr (one_of (js ":=")); star space;
                plus non_space]).

Definition pattern_bearer : re :=
  Group 1 (seq [str_ci (js "bearer"); plus space; plus non_space]).

Definition pattern_authorization : re :=
  Group 1 (seq [str_ci (js "authorization"); star space; Chr (one_of (js ":="));
                star space; plus non_space]).

Definition patterns : list re :=
  [pattern_sk; pattern_api_key; pattern_token; pattern_bearer;
   pattern_authorization].

Definition placeholder : list N := js "[redacted]".

(** [redactSensitive] (the same text in every plugin that has it):
<<
  if (!enabled || !text) return text || "";
  let out = text;
  for (const pattern of patterns) out = out.replace(pattern, "[redacted]");
  return out;
>> *)
Definition redactSensitive (text : list N) (enabled : bool) : list N :=
  if negb enabled then text
  else match text with
       | [] => []
       | _ => fold_left (fun out pattern => replace_all pattern placeholder out)
                        patterns text
       end.

(* ================================================================== *)
(** * Truncation at the formatting boundary *)
(* ================================================================== *)

(** [truncate] of the layer plugins (goal, timeline, entity, graph,
    episodic/procedural, tool-skill share the same text):
<<
  if (!text || typeof text !== "string") return "";
  if (text.length <= maxChars) return text;
  return text.slice(0, maxChars).trim() + "...";
>> *)
Definition truncate (text : list N) (maxChars : nat) : list N :=
  match text with
  | [] => []
  | _ =>
      if length text <=? maxChars then text
      else Js.trim (Js.slice0 maxChars text) ++ js "..."
  end.

Module Rerank.

(** U+2026 HORIZONTAL ELLIPSIS, one code unit. *)
Definition ellipsis : list N := [8230%N].

(** [truncate] of the rerank plugin: same shape, the suffix is the
    single character U+2026. *)
Definition truncate (text : list N) (maxChars : nat) : list N :=
  match text with
  | [] => []
  | _ =>
      if length text <=? maxChars then text
      else Js.trim (Js.slice0 maxChars text) ++ ellipsis
  end.

(** A scored candidate and the part of the configuration the
    selector reads ([minScore], [minGap], [maxDocuments]). *)
Record item : Type := Item { text : list N; category : list N; score : float }.

Record config : Type :=
  Config { minScore : float; minGap : float; maxDocuments : nat }.

(** The [for] loop of [selectTopCluster]; [selected] is the array
    built so far:
<<
  for (const item of sorted) {
    if (item.score < cfg.minScore) continue;
    if (selected.length === 0) { selected.push(item); continue; }
    const prev = selected[selected.length - 1];
    if (prev.score - item.score <= cfg.minGap) selected.push(item);
    else break;
    if (selected.length >= cfg.maxDocuments) break;
  }
>> *)
Fixpoint select_loop (cfg : config) (selected sorted : list item) : list item :=
  match sorted with
  | [] => selected
  | it :: rest =>
      if PrimFloat.ltb (score it) (minScore cfg) then select_loop cfg selected rest
      else
        match List.last (map Some selected) None with
        | None => select_loop cfg (selected ++ [it]) rest
        | Some prev =>
            if PrimFloat.leb (PrimFloat.sub (score prev) (score it)) (minGap cfg)
            then
              if maxDocuments cfg <=? length (selected ++ [it])
              then selected ++ [it]
              else select_loop cfg (selected ++ [it]) rest
            else selected
        end
  end.

(** [selectTopCluster(sorted, cfg)]:
<<
  if (selected.length === 0) return sorted.slice(0, cfg.maxDocuments);
  return selected.slice(0, cfg.maxDocuments);
>> *)
Definition selectTopCluster (sorted : list item) (cfg : config) : list item :=
  match select_loop cfg [] sorted with
  | [] => firstn (maxDocuments cfg) sorted
  | selected => firstn (maxDocuments cfg) selected
  end.

End Rerank.

(* ================================================================== *)
(** * Temporal decay *)
(* ================================================================== *)

(** Scores and half-lives are modelled as real numbers, timestamps
    as integer milliseconds; [now] is the reading of [Date.now()]. *)

(** [x || d] on a number that may be missing: [undefined] and [0]
    are falsy. *)
Definition or_else (x : option Z) (d : Z) : Z :=
  match x with
  | Some v => if Z.eqb v 0 then d else v
  | None => d
  end.

Module Goal.

(** [computeDecayScore] of the goal plugin (the timeline plugin has
    the same text on [occurredAt]):
<<
  const ageMs = Math.max(0, Date.now() - (updatedAt || Date.now()));
  const halfLifeMs = halfLifeDays * 24 * 60 * 60 * 1000;
  if (halfLifeMs <= 0) return score;
  const decay = Math.exp(-ageMs / halfLifeMs);
  return score * decay;
>> *)
Definition computeDecayScore (now : Z) (score : R) (updatedAt : option Z)
    (halfLifeDays : R) : R :=
  let ageMs := Rmax 0 (IZR (now - or_else updatedAt now)) in
  let halfLifeMs := (halfLifeDays * 24 * 60 * 60 * 1000)%R in
  if Rle_dec halfLifeMs 0 then score
  else (score * exp (- ageMs / halfLifeMs))%R.

End Goal.

Module EpiProc.

(** [computeDecayScore] of the episodic/procedural plugin (the graph
    plugin has the same text): the timestamp is used as it is.
<<
  const ageMs = Math.max(0, Date.now() - createdAt);
>> *)
Definition computeDecayScore (now : Z) (score : R) (createdAt : Z)
    (halfLifeDays : R) : R :=
  let ageMs := Rmax 0 (IZR (now - createdAt)) in
  let halfLifeMs := (halfLifeDays * 24 * 60 * 60 * 1000)%R in
  if Rle_dec halfLifeMs 0 then score
  else (score * exp (- ageMs / halfLifeMs))%R.

End EpiProc.


(* ================================================================== *)
(** * The routing ledger *)
(* ================================================================== *)

(** The ledger is the JSON document [meta.json].  Counters and
    timestamps are integers; a property that is absent is [None].
    [(x || 0)] of the source is [or_else x 0]. *)

(** The double nearest to an integer. *)
Definition Number_of_Z (z : Z) : float :=
  SF2Prim (binary_normalize prec emax z 0 false).

(** [Number(x.toFixed(2))]: the integer [n] for which [n / 100] is
    closest to the exact value of the double [x], the larger one on
    a tie, then the double nearest to [n / 100].  (Faithful while
    [n] is below 2^53; a rate lies between 0 and 1.) *)
Definition hundredths (mant : positive) (e : Z) : Z :=
  if (0 <=? e)%Z then (Z.pos mant * 2 ^ e * 100)%Z
  else ((200 * Z.pos mant + 2 ^ (- e)) / (2 * 2 ^ (- e)))%Z.

Definition Number_toFixed2 (x : float) : float :=
  match Prim2SF x with
  | S754_finite sign mant e =>
      let v := PrimFloat.div (Number_of_Z (hundredths mant e)) (Number_of_Z 100) in
      if sign then PrimFloat.opp v else v
  | S754_zero _ => PrimFloat.zero
  | S754_infinity _ => x
  | S754_nan => PrimFloat.nan
  end.

(** [Math.round(a / b)] on integers, [b] not 0: the quotient rounded
    to the nearest integer, halves upwards. *)
Definition round_div (a b : Z) : Z := ((2 * a + b) / (2 * b))%Z.

Module MetaRouting.

(** One entry of [routing_stats.layers]. *)
Record entry : Type := Entry {
  activations : option Z;
  chars_injected : option Z;
  useful_up : option Z;
  useful_down : option Z;
  useful_rate : option float;
  last_activated_at : option Z;
  last_feedback_at : option Z
}.

(** [routing_stats] *)
Record stats : Type := Stats {
  layers : option (gmap (list N) entry);
  total_activations : option Z;
  total_chars_injected : option Z;
  current_session_chars : option Z;
  current_session_activations : option Z;
  sessions : option Z;
  total_session_chars : option Z;
  total_session_activations : option Z;
  after_routing_avg : option Z;
  last_session_chars : option Z;
  last_session_activations : option Z;
  last_updated_at : option Z
}.

(** [token_savings]; the baseline [before_routing_avg] is written
    by the user. *)
Record token : Type := Token {
  tk_after_routing_avg : option Z;
  before_routing_avg : option Z;
  saved_last_session : option Z;
  saved_total : option Z;
  week_start : option Z;
  saved_this_week : option Z
}.

(** The part of [meta.json] the ledger functions touch. *)
Record meta : Type := Meta {
  routing_stats : option stats;
  token_savings : option token
}.

(** [{}] *)
Definition empty_stats : stats :=
  Stats None None None None None None None None None None None None.

Definition empty_token : token := Token None None None None None None.

(** The object literal of [ensureLayer]:
    [{activations: 0, chars_injected: 0, useful_up: 0,
      useful_down: 0, last_activated_at: null}]. *)
Definition fresh_entry : entry :=
  Entry (Some 0%Z) (Some 0%Z) (Some 0%Z) (Some 0%Z) None None None.

Definition with_layers (st : stats) (ls : gmap (list N) entry) : stats :=
  Stats (Some ls)
        (total_activations st) (total_chars_injected st)
        (current_session_chars st) (current_session_activations st)
        (sessions st) (total_session_chars st) (total_session_activations st)
        (after_routing_avg st) (last_session_chars st)
        (last_session_activations st) (last_updated_at st).

Definition with_last_updated (st : stats) (now : Z) : stats :=
  Stats (layers st)
        (total_activations st) (total_chars_injected st)
        (current_session_chars st) (current_session_activations st)
        (sessions st) (total_session_chars st) (total_session_activations st)
        (after_routing_avg st) (last_session_chars st)
        (last_session_activations st) (Some now).

(** [ensureLayer(stats, layer)]: the entry of the layer, created
    (with the map itself if need be) when it is not there.
<<
  const layers = stats.layers || (stats.layers = {});
  const entry = layers[layer] || (layers[layer] = {...});
>> *)
Definition ensureLayer (st : stats) (layer : list N) : stats * entry :=
  let ls := default ∅ (layers st) in
  match ls !! layer with
  | Some e => (with_layers st ls, e)
  | None => (with_layers st (<[layer := fresh_entry]> ls), fresh_entry)
  end.

(** Writing through the entry object, which lives in the map. *)
Definition put_entry (st : stats) (layer : list N) (e : entry) : stats :=
  with_layers st (<[layer := e]> (default ∅ (layers st))).

(** The feedback step shared by [recordRoutingFeedback] and
    [applyFeedback]:
<<
  if (useful) entry.useful_up = (entry.useful_up || 0) + 1;
  else entry.useful_down = (entry.useful_down || 0) + 1;
  const total = (entry.useful_up || 0) + (entry.useful_down || 0);
  if (total > 0)
    entry.useful_rate = Number((entry.useful_up / total).toFixed(2));
  entry.last_feedback_at = Date.now();
>> *)
Definition rate (up : option Z) (total : Z) : float :=
  match up with
  | Some u => Number_toFixed2 (PrimFloat.div (Number_of_Z u) (Number_of_Z total))
  | None => PrimFloat.nan
  end.

Definition feedback_entry (now : Z) (useful : bool) (e : entry) : entry :=
  let up := if useful then Some (or_else (useful_up e) 0 + 1)%Z else useful_up e in
  let down := if useful then useful_down e else Some (or_else (useful_down e) 0 + 1)%Z in
  let total := (or_else up 0 + or_else down 0)%Z in
  Entry (activations e) (chars_injected e) up down
        (if (0 <? total)%Z then Some (rate up total) else useful_rate e)
        (last_activated_at e) (Some now).

(** [recordRoutingFeedback(layer, useful)]; the ledger file is read,
    updated and written back. *)
Definition recordRoutingFeedback (now : Z) (layer : list N) (useful : bool)
    (file : meta) : meta :=
  match layer with
  | [] => file
  | _ =>
      let st := default empty_stats (routing_stats file) in
      let (st1, e) := ensureLayer st layer in
      let st2 := put_entry st1 layer (feedback_entry now useful e) in
      Meta (Some (with_last_updated st2 now)) (token_savings file)
  end.

(** [recordRouting(layer, chars)] *)
Definition recordRouting (now : Z) (layer : list N) (chars : Z) (file : meta) : meta :=
  match layer with
  | [] => file
  | _ =>
      let st := default empty_stats (routing_stats file) in
      let (st1, e0) := ensureLayer st layer in
      let e := Entry (Some (or_else (activations e0) 0 + 1)%Z)
                     (Some (or_else (chars_injected e0) 0 + chars)%Z)
                     (useful_up e0) (useful_down e0) (useful_rate e0)
                     (Some now) (last_feedback_at e0) in
      let st2 := put_entry st1 layer e in
      Meta (Some (Stats (layers st2)
                    (Some (or_else (total_activations st) 0 + 1)%Z)
                    (Some (or_else (total_chars_injected st) 0 + chars)%Z)
                    (Some (or_else (current_session_chars st) 0 + chars)%Z)
                    (Some (or_else (current_session_activations st) 0 + 1)%Z)
                    (sessions st) (total_session_chars st)
                    (total_session_activations st) (after_routing_avg st)
                    (last_session_chars st) (last_session_activations st)
                    (Some now)))
           (token_savings file)
  end.

End MetaRouting.

Module Meta.

Import MetaRouting.

(** [startOfWeek(ts)]: the Monday 00:00 UTC at or before [ts]
    (the first of January 1970 was a Thursday, [getUTCDay() = 4]). *)
Definition startOfWeek (ts : Z) : Z :=
  let days := (ts / 86400000)%Z in
  let day := ((days + 4) mod 7)%Z in
  let diff := ((day + 6) mod 7)%Z in
  ((days - diff) * 86400000)%Z.

(** [applyFeedback(meta, feedbacks)]: every item of the list, in
    order, on the ledger in memory.
<<
  if (!feedbacks || !feedbacks.length) return;
  const stats = meta.routing_stats || (meta.routing_stats = {});
  const layers = stats.layers || (stats.layers = {});
  for (const fb of feedbacks) {
    if (!fb || !fb.layer) continue;
    const entry = layers[fb.layer] || (layers[fb.layer] = {...});
    ...
  }
  stats.last_updated_at = Date.now();
>> *)
Definition apply_one (now : Z) (st : stats) (fb : list N * bool) : stats :=
  match fst fb with
  | [] => st
  | layer =>
      let (st1, e) := ensureLayer st layer in
      put_entry st1 layer (feedback_entry now (snd fb) e)
  end.

Definition applyFeedback (now : Z) (m : meta) (feedbacks : list (list N * bool)) : meta :=
  match feedbacks with
  | [] => m
  | _ =>
      let st := default empty_stats (routing_stats m) in
      let st0 := with_layers st (default ∅ (layers st)) in
      let st1 := fold_left (apply_one now) feedbacks st0 in
      Meta (Some (with_last_updated st1 now)) (token_savings m)
  end.

(** [finalizeRoutingSession(meta)]:
<<
  const sessionChars = stats.current_session_chars || 0;
  const sessionActs = stats.current_session_activations || 0;
  stats.sessions = (stats.sessions || 0) + 1;
  stats.total_session_chars = (stats.total_session_chars || 0) + sessionChars;
  stats.total_session_activations = (stats.total_session_activations || 0) + sessionActs;
  stats.after_routing_avg = stats.sessions
    ? Math.round(stats.total_session_chars / stats.sessions) : 0;
  stats.last_session_chars = sessionChars;
  stats.last_session_activations = sessionActs;
  stats.current_session_chars = 0;
  stats.current_session_activations = 0;
>> *)
Definition finalizeRoutingSession (m : meta) : meta :=
  let st := default empty_stats (routing_stats m) in
  let sessionChars := or_else (current_session_chars st) 0 in
  let sessionActs := or_else (current_session_activations st) 0 in
  let n := (or_else (sessions st) 0 + 1)%Z in
  let total := (or_else (total_session_chars st) 0 + sessionChars)%Z in
  let acts := (or_else (total_session_activations st) 0 + sessionActs)%Z in
  Meta (Some (Stats (layers st) (total_activations st) (total_chars_injected st)
                (Some 0%Z) (Some 0%Z)
                (Some n) (Some total) (Some acts)
                (Some (if (n =? 0)%Z then 0%Z else round_div total n))
                (Some sessionChars) (Some sessionActs)
                (last_updated_at st)))
       (token_savings m).

(** [updateTokenSavings(meta)]:
<<
  const stats = meta.routing_stats;
  if (!stats) return;
  const token = meta.token_savings || (meta.token_savings = {});
  if (stats.after_routing_avg !== undefined)
    token.after_routing_avg = stats.after_routing_avg;
  const before = Number(token.before_routing_avg);
  if (!Number.isFinite(before)) return;
  const last = Number(stats.last_session_chars || 0);
  const saved = Math.max(0, Math.round(before - last));
  token.saved_last_session = saved;
  token.saved_total = (token.saved_total || 0) + saved;
  const now = Date.now();
  const weekStart = Number.isFinite(token.week_start)
    ? token.week_start : startOfWeek(now);
  if (now - weekStart >= 7 * 24 * 60 * 60 * 1000) {
    token.week_start = startOfWeek(now);
    token.saved_this_week = 0;
  }
  token.saved_this_week = (token.saved_this_week || 0) + saved;
>> *)
Definition updateTokenSavings (now : Z) (m : meta) : meta :=
  match routing_stats m with
  | None => m
  | Some st =>
      let tk := default empty_token (token_savings m) in
      let after := match after_routing_avg st with
                   | Some v => Some v
                   | None => tk_after_routing_avg tk
                   end in
      match before_routing_avg tk with
      | None =>
          Meta (Some st)
               (Some (Token after None (saved_last_session tk) (saved_total tk)
                            (week_start tk) (saved_this_week tk)))
      | Some before =>
          let last := or_else (last_session_chars st) 0 in
          let saved := Z.max 0 (before - last) in
          let weekStart := default (startOfWeek now) (week_start tk) in
          let elapsed := (7 * 24 * 60 * 60 * 1000 <=? now - weekStart)%Z in
          let ws := if elapsed then Some (startOfWeek now) else week_start tk in
          let week := if elapsed then Some 0%Z else saved_this_week tk in
          Meta (Some st)
               (Some (Token after (Some before) (Some saved)
                            (Some (or_else (saved_total tk) 0 + saved)%Z)
                            ws (Some (or_else week 0 + saved)%Z)))
      end
  end.

End Meta.

(* ================================================================== *)
(** * The host, the embedding provider and the vector store *)
(* ================================================================== *)

(** Handlers are [async] functions registered on the host bus.  A
    handler is modelled as a computation over the state of the world
    that either returns or throws (a rejected promise); the external
    collaborators answer as the environment [host] says. *)

(** JSON values handed to the store. *)
Inductive json : Type :=
| JNull
| JBool (b : bool)
| JNum (z : Z)
| JStr (s : list N)
| JArr (items : list json)
| JObj (props : list (list N * json)).

(** An embedding. *)
Definition vector : Type := list float.

(** A row as [VectorTable.search] returns it. *)
Record hit : Type := Hit {
  hit_text : list N;
  hit_score : float;
  hit_columns : list (list N * json)
}.

(** A candidate of [openclaw ltm search] (rerank plugin). *)
Record candidate : Type := Candidate {
  cand_text : list N;
  cand_category : option (list N);
  cand_score : option float
}.

(** What a handler does to the outside, in order. *)
Inductive call : Type :=
| Embed (text : list N)
| Search (table : list N) (v : vector) (limit : nat)
| Store (table : list N) (text : list N) (v : vector)
        (columns : list (list N * json))
| LtmSearch (query : list N)
| Score (query doc : list N)
| Warn (msg : list N).

(** The answers of the collaborators; the first argument is the
    number of calls made so far, so the same request may succeed once
    and fail later.  [inl msg] is a failure ([String(err)] is [msg]).
    [score_reply] is [scoreCandidate], which catches its own
    failures and answers [null]. *)
Record host : Type := Host {
  embed_reply : nat -> list N -> list N + vector;
  search_reply : nat -> list N -> vector -> nat -> list N + list hit;
  store_reply : nat -> list N -> list N + unit;
  ltm_reply : nat -> list N -> list N + list candidate;
  score_reply : nat -> list N -> list N -> option float;
  now_at : nat -> Z
}.

(** An entry of the lookup index [entities.json]. *)
Record index_entry : Type := IndexEntry {
  ix_name : list N;
  ix_type : list N;
  ix_summary : list N;
  ix_updatedAt : Z
}.

(** The state of the world a handler can change: the calls made,
    the number of clock readings, the ledger file [meta.json] and
    the index file of the entity plugin (a JSON object, its keys in
    insertion order). *)
Record world : Type := World {
  calls : list call;
  clock_reads : nat;
  ledger : MetaRouting.meta;
  entities_json : list (list N * index_entry)
}.

Inductive outcome (A : Type) : Type :=
| Returned (a : A)
| Thrown (err : list N).

Arguments Returned {A} a.
Arguments Thrown {A} err.

Definition M (A : Type) : Type := host -> world -> world * outcome A.

Definition ret {A} (a : A) : M A := fun _ w => (w, Returned a).

Definition bind {A B} (m : M A) (k : A -> M B) : M B :=
  fun h w =>
    match m h w with
    | (w', Returned a) => k a h w'
    | (w', Thrown err) => (w', Thrown err)
    end.

Notation "'let!' x ':=' m 'in' k" := (bind m (fun x => k))
  (at level 10, x pattern, m at level 100, k at level 200).

Notation "m ';;' k" := (bind m (fun _ => k))
  (at level 100, k at level 200, right associativity).

(** [try { body } catch (err) { handler }] *)
Definition try_catch {A} (body : M A) (handler : list N -> M A) : M A :=
  fun h w =>
    match body h w with
    | (w', Returned a) => (w', Returned a)
    | (w', Thrown err) => handler err h w'
    end.

Definition log (c : call) (w : world) : world :=
  World (calls w ++ [c]) (clock_reads w) (ledger w) (entities_json w).

Definition answer {A} (r : list N + A) : outcome A :=
  match r with
  | inl err => Thrown err
  | inr a => Returned a
  end.

(** [await embeddings.embed(text)] *)
Definition embed (text : list N) : M vector :=
  fun h w => (log (Embed text) w, answer (embed_reply h (length (calls w)) text)).

(** [await table.search(vector, limit)] *)
Definition search_table (table : list N) (v : vector) (limit : nat) : M (list hit) :=
  fun h w => (log (Search table v limit) w,
              answer (search_reply h (length (calls w)) table v limit)).

(** [await table.store({text, vector, ...columns})] *)
Definition store (table text : list N) (v : vector)
    (columns : list (list N * json)) : M unit :=
  fun h w => (log (Store table text v columns) w,
              answer (store_reply h (length (calls w)) table)).

(** [api.logger?.warn?.(msg)] *)
Definition warn (msg : list N) : M unit :=
  fun _ w => (log (Warn msg) w, Returned tt).

(** [Date.now()] *)
Definition date_now : M Z :=
  fun h w => (World (calls w) (S (clock_reads w)) (ledger w) (entities_json w),
              Returned (now_at h (clock_reads w))).

(** [recordRouting(layer, chars)] of the shared helper: it reads the
    clock and rewrites the ledger file; it does not throw. *)
Definition recordRouting (layer : list N) (chars : nat) : M unit :=
  fun h w =>
    (World (calls w) (S (clock_reads w))
           (MetaRouting.recordRouting (now_at h (clock_reads w)) layer
              (Z.of_nat chars) (ledger w))
           (entities_json w),
     Returned tt).

(** A [for ... of] loop whose body may change the loop state. *)
Fixpoint for_each {A S} (xs : list A) (body : A -> S -> M S) (s : S) : M S :=
  match xs with
  | [] => ret s
  | x :: rest => let! s' := body x s in for_each rest body s'
  end.

(** ** Messages *)

Record block : Type := Block { block_type : list N; block_text : option (list N) }.

Inductive content : Type :=
| Text (s : list N)
| Blocks (bs : list block)
| OtherContent.

Record message : Type := Message { role : list N; msg_content : content }.

(** The event of [agent_end]. *)
Record turn_end : Type := TurnEnd {
  messages : list message;
  success : bool;
  durationMs : Z
}.

(** The event of [before_agent_start]; the prompt may be missing. *)
Record turn_start : Type := TurnStart { prompt : option (list N) }.

(** [extractTextContent(content)] *)
Definition extractTextContent (c : content) : list N :=
  match c with
  | Text s => s
  | Blocks bs =>
      Js.join [10%N]
        (flat_map (fun b =>
                     if bool_decide (block_type b = js "text")
                     then match block_text b with Some t => [t] | None => [] end
                     else [])
                  bs)
  | OtherContent => []
  end.

(** The texts of the messages with one of the given roles:
<<
  for (const msg of event.messages) {
    if (msg.role !== "user" && msg.role !== "assistant") continue;
    const text = extractTextContent(msg.content);
    if (text) texts.push(text);
  }
>> *)
Definition texts_of (roles : list (list N)) (msgs : list message) : list (list N) :=
  flat_map (fun msg =>
              if existsb (fun r => bool_decide (role msg = r)) roles
              then match extractTextContent (msg_content msg) with
                   | [] => []
                   | text => [text]
                   end
              else [])
           msgs.

Definition nl : list N := [10%N].

(** The text of a column, when it is there and is a string. *)
Definition assoc_text (key : list N) (columns : list (list N * json)) : option (list N) :=
  match find (fun kv => bool_decide (fst kv = key)) columns with
  | Some (_, JStr s) => Some s
  | _ => None
  end.

(** [x || d] on strings: the empty string is falsy. *)
Definition or_text (x d : list N) : list N :=
  match x with [] => d | _ => x end.

(* ================================================================== *)
(** * The plugins *)
(* ================================================================== *)

Inductive captureMode : Type := Explicit | ExplicitOrPattern | Pattern.

(** The normalized configuration of a layer that embeds
    ([normalizeConfig]); [halfLifeDays] and [minScore] are read by
    the ranking stage only. *)
Record layer_config : Type := LayerConfig {
  recallLimit : nat;
  alwaysRecall : bool;
  capture_mode : captureMode;
  maxChars : nat;
  redaction_enabled : bool
}.

(** A draft of [parseGoals]. *)
Record goal : Type := Goal {
  goal_text : list N;
  goal_status : list N;
  goal_priority : list N;
  goal_owner : list N;
  goal_details : list (list N)
}.

(** A draft of [extractEntitiesFromText]. *)
Record entity : Type := Entity {
  entity_type : list N;
  entity_name : list N;
  entity_details : list (list N)
}.

(** The configuration of the episodic/procedural plugin, per kind. *)
Record epiproc_config : Type := EpiprocConfig {
  episodic_enabled : bool;
  episodic : layer_config;
  procedural_enabled : bool;
  procedural : layer_config
}.

(** [n] in decimal, as in a template literal. *)
Fixpoint decimal_digits (fuel n : nat) (acc : list N) : list N :=
  match fuel with
  | 0 => acc
  | S fuel' =>
      let acc' := N.of_nat (48 + n mod 10) :: acc in
      if n <? 10 then acc' else decimal_digits fuel' (n / 10) acc'
  end.

Definition decimal (n : nat) : list N := decimal_digits (S n) n [].

(** [s.includes(t)] *)
Fixpoint starts_with (t s : list N) : bool :=
  match t, s with
  | [], _ => true
  | a :: t', b :: s' => (a =? b)%N && starts_with t' s'
  | _ :: _, [] => false
  end.

Fixpoint includes (s t : list N) : bool :=
  starts_with t s || match s with [] => false | _ :: s' => includes s' t end.

(** [obj[key] = value] on a JSON object kept in insertion order. *)
Fixpoint assign {V} (key : list N) (value : V) (obj : list (list N * V))
  : list (list N * V) :=
  match obj with
  | [] => [(key, value)]
  | (k, v) :: rest =>
      if bool_decide (k = key) then (k, value) :: rest
      else (k, v) :: assign key value rest
  end.

(** An injected block: [<tag>[\s\S]*?</tag>] under [gi]. *)
Definition injected_block (tag : list N) : Regex.re :=
  Regex.seq [str_ci (js "<" ++ tag ++ js ">");
             Rep false 0 None (Chr any);
             str_ci (js "</" ++ tag ++ js ">")].

(** [stripInjected] of the entity plugin. *)
Definition entity_stripInjected (text : list N) : list N :=
  fold_left (fun t tag => replace_all (injected_block tag) [] t)
    [js "relevant-memories"; js "episodic-memories"; js "procedural-memories";
     js "tool-skill-memories"; js "entity-memories"]
    text.

(** [text.split(/\r?\n/)] *)
Definition split_lines (text : list N) : list (list N) :=
  Regex.split (Seq (opt (Chr (exactly 13))) (Chr (exactly 10))) text.

(** A prefix line [^\s*(tag|...)\s*[:\-]\s*(.+)$] under [i]. *)
Definition prefix_line (tags : list (list N)) : Regex.re :=
  Regex.seq [Bol; star space; Group 1 (alt (map str_ci tags)); star space;
             Chr (one_of (js ":-")); star space;
             Group 2 (plus dot); Eol].

Definition entity_tags : list (list N) :=
  [js "entity"; js "perfil"; js "profile"; js "client"; js "cliente";
   js "staff"; js "equipo"; js "team"; js "service"; js "svc"; js "vendor";
   js "proveedor"; js "partner"; js "project"; js "producto"; js "product";
   js "app"; js "sistema"].

Definition TYPE_MAP : list (list N * list N) :=
  [(js "entity", js "entity"); (js "perfil", js "entity");
   (js "profile", js "entity"); (js "client", js "client");
   (js "cliente", js "client"); (js "staff", js "staff");
   (js "equipo", js "staff"); (js "team", js "staff");
   (js "service", js "service"); (js "svc", js "service");
   (js "vendor", js "vendor"); (js "proveedor", js "vendor");
   (js "partner", js "partner"); (js "project", js "project");
   (js "producto", js "product"); (js "product", js "product");
   (js "app", js "service"); (js "sistema", js "service")].

(** The inline pattern of the entity plugin:
    [\b(client|...)\s+([A-Za-z0-9][\w ._-]{2,60})] under [gi]. *)
Definition entity_inline : Regex.re :=
  Regex.seq [WordB;
             Group 1 (alt (map str_ci
               [js "client"; js "cliente"; js "staff"; js "service"; js "svc";
                js "vendor"; js "proveedor"; js "partner"; js "project";
                js "producto"; js "product"; js "app"; js "sistema"]));
             plus space;
             Group 2 (Seq (Chr alnum)
                          (Rep true 2 (Some 60)
                             (Chr (fun c => is_word c || one_of (js " ._-") c))))].

Definition timeline_tags : list (list N) :=
  [js "event"; js "evento"; js "timeline"; js "time"; js "fecha"; js "when";
   js "incident"; js "incidente"; js "deploy"; js "release"].

(** [extractEvents] of the timeline plugin. *)
Definition extractEvents (text : list N) : list (list N) :=
  flat_map (fun raw =>
              match Js.trim raw with
              | [] => []
              | line =>
                  match match_groups (prefix_line timeline_tags) line with
                  | Some g => [Js.trim (g 2)]
                  | None => []
                  end
              end)
           (split_lines text).

Section Engine.

(** ** What is taken from the runtime and from the layer tables *)

(** [String.prototype.toLowerCase]. *)
Variable toLowerCase : list N -> list N.

(** [formatIso]: [new Date(ts).toISOString()], [""] when it throws. *)
Variable formatIso : Z -> list N.

(** [parseDateFromText] of the timeline plugin (a pure function over
    [Date.UTC] and [Date.parse]). *)
Variable parseDateFromText : list N -> option Z.

(** [parseGoals] of the goal plugin (a pure function of the text
    and the capture mode). *)
Variable parseGoals : list N -> captureMode -> list goal.

(** The keyword tests of the layers, regular expressions over the
    lower-cased prompt. *)
Variable shouldRecallGoals : list N -> bool.
Variable timeline_shouldRecall : list N -> bool.
Variable shouldRecallGraph : list N -> bool.
Variable shouldRecallEpisodic : list N -> bool.
Variable shouldRecallProcedural : list N -> bool.
Variable shouldRecallEntities : list N -> bool.
Variable meta_shouldRecall : list N -> bool.
Variable sentiment_shouldRecall : list N -> bool.
Variable blackboard_shouldRecall : list N -> bool.

(** The ranking and formatting stages, pure functions of the rows
    found and of the clock: decay, threshold, order, cut and the
    lines shown. *)
Variable goal_lines : Z -> list hit -> list (list N).
Variable timeline_lines : Z -> list hit -> list (list N).
Variable graph_lines : Z -> list hit -> list (list N).
Variable rank_entries : layer_config -> Z -> list hit -> list hit.
Variable procedural_rate : hit -> list N.

(** What the file-backed layers read from their state files. *)
Variable meta_report : list (list N).
Variable sentiment_report : option (list N).
Variable blackboard_report : list (list N).
Variable toolskill_summaries : list N -> bool -> list (list N).

(** ** Recall gate *)

(** [!event?.prompt || event.prompt.length < min] is false: the
    prompt, when the handler goes on. *)
Definition usable_prompt (min : nat) (event : option turn_start) : option (list N) :=
  match event with
  | Some e =>
      match prompt e with
      | Some (c :: p) => if length (c :: p) <? min then None else Some (c :: p)
      | _ => None
      end
  | None => None
  end.

(** The embedding layers that share one handler text (goal,
    timeline, graph):
<<
  if (!event?.prompt || event.prompt.length < 3) return;
  if (!cfg.alwaysRecall && !shouldRecall(event.prompt)) return;
  try {
    const vector = await embeddings.embed(event.prompt);
    const results = await table.search(vector, cfg.recallLimit * 3);
    const rescored = ...;
    if (!rescored.length) return;
    const lines = ...;
    const body = truncate(lines.join("\n"), cfg.maxChars);
    recordRouting(layer, body.length);
    return { prependContext: `<tag>\n${body}\n</tag>` };
  } catch (err) {
    api.logger?.warn?.(`memory-...: recall failed: ${String(err)}`);
  }
>> *)
Definition vector_recall (keywords : list N -> bool)
    (lines_of : Z -> list hit -> list (list N))
    (table layer tag plugin : list N)
    (cfg : layer_config) (event : option turn_start) : M (option (list N)) :=
  match usable_prompt 3 event with
  | None => ret None
  | Some p =>
      if negb (alwaysRecall cfg) && negb (keywords p) then ret None
      else
        try_catch
          (let! v := embed p in
           let! results := search_table table v (recallLimit cfg * 3) in
           match results with
           | [] => ret None
           | _ =>
               let! now := date_now in
               match lines_of now results with
               | [] => ret None
               | lines =>
                   let body := truncate (Js.join nl lines) (maxChars cfg) in
                   recordRouting layer (length body);;
                   ret (Some (js "<" ++ tag ++ js ">" ++ nl ++ body ++ nl
                              ++ js "</" ++ tag ++ js ">"))
               end
           end)
          (fun err => warn (plugin ++ js ": recall failed: " ++ err);; ret None)
  end.

Definition goal_before_agent_start : layer_config -> option turn_start -> M (option (list N)) :=
  vector_recall shouldRecallGoals goal_lines
    (js "goals") (js "goal") (js "goal-intent") (js "memory-goal").

Definition timeline_before_agent_start : layer_config -> option turn_start -> M (option (list N)) :=
  vector_recall timeline_shouldRecall timeline_lines
    (js "timeline") (js "timeline") (js "timeline") (js "memory-timeline").

Definition graph_before_agent_start : layer_config -> option turn_start -> M (option (list N)) :=
  vector_recall shouldRecallGraph graph_lines
    (js "edges") (js "graph") (js "causal-graph") (js "memory-graph").

(** [recallEntries] of the episodic/procedural plugin. *)
Definition recallEntries (table query : list N) (cfg : layer_config) : M (list hit) :=
  let! v := embed query in
  let! raw := search_table table v (recallLimit cfg * 3) in
  match raw with
  | [] => ret []
  | _ => let! now := date_now in ret (rank_entries cfg now raw)
  end.

Definition numbered (lines : list (list N)) : list (list N) :=
  map (fun il => decimal (S (fst il)) ++ js ". " ++ snd il)
      (combine (List.seq 0 (length lines)) lines).

(** [formatEpisodicContext] *)
Definition formatEpisodicContext (entries : list hit) : list N :=
  match entries with
  | [] => []
  | _ =>
      js "<episodic-memories>" ++ nl
      ++ Js.join nl (numbered (map (fun it => truncate (hit_text it) 400) entries))
      ++ nl ++ js "</episodic-memories>"
  end.

(** [formatProceduralContext] *)
Definition formatProceduralContext (entries : list hit) : list N :=
  match entries with
  | [] => []
  | _ =>
      js "<procedural-memories>" ++ nl
      ++ Js.join nl
           (numbered (map (fun it => truncate (hit_text it) 420 ++ nl
                                     ++ js "   Success rate: " ++ procedural_rate it)
                          entries))
      ++ nl ++ js "</procedural-memories>"
  end.

(** One of the two blocks of the episodic/procedural handler. *)
Definition epiproc_part (table layer what : list N) (format : list hit -> list N)
    (cfg : layer_config) (p : list N) (parts : list (list N)) : M (list (list N)) :=
  try_catch
    (let! found := recallEntries table p cfg in
     match format found with
     | [] => ret parts
     | formatted =>
         recordRouting layer (length formatted);;
         ret (parts ++ [formatted])
     end)
    (fun err => warn (js "memory-epiproc: " ++ what ++ js " recall failed: " ++ err);;
                ret parts).

(** [before_agent_start] of the episodic/procedural plugin. *)
Definition epiproc_before_agent_start (cfg : epiproc_config)
    (event : option turn_start) : M (option (list N)) :=
  match usable_prompt 5 event with
  | None => ret None
  | Some p =>
      let episodicAllowed :=
        episodic_enabled cfg
        && (alwaysRecall (episodic cfg) || shouldRecallEpisodic p) in
      let proceduralAllowed :=
        procedural_enabled cfg
        && (alwaysRecall (procedural cfg) || shouldRecallProcedural p) in
      if negb episodicAllowed && negb proceduralAllowed then ret None
      else
        let! parts :=
          (if episodicAllowed
           then epiproc_part (js "episodes") (js "episodic") (js "episodic")
                  formatEpisodicContext (episodic cfg) p []
           else ret []) in
        let! parts :=
          (if proceduralAllowed
           then epiproc_part (js "procedures") (js "procedural") (js "procedural")
                  formatProceduralContext (procedural cfg) p parts
           else ret parts) in
        match parts with
        | [] => ret None
        | _ => ret (Some (Js.join (nl ++ nl) parts))
        end
  end.

(** [loadIndex(indexPath)] *)
Definition loadIndex : M (list (list N * index_entry)) :=
  fun _ w => (w, Returned (entities_json w)).

(** [saveIndex(indexPath, index)] *)
Definition saveIndex (index : list (list N * index_entry)) : M unit :=
  fun _ w => (World (calls w) (clock_reads w) (ledger w) index, Returned tt).

(** An item of the entity recall: name, type, summary. *)
Definition entity_key (type name : list N) : list N :=
  toLowerCase type ++ js "::" ++ toLowerCase name.

(** The merge of the index matches and the rows found:
<<
  if (seen.has(key)) continue;
  seen.add(key);
  combined.push(entry);
  if (combined.length >= cfg.recallLimit) break;
>>
    [limit] is the room left in [combined]. *)
Fixpoint entity_combine (limit : nat) (seen : gset (list N))
    (entries : list (list N * list N * list N)) : list (list N * list N * list N) :=
  match entries with
  | [] => []
  | (name, type, summary) :: rest =>
      let key := entity_key (or_text type (js "entity")) name in
      if bool_decide (key ∈ seen) then entity_combine limit seen rest
      else if limit <=? 1 then [(name, type, summary)]
      else (name, type, summary)
             :: entity_combine (Nat.pred limit) ({[key]} ∪ seen) rest
  end.

(** [before_agent_start] of the entity plugin; [minScore] is the
    threshold handed to [table.search], applied there. *)
Definition entity_before_agent_start (cfg : layer_config)
    (event : option turn_start) : M (option (list N)) :=
  match usable_prompt 3 event with
  | None => ret None
  | Some p =>
      let! index := loadIndex in
      let promptLower := toLowerCase p in
      let matched :=
        flat_map (fun kv =>
                    match ix_name (snd kv) with
                    | [] => []
                    | name =>
                        if includes promptLower (toLowerCase name)
                        then [(name, ix_type (snd kv), ix_summary (snd kv))]
                        else []
                    end)
                 index in
      let allowVector := alwaysRecall cfg || shouldRecallEntities p in
      let! vectorResults :=
        (if allowVector
         then try_catch
                (let! v := embed p in
                 let! results := search_table (js "entities") v (recallLimit cfg) in
                 ret (map (fun it =>
                             (match assoc_text (js "name") (hit_columns it) with
                              | Some n => n | None => [] end,
                              match assoc_text (js "type") (hit_columns it) with
                              | Some t => t | None => [] end,
                              hit_text it))
                          results))
                (fun err => warn (js "memory-entity: recall failed: " ++ err);;
                            ret [])
         else ret []) in
      match entity_combine (recallLimit cfg) ∅ (matched ++ vectorResults) with
      | [] => ret None
      | combined =>
          let lines :=
            numbered (map (fun e =>
                             match e with
                             | (_, type, summary) =>
                                 match type with
                                 | [] => js "[entity]"
                                 | _ => js "[" ++ type ++ js "]"
                                 end ++ js " " ++ truncate summary 400
                             end)
                          combined) in
          let body := truncate (Js.join nl lines) (maxChars cfg) in
          recordRouting (js "entity") (length body);;
          ret (Some (js "<entity-memories>" ++ nl ++ body ++ nl
                     ++ js "</entity-memories>"))
      end
  end.

(** The file-backed layers (meta, sentiment, blackboard, tool-skill)
    make no external call; they read a state file and report. *)
Definition meta_before_agent_start (always : bool) (max : nat)
    (event : option turn_start) : M (option (list N)) :=
  match usable_prompt 3 event with
  | None => ret None
  | Some p =>
      if negb always && negb (meta_shouldRecall p) then ret None
      else
        match meta_report with
        | [] => ret None
        | lines =>
            let body := Js.slice0 max (Js.join nl lines) in
            recordRouting (js "meta") (length body);;
            ret (Some (js "<meta-memory>" ++ nl ++ body ++ nl ++ js "</meta-memory>"))
        end
  end.

Definition sentiment_before_agent_start (always : bool)
    (event : option turn_start) : M (option (list N)) :=
  match usable_prompt 3 event with
  | None => ret None
  | Some p =>
      if negb always && negb (sentiment_shouldRecall p) then ret None
      else
        match sentiment_report with
        | None => ret None
        | Some body =>
            recordRouting (js "sentiment") (length body);;
            ret (Some (js "<sentiment-memory>" ++ nl ++ body ++ nl
                       ++ js "</sentiment-memory>"))
        end
  end.

Definition blackboard_before_agent_start (always : bool)
    (event : option turn_start) : M (option (list N)) :=
  match usable_prompt 2 event with
  | None => ret None
  | Some p =>
      if negb always && negb (blackboard_shouldRecall p) then ret None
      else
        match blackboard_report with
        | [] => ret None
        | lines =>
            let body := Js.join nl lines in
            recordRouting (js "blackboard") (length body);;
            ret (Some (js "<collab-blackboard>" ++ nl ++ body ++ nl
                       ++ js "</collab-blackboard>"))
        end
  end.

Definition toolskill_before_agent_start (always : bool) (max : nat)
    (event : option turn_start) : M (option (list N)) :=
  match usable_prompt 3 event with
  | None => ret None
  | Some p =>
      match toolskill_summaries p always with
      | [] => ret None
      | summaries =>
          let body := truncate (Js.join (nl ++ nl) summaries) max in
          recordRouting (js "tool_skill") (length body);;
          ret (Some (js "<tool-skill-memories>" ++ nl ++ body ++ nl
                     ++ js "</tool-skill-memories>"))
      end
  end.

(** ** Capture *)

(** [agent_end] of the goal plugin. *)
Definition goal_summary (cfg : layer_config) (g : goal) : list N :=
  redactSensitive
    (truncate
       (js "Goal: " ++ goal_text g ++ nl
        ++ js "Status: " ++ or_text (goal_status g) (js "active") ++ nl
        ++ js "Priority: " ++ goal_priority g ++ nl
        ++ js "Owner: " ++ goal_owner g ++ nl
        ++ js "Details: " ++ Js.join (js " ") (goal_details g))
       (maxChars cfg))
    (redaction_enabled cfg).

Definition goal_capture (cfg : layer_config) (g : goal) (seen : gset (list N))
  : M (gset (list N)) :=
  match goal_text g with
  | [] => ret seen
  | _ =>
      let key := toLowerCase (goal_text g) in
      if bool_decide (key ∈ seen) then ret seen
      else
        let summary := goal_summary cfg g in
        try_catch
          (let! v := embed summary in
           let! capturedAt := date_now in
           store (js "goals") summary v
             [(js "status", JStr (or_text (goal_status g) (js "active")));
              (js "priority", JStr (goal_priority g));
              (js "owner", JStr (goal_owner g));
              (js "meta",
               JObj [(js "goal", JStr (goal_text g));
                     (js "status", JStr (or_text (goal_status g) (js "active")));
                     (js "priority", JStr (goal_priority g));
                     (js "owner", JStr (goal_owner g));
                     (js "details", JStr (Js.join (js " ") (goal_details g)));
                     (js "capturedAt", JNum capturedAt)])])
          (fun err => warn (js "memory-goal: capture failed: " ++ err));;
        ret ({[key]} ∪ seen)
  end.

Definition goal_agent_end (cfg : layer_config) (event : option turn_end) : M unit :=
  match event with
  | None => ret tt
  | Some e =>
      match texts_of [js "user"; js "assistant"] (messages e) with
      | [] => ret tt
      | texts =>
          for_each texts
            (fun raw seen => for_each (parseGoals raw (capture_mode cfg))
                               (goal_capture cfg) seen)
            ∅;;
          ret tt
      end
  end.

(** [agent_end] of the timeline plugin. *)
Definition timeline_capture (cfg : layer_config) (evt : list N) (_ : unit) : M unit :=
  match evt with
  | [] => ret tt
  | _ =>
      let! occurredAt :=
        (match parseDateFromText evt with
         | Some t => if (t =? 0)%Z then date_now else ret t
         | None => date_now
         end) in
      let! recordedAt := date_now in
      let summary :=
        truncate (js "Event: " ++ evt ++ nl
                  ++ js "Occurred: " ++ formatIso occurredAt ++ nl
                  ++ js "Recorded: " ++ formatIso recordedAt)
                 (maxChars cfg) in
      try_catch
        (let! v := embed summary in
         store (js "timeline") summary v
           [(js "occurredAt", JNum occurredAt);
            (js "recordedAt", JNum recordedAt);
            (js "meta", JObj [(js "event", JStr evt);
                              (js "occurredAt", JNum occurredAt);
                              (js "recordedAt", JNum recordedAt)])])
        (fun err => warn (js "memory-timeline: capture failed: " ++ err))
  end.

Definition timeline_agent_end (cfg : layer_config) (event : option turn_end) : M unit :=
  match event with
  | None => ret tt
  | Some e =>
      match texts_of [js "user"; js "assistant"] (messages e) with
      | [] => ret tt
      | texts =>
          for_each texts
            (fun raw u => for_each (extractEvents raw) (timeline_capture cfg) u)
            tt
      end
  end.

(** [normalizeType] of the entity plugin. *)
Definition normalizeType (raw : list N) : list N :=
  match find (fun kv => bool_decide (fst kv = Js.trim (toLowerCase raw))) TYPE_MAP with
  | Some (_, t) => t
  | None => js "entity"
  end.

(** The explicit-prefix phase of [extractEntitiesFromText]: the loop
    over the lines, [current] being the draft that is open. *)
Fixpoint entity_lines (lines : list (list N)) (current : option entity)
    (entities : list entity) : list entity :=
  match lines with
  | [] => match current with Some c => entities ++ [c] | None => entities end
  | raw :: rest =>
      match Js.trim raw with
      | [] =>
          match current with
          | Some c => entity_lines rest None (entities ++ [c])
          | None => entity_lines rest None entities
          end
      | line =>
          match match_groups (prefix_line entity_tags) line with
          | Some g =>
              entity_lines rest
                (Some (Entity (normalizeType (g 1)) (Js.trim (g 2)) []))
                (match current with Some c => entities ++ [c] | None => entities end)
          | None =>
              match current with
              | Some c =>
                  entity_lines rest
                    (Some (Entity (entity_type c) (entity_name c)
                                  (entity_details c ++ [line])))
                    entities
              | None => entity_lines rest None entities
              end
          end
      end
  end.

(** [extractEntitiesFromText(text, cfg)] *)
Definition extractEntitiesFromText (text : list N) (mode : captureMode) : list entity :=
  match text with
  | [] => []
  | _ =>
      let cleaned := entity_stripInjected text in
      if length cleaned <? 4 then []
      else
        match entity_lines (split_lines cleaned) None [], mode with
        | e :: es, _ => e :: es
        | [], Explicit => []
        | [], _ =>
            firstn 5
              (flat_map
                 (fun hitm =>
                    match hitm with
                    | (start, _, c) =>
                        let grp n := match Regex.group cleaned start c n with
                                     | Some t => t | None => [] end in
                        let name := Js.trim (grp 2) in
                        if length name <? 2 then []
                        else [Entity (normalizeType (grp 1)) name
                                     [Js.slice0 200 cleaned]]
                    end)
                 (exec_all entity_inline cleaned))
        end
  end.

(** The body of the capture loop of the entity plugin; the loop
    state is the index in memory and the keys created.
<<
  const summary = redactSensitive(truncate(`Entity: ...`, cfg.maxChars),
                                  cfg.redaction.enabled);
  const vector = await embeddings.embed(summary);
  await table.store({ text: summary, vector, name, type, meta: ... });
  index.entities[key] = { name, type, summary, updatedAt: Date.now() };
  created.push(key);
>> *)
Definition entity_summary (cfg : layer_config) (e : entity) : list N :=
  redactSensitive
    (truncate
       (js "Entity: " ++ entity_name e ++ nl
        ++ js "Type: " ++ entity_type e ++ nl
        ++ js "Details: " ++ Js.join (js " ") (entity_details e))
       (maxChars cfg))
    (redaction_enabled cfg).

Definition entity_capture (cfg : layer_config) (e : entity)
    (st : list (list N * index_entry) * list (list N))
  : M (list (list N * index_entry) * list (list N)) :=
  match entity_name e with
  | [] => ret st
  | _ =>
      let summary := entity_summary cfg e in
      let! v := embed summary in
      let! capturedAt := date_now in
      store (js "entities") summary v
        [(js "name", JStr (entity_name e));
         (js "type", JStr (entity_type e));
         (js "meta", JObj [(js "name", JStr (entity_name e));
                           (js "type", JStr (entity_type e));
                           (js "details", JStr (Js.join (js " ") (entity_details e)));
                           (js "capturedAt", JNum capturedAt)])];;
      let key := entity_key (entity_type e) (entity_name e) in
      let! updatedAt := date_now in
      ret (assign key (IndexEntry (entity_name e) (entity_type e) summary updatedAt)
                  (fst st),
           snd st ++ [key])
  end.

(** [agent_end] of the entity plugin. *)
Definition entity_agent_end (cfg : layer_config) (event : option turn_end) : M unit :=
  match event with
  | None => ret tt
  | Some e =>
      match texts_of [js "user"; js "assistant"] (messages e) with
      | [] => ret tt
      | texts =>
          let! index := loadIndex in
          let! st :=
            for_each texts
              (fun raw st => for_each (extractEntitiesFromText raw (capture_mode cfg))
                               (entity_capture cfg) st)
              (index, []) in
          match snd st with
          | [] => ret tt
          | _ => saveIndex (fst st)
          end
      end
  end.

(** ** The rerank plugin *)

(** [scored.sort((a, b) => b.score - a.score)]: a stable sort,
    higher scores first. *)
Fixpoint insert_by_score (it : Rerank.item) (sorted : list Rerank.item)
  : list Rerank.item :=
  match sorted with
  | [] => [it]
  | x :: rest =>
      if PrimFloat.ltb (Rerank.score x) (Rerank.score it) then it :: x :: rest
      else x :: insert_by_score it rest
  end.

Definition sort_by_score (items : list Rerank.item) : list Rerank.item :=
  fold_left (fun acc it => insert_by_score it acc) items [].

(** The scoring loop:
<<
  for (const item of candidates) {
    if (Date.now() - start > cfg.maxTotalMs) break;
    const doc = truncate(item.text, cfg.maxDocChars);
    const rerankScore = await scoreCandidate({ query, doc, cfg });
    const fallbackScore = typeof item.score === "number" ? item.score : 0;
    const score = rerankScore ?? fallbackScore;
    scored.push({ text: item.text, category: item.category ?? "other", score });
  }
>> *)
Definition score_candidate (query doc : list N) : M (option float) :=
  fun h w => (log (Score query doc) w, Returned (score_reply h (length (calls w)) query doc)).

Fixpoint rerank_score (query : list N) (maxDocChars : nat) (maxTotalMs start : Z)
    (candidates : list candidate) (scored : list Rerank.item)
  : M (list Rerank.item) :=
  match candidates with
  | [] => ret scored
  | item :: rest =>
      let! now := date_now in
      if (maxTotalMs <? now - start)%Z then ret scored
      else
        let doc := Rerank.truncate (cand_text item) maxDocChars in
        let! rerankScore := score_candidate query doc in
        let fallbackScore := default PrimFloat.zero (cand_score item) in
        let score := default fallbackScore rerankScore in
        rerank_score query maxDocChars maxTotalMs start rest
          (scored ++ [Rerank.Item (cand_text item)
                        (default (js "other") (cand_category item)) score])
  end.

(** [fetchCandidates]: the command [openclaw ltm search] and the
    parsing of its output. *)
Definition fetchCandidates (query : list N) : M (list candidate) :=
  fun h w => (log (LtmSearch query) w, answer (ltm_reply h (length (calls w)) query)).

(** [before_agent_start] of the rerank plugin. *)
Definition rerank_before_agent_start (cfg : Rerank.config)
    (maxDocChars : nat) (maxTotalMs : Z) (event : option turn_start)
  : M (option (list N)) :=
  match usable_prompt 5 event with
  | None => ret None
  | Some query =>
      let! candidates :=
        try_catch (let! cs := fetchCandidates query in ret (Some cs))
          (fun err => warn (js "memory-rerank: ltm search failed: " ++ err);;
                      ret None) in
      match candidates with
      | None | Some [] => ret None
      | Some cs =>
          let! start := date_now in
          let! scored := rerank_score query maxDocChars maxTotalMs start cs [] in
          match scored with
          | [] => ret None
          | _ =>
              let selected := Rerank.selectTopCluster (sort_by_score scored) cfg in
              let memoryContext :=
                Js.join nl
                  (map (fun r => js "- [" ++ Rerank.category r ++ js "] "
                                 ++ Rerank.truncate (Rerank.text r) 400)
                       selected) in
              ret (Some (js "<relevant-memories>" ++ nl
                         ++ js "The following memories may be relevant to this conversation:"
                         ++ nl ++ memoryContext ++ nl
                         ++ js "</relevant-memories>"))
          end
      end
  end.

End Engine.

(* ================================================================== *)
(** * Auxiliary notions used in the statements *)
(* ================================================================== *)


Fixpoint take_while (cls : N -> bool) (s : list N) : list N :=
  match s with
  | ch :: tl => if cls ch then ch :: take_while cls tl else []
  | [] => []
  end.






(** The selector as the specification words it: walk the list; skip
    an item below [minScore]; take the first qualifying item; take a
    later one only while the drop from the previously taken item is
    at most [maxGap]; stop at the first item that breaks the gap rule
    or once [maxCount] items are taken. *)
Fixpoint cluster_walk (minScore maxGap : float) (room : nat)
    (prev : option float) (items : list Rerank.item) : list Rerank.item :=
  match items with
  | [] => []
  | it :: rest =>
      match room with
      | 0 => []
      | S room' =>
          if PrimFloat.ltb (Rerank.score it) minScore
          then cluster_walk minScore maxGap room prev rest
          else
            match prev with
            | None =>
                it :: cluster_walk minScore maxGap room' (Some (Rerank.score it)) rest
            | Some ps =>
                if PrimFloat.leb (PrimFloat.sub ps (Rerank.score it)) maxGap
                then it :: cluster_walk minScore maxGap room' (Some (Rerank.score it)) rest
                else []
            end
      end
  end.

(** Fallback of the specification: when nothing was taken, the first
    [maxCount] items of the input. *)
Definition selectCluster_spec (items : list Rerank.item)
    (minScore maxGap : float) (maxCount : nat) : list Rerank.item :=
  match cluster_walk minScore maxGap maxCount None items with
  | [] => firstn maxCount items
  | taken => taken
  end.

(** No item reaches [minScore]. *)
Definition all_below (minScore : float) (items : list Rerank.item) : bool :=
  forallb (fun it => PrimFloat.ltb (Rerank.score it) minScore) items.

(** The candidates of the scenario of the specification. *)
Definition scenario_item (sc : float) : Rerank.item :=
  Rerank.Item [] [] sc.

(** The entry of a layer in the ledger, if any. *)
Definition entry_of (file : MetaRouting.meta) (layer : list N)
  : option MetaRouting.entry :=
  match MetaRouting.routing_stats file with
  | Some st =>
      match MetaRouting.layers st with
      | Some ls => ls !! layer
      | None => None
      end
  | None => None
  end.

(** No feedback recorded yet for the layer: no entry, or an entry
    as [ensureLayer] creates it. *)
Definition fresh_for (layer : list N) (file : MetaRouting.meta) : Prop :=
  match entry_of file layer with
  | Some e =>
      MetaRouting.useful_up e = Some 0%Z
      /\ MetaRouting.useful_down e = Some 0%Z
      /\ MetaRouting.useful_rate e = None
  | None => True
  end.

(** The feedback fields of a layer. *)
Definition feedback_of (file : MetaRouting.meta) (layer : list N)
  : option (option Z * option Z * option float) :=
  match entry_of file layer with
  | Some e => Some (MetaRouting.useful_up e, MetaRouting.useful_down e,
                    MetaRouting.useful_rate e)
  | None => None
  end.



(** What the feedback fields of a layer must be after [up] useful
    and [down] not-useful events on a layer that was fresh. *)
Definition tally (before : option (option Z * option Z * option float))
    (up down : Z) : option (option Z * option Z * option float) :=
  if (0 <? up + down)%Z
  then Some (Some up, Some down,
             Some (Number_toFixed2
                     (PrimFloat.div (Number_of_Z up) (Number_of_Z (up + down)))))
  else before.

(** The ledger statistics of a file ([{}] when there are none). *)
Definition stats_of (file : MetaRouting.meta) : MetaRouting.stats :=
  default MetaRouting.empty_stats (MetaRouting.routing_stats file).

Definition token_of (file : MetaRouting.meta) : MetaRouting.token :=
  default MetaRouting.empty_token (MetaRouting.token_savings file).

(** The ledger of the scenario of the specification: two finalized
    sessions, 1000 characters in all, 500 in the current session. *)
Definition scenario_ledger : MetaRouting.meta :=
  MetaRouting.Meta
    (Some (MetaRouting.Stats None None None (Some 500%Z) (Some 1%Z)
             (Some 2%Z) (Some 1000%Z) (Some 2%Z) (Some 500%Z)
             None None None))
    None.

(** A query below the minimum length of a layer, empty or missing. *)
Definition too_short (min : nat) (event : option turn_start) : Prop :=
  match event with
  | Some e =>
      match prompt e with
      | Some p => length p < min
      | None => True
      end
  | None => True
  end.

(** Nothing happened: no call, no clock reading, no change of the
    ledger or of a file, and no context is returned. *)
Definition skipped (m : M (option (list N))) : Prop :=
  forall (h : host) (w : world), m h w = (w, Returned None).

(** The first thing a computation does is to embed [p]. *)
Definition embeds_first (p : list N) (m : M (option (list N))) : Prop :=
  forall (h : host) (w : world),
    exists rest, calls (fst (m h w)) = calls w ++ Embed p :: rest.

(** A computation that never throws. *)
Definition returns {A} (m : M A) : Prop :=
  forall (h : host) (w : world), exists a, snd (m h w) = Returned a.

(** A computation only adds calls, each of which satisfies [P]. *)
Definition emits {A} (P : call -> Prop) (m : M A) : Prop :=
  forall (h : host) (w : world),
    exists rest, calls (fst (m h w)) = calls w ++ rest /\ Forall P rest.

Definition extends {A} (m : M A) : Prop :=
  forall (h : host) (w : world), exists rest, calls (fst (m h w)) = calls w ++ rest.

(** A text handed to the provider or to the store went through
    [redactSensitive]. *)
Definition redacted_call (enabled : bool) (c : call) : Prop :=
  match c with
  | Embed t | Store _ t _ _ => exists raw, t = redactSensitive raw enabled
  | _ => True
  end.

(** The lower-casing of the Basic Latin letters, to run examples. *)
Definition lower_ascii (s : list N) : list N :=
  map (fun c => if ((65 <=? c) && (c <=? 90))%N then (c + 32)%N else c) s.

(** A provider that is down and a store that works. *)
Definition provider_down : host :=
  Host (fun _ _ => inl (js "Error: connect ECONNREFUSED"))
       (fun _ _ _ _ => inr [])
       (fun _ _ => inr tt)
       (fun _ _ => inr [])
       (fun _ _ _ => None)
       (fun n => Z.of_nat n).

(** A provider and a store that work. *)
Definition all_up : host :=
  Host (fun _ _ => inr [])
       (fun _ _ _ _ => inr [])
       (fun _ _ => inr tt)
       (fun _ _ => inr [])
       (fun _ _ _ => None)
       (fun n => Z.of_nat n).

Definition user_says (text : list N) : option turn_end :=
  Some (TurnEnd [Message (js "user") (Text text)] true 0).

Definition default_config : layer_config :=
  LayerConfig 4 false ExplicitOrPattern 1200 true.

Definition empty_world : world :=
  World [] 0 (MetaRouting.Meta None None) [].


(** [obj[key]] on a JSON object kept in insertion order. *)
Definition get {V} (key : list N) (obj : list (list N * V)) : option V :=
  match find (fun kv => bool_decide (fst kv = key)) obj with
  | Some (_, v) => Some v
  | None => None
  end.

(** The key under which the entity recall counts an item as seen. *)
Definition seen_key (toLowerCase : list N -> list N)
    (e : list N * list N * list N) : list N :=
  match e with
  | (name, type, _) => entity_key toLowerCase (or_text type (js "entity")) name
  end.

(** The configuration with vector recall on demand only. *)
Definition on_demand (cfg : layer_config) : layer_config :=
  LayerConfig (recallLimit cfg) false (capture_mode cfg) (maxChars cfg)
              (redaction_enabled cfg).


(** Each item of the list is at most [gap] below the one before it
    (in the arithmetic of the selector: [prev.score - item.score <= gap]). *)
Fixpoint within_gap (gap : float) (l : list Rerank.item) : Prop :=
  match l with
  | a :: (b :: _) as tl =>
      PrimFloat.leb (PrimFloat.sub (Rerank.score a) (Rerank.score b)) gap = true
      /\ within_gap gap tl
  | _ => True
  end.


(** The operations that write the routing ledger, each with the
    reading of the clock it makes. *)
Inductive ledger_op : Type :=
| Route (now : Z) (layer : list N) (chars : Z)
| Feedback (now : Z) (layer : list N) (useful : bool)
| FeedbackBatch (now : Z) (feedbacks : list (list N * bool))
| Finalize
| Savings (now : Z).

Definition ledger_step (file : MetaRouting.meta) (op : ledger_op) : MetaRouting.meta :=
  match op with
  | Route now layer chars => MetaRouting.recordRouting now layer chars file
  | Feedback now layer useful => MetaRouting.recordRoutingFeedback now layer useful file
  | FeedbackBatch now feedbacks => Meta.applyFeedback now file feedbacks
  | Finalize => Meta.finalizeRoutingSession file
  | Savings now => Meta.updateTokenSavings now file
  end.

(** The sum of a counter over the layers of the ledger. *)
Definition layer_total (f : MetaRouting.entry -> option Z) (st : MetaRouting.stats) : Z :=
  map_fold (fun (_ : list N) e acc => (or_else (f e) 0 + acc)%Z) 0%Z
           (default ∅ (MetaRouting.layers st)).

(** The counters of the ledger agree: the totals are the sums over
    the layers, and what was injected is either in a finalized
    session or in the current one. *)
Definition stats_consistent (st : MetaRouting.stats) : Prop :=
  or_else (MetaRouting.total_activations st) 0
  = layer_total MetaRouting.activations st
  /\ or_else (MetaRouting.total_chars_injected st) 0
     = layer_total MetaRouting.chars_injected st
  /\ (or_else (MetaRouting.total_session_chars st) 0
      + or_else (MetaRouting.current_session_chars st) 0
      = or_else (MetaRouting.total_chars_injected st) 0)%Z
  /\ (or_else (MetaRouting.total_session_activations st) 0
      + or_else (MetaRouting.current_session_activations st) 0
      = or_else (MetaRouting.total_activations st) 0)%Z.

Definition ledger_consistent (file : MetaRouting.meta) : Prop :=
  stats_consistent (stats_of file).


(* ================================================================== *)
(** * The blackboard plugin *)
(* ================================================================== *)

Module Blackboard.

(** An item of the board file; [updatedAt] may be missing in a file
    written by hand. *)
Record item : Type := Item {
  type : list N;
  text : list N;
  updatedAt : option Z
}.

(** What [parseBlackboardLines] returns. *)
Record parsed : Type := Parsed {
  items : list (list N * list N);
  clear : bool
}.

(** [ó] under the [i] flag: U+00F3 and U+00D3. *)
Definition o_acute (c : N) : bool := ((c =? 243) || (c =? 211))%N.

(** [/^(bb|blackboard)\s*(clear|reset|limpiar)\b/i] *)
Definition clear_line : Regex.re :=
  Regex.seq [Bol;
             Group 1 (alt (map str_ci [js "bb"; js "blackboard"]));
             star space;
             Group 2 (alt (map str_ci [js "clear"; js "reset"; js "limpiar"]));
             WordB].

(** [/^(bb|blackboard|decision|decisión|todo|tarea|task|risk|riesgo|fact|hecho|note|nota|question|pregunta)\s*[:\-]\s*(.+)$/i] *)
Definition item_line : Regex.re :=
  Regex.seq [Bol;
             Group 1 (alt ([str_ci (js "bb"); str_ci (js "blackboard");
                            str_ci (js "decision");
                            Regex.seq [str_ci (js "decisi"); Chr o_acute;
                                       str_ci (js "n")]]
                           ++ map str_ci
                                [js "todo"; js "tarea"; js "task"; js "risk";
                                 js "riesgo"; js "fact"; js "hecho"; js "note";
                                 js "nota"; js "question"; js "pregunta"]));
             star space; Chr (one_of (js ":-")); star space;
             Group 2 (plus dot); Eol].

Definition typeMap : list (list N * list N) :=
  [(js "bb", js "note"); (js "blackboard", js "note");
   (js "decision", js "decision");
   (js "decisi" ++ [243%N] ++ js "n", js "decision");
   (js "todo", js "todo"); (js "tarea", js "todo"); (js "task", js "todo");
   (js "risk", js "risk"); (js "riesgo", js "risk");
   (js "fact", js "fact"); (js "hecho", js "fact");
   (js "note", js "note"); (js "nota", js "note");
   (js "question", js "question"); (js "pregunta", js "question")].

Section Engine.

Variable toLowerCase : list N -> list N.

(** One turn of the loop of [parseBlackboardLines]. *)
Definition parse_line (acc : parsed) (lineRaw : list N) : parsed :=
  match Js.trim lineRaw with
  | [] => acc
  | line =>
      if Regex.test clear_line line then Parsed (items acc) true
      else
        match match_groups item_line line with
        | Some g =>
            let rawType := toLowerCase (g 1) in
            let textValue := Js.trim (g 2) in
            let type := match get rawType typeMap with
                        | Some t => t
                        | None => js "note"
                        end in
            match textValue with
            | [] => acc
            | _ => Parsed (items acc ++ [(type, textValue)]) (clear acc)
            end
        | None => acc
        end
  end.

(** [parseBlackboardLines(text)] *)
Definition parseBlackboardLines (text : list N) : parsed :=
  match text with
  | [] => Parsed [] false
  | _ => fold_left parse_line (split_lines text) (Parsed [] false)
  end.

(** The key of [upsertItem]:
    [`${type.toLowerCase()}::${text.toLowerCase()}`]. *)
Definition key (type text : list N) : list N :=
  toLowerCase type ++ js "::" ++ toLowerCase text.

(** [upsertItem(items, newItem)], [now] the reading of the clock:
<<
  const existingIndex = items.findIndex((item) => keyOf(item) === key);
  if (existingIndex >= 0) items[existingIndex].updatedAt = now;
  else items.push({ ...newItem, updatedAt: now });
>> *)
Fixpoint upsertItem (now : Z) (board : list item) (newType newText : list N)
  : list item :=
  match board with
  | [] => [Item newType newText (Some now)]
  | it :: rest =>
      if bool_decide (key (type it) (text it) = key newType newText)
      then Item (type it) (text it) (Some now) :: rest
      else it :: upsertItem now rest newType newText
  end.

(** [agent_end]; the result is the board and [didChange] (the file
    is written when it is true):
<<
  for (const raw of texts) {
    const parsed = parseBlackboardLines(raw);
    if (parsed.clear) { board.items = []; didChange = true; }
    for (const item of parsed.items) {
      const cleaned = { type: item.type,
                        text: redactSensitive(item.text, cfg.redaction.enabled) };
      upsertItem(board.items, cleaned);
      didChange = true;
    }
  }
>> *)
Definition apply_text (enabled : bool) (raw : list N) (st : list item * bool)
  : M (list item * bool) :=
  let p := parseBlackboardLines raw in
  for_each (items p)
    (fun it st' =>
       let! now := date_now in
       ret (upsertItem now (fst st') (fst it) (redactSensitive (snd it) enabled),
            true))
    (if clear p then ([], true) else st).

Definition agent_end (enabled : bool) (event : option turn_end) (board : list item)
  : M (list item * bool) :=
  match event with
  | None => ret (board, false)
  | Some e =>
      match texts_of [js "user"; js "assistant"] (messages e) with
      | [] => ret (board, false)
      | texts => for_each texts (apply_text enabled) (board, false)
      end
  end.

End Engine.

End Blackboard.


(** The keys of the items of a board. *)
Definition board_keys (toLowerCase : list N -> list N)
    (board : list Blackboard.item) : list (list N) :=
  map (fun it => Blackboard.key toLowerCase (Blackboard.type it) (Blackboard.text it))
      board.

(** What is written on a board, timestamps apart. *)
Definition board_notes (board : list Blackboard.item) : list (list N * list N) :=
  map (fun it => (Blackboard.type it, Blackboard.text it)) board.

(** A computation that returns without any call to a collaborator. *)
Definition quiet_result {A} (m : M A) (h : host) (w : world) (a : A) : Prop :=
  exists w', m h w = (w', Returned a) /\ calls w' = calls w.


(* ================================================================== *)
(** * The statistics of the tool-skill plugin *)
(* ================================================================== *)

(** [Array.from(new Set(items))]: the items in the order of their
    first occurrence. *)
Fixpoint insertion_order (seen : gset (list N)) (items : list (list N))
  : list (list N) :=
  match items with
  | [] => []
  | x :: rest =>
      if bool_decide (x ∈ seen) then insertion_order seen rest
      else x :: insertion_order ({[x]} ∪ seen) rest
  end.

Module ToolSkill.

(** The file [toolskill.json] is [{tools: {name: tool}}], a tool is
    [{total, success, lastUsedAt, patterns: {key: pattern}}] and a
    pattern [{total, success, lastUsedAt, examples}].  Objects are
    kept in insertion order; keys that name a property every object
    inherits are left out of the model. *)
Record pattern : Type := Pattern {
  p_total : Z;
  p_success : Z;
  p_lastUsedAt : Z;
  examples : list (list N)
}.

Record tool : Type := Tool {
  total : Z;
  success : Z;
  lastUsedAt : Z;
  patterns : list (list N * pattern)
}.

Definition stats : Type := list (list N * tool).

(** [updateStats(stats, toolName, patternKey, success, example, maxExamples)],
    [now] the reading of the clock:
<<
  if (!toolName) return stats;
  if (!stats.tools[toolName])
    stats.tools[toolName] = { total: 0, success: 0, lastUsedAt: 0, patterns: {} };
  const tool = stats.tools[toolName];
  tool.total += 1;
  if (success) tool.success += 1;
  tool.lastUsedAt = now;
  if (!tool.patterns[patternKey])
    tool.patterns[patternKey] = { total: 0, success: 0, lastUsedAt: 0, examples: [] };
  const pattern = tool.patterns[patternKey];
  pattern.total += 1;
  if (success) pattern.success += 1;
  pattern.lastUsedAt = now;
  if (success && example) {
    pattern.examples = pattern.examples || [];
    pattern.examples.unshift(example);
    pattern.examples = Array.from(new Set(pattern.examples)).slice(0, maxExamples);
  }
>> *)
Definition updateStats (now : Z) (st : stats) (toolName patternKey : list N)
    (ok : bool) (example : list N) (maxExamples : nat) : stats :=
  match toolName with
  | [] => st
  | _ =>
      let t := default (Tool 0 0 0 []) (get toolName st) in
      let p := default (Pattern 0 0 0 []) (get patternKey (patterns t)) in
      let hit := if ok then 1%Z else 0%Z in
      let p' :=
        Pattern (p_total p + 1) (p_success p + hit) now
          (match ok, example with
           | true, _ :: _ =>
               firstn maxExamples (insertion_order ∅ (example :: examples p))
           | _, _ => examples p
           end) in
      assign toolName
        (Tool (total t + 1) (success t + hit) now
              (assign patternKey p' (patterns t)))
        st
  end.

End ToolSkill.








(* ================================================================== *)
(** * The procedure statistics of the episodic/procedural plugin *)
(* ================================================================== *)

Module ProcStats.

(** An entry of [procedures-stats.json]. *)
Record entry : Type := Entry {
  total : Z;
  success : Z;
  lastUsedAt : Z
}.

(** [updateStats(stats, patternKey, success)], [now] the reading of
    the clock:
<<
  if (!patternKey) return stats;
  const entry = stats[patternKey] || { total: 0, success: 0, lastUsedAt: 0 };
  entry.total += 1;
  if (success) entry.success += 1;
  entry.lastUsedAt = Date.now();
  stats[patternKey] = entry;
>> *)
Definition updateStats (now : Z) (stats : list (list N * entry))
    (patternKey : list N) (ok : bool) : list (list N * entry) :=
  match patternKey with
  | [] => stats
  | _ =>
      let e := default (Entry 0 0 0) (get patternKey stats) in
      assign patternKey
        (Entry (total e + 1) (if ok then success e + 1 else success e) now)
        stats
  end.

End ProcStats.





(** The routing part of [agent_end] of the meta plugin:
<<
  if (feedbacks.length) applyFeedback(meta, feedbacks);
  finalizeRoutingSession(meta);
  updateTokenSavings(meta);
>>
    [feedbacks] is what [parseFeedbacks] found in the user texts of
    the turn; the two clock readings are those of [applyFeedback] and
    [updateTokenSavings]. *)
Definition close_session (now_feedback now_savings : Z)
    (feedbacks : list (list N * bool)) (file : MetaRouting.meta) : MetaRouting.meta :=
  Meta.updateTokenSavings now_savings
    (Meta.finalizeRoutingSession
       (match feedbacks with
        | [] => file
        | _ => Meta.applyFeedback now_feedback file feedbacks
        end)).

(** Recall injections of one session: the clock, the layer and the
    number of characters of each. *)
Definition route_all (routes : list (Z * list N * Z)) (file : MetaRouting.meta)
  : MetaRouting.meta :=
  fold_left (fun f r => MetaRouting.recordRouting (fst (fst r)) (snd (fst r)) (snd r) f)
            routes file.

Definition chars_of (routes : list (Z * list N * Z)) : Z :=
  fold_right (fun r acc => (snd r + acc)%Z) 0%Z routes.

(** The session counters of the ledger. *)
Definition session_counters (st : MetaRouting.stats)
  : option Z * option Z * option Z * option Z * option Z :=
  (MetaRouting.current_session_chars st, MetaRouting.current_session_activations st,
   MetaRouting.sessions st, MetaRouting.total_session_chars st,
   MetaRouting.total_session_activations st).


(* ================================================================== *)
(** * The sentiment plugin *)
(* ================================================================== *)

Module Sentiment.

(** An entry of the state file [sentiment.json]. *)
Record entry : Type := Entry {
  ts : Z;
  label : list N;
  score : float;
  sample : list N
}.

(** What [sentimentScore] returns. *)
Record scored : Type := Scored {
  s_score : float;
  s_label : list N;
  matches : nat
}.

Section Engine.

(** [sentimentScore], the lexicon count of the text. *)
Variable sentimentScore : list N -> scored.

(** [agent_end]; the result is the list of entries written to the
    state file, if any:
<<
  const combined = userTexts.join("\n");
  const scored = sentimentScore(combined);
  if (scored.matches < cfg.minMatch) return;
  const state = loadState(path);
  state.entries.push({ ts: Date.now(), label: scored.label,
                       score: scored.score, sample: combined.slice(0, 160) });
  if (state.entries.length > 500) state.entries = state.entries.slice(-500);
  saveState(path, state);
>> *)
Definition agent_end (minMatch : nat) (event : option turn_end) (entries : list entry)
  : M (option (list entry)) :=
  match event with
  | None => ret None
  | Some e =>
      match texts_of [js "user"] (messages e) with
      | [] => ret None
      | userTexts =>
          let combined := Js.join nl userTexts in
          let sc := sentimentScore combined in
          if matches sc <? minMatch then ret None
          else
            let! now := date_now in
            let pushed :=
              entries ++ [Entry now (s_label sc) (s_score sc) (Js.slice0 160 combined)] in
            ret (Some (if 500 <? length pushed
                       then skipn (length pushed - 500) pushed
                       else pushed))
      end
  end.

End Engine.

End Sentiment.


(** A recall handler records in the ledger exactly what it injects:
    it returns; when it injects nothing the ledger is as before; when
    it injects a context, that context is [open], a line break, the
    body, a line break and [close], and the ledger went through one
    [recordRouting] of the layer with the length of the body (which
    is at most [limit], when there is one). *)
Definition records_injection (layer open close : list N) (limit : option nat)
    (m : M (option (list N))) : Prop :=
  forall (h : host) (w : world),
    exists w' r,
      m h w = (w', Returned r)
      /\ match r with
         | None => ledger w' = ledger w
         | Some ctx =>
             exists body now,
               ctx = open ++ nl ++ body ++ nl ++ close
               /\ ledger w'
                  = MetaRouting.recordRouting now layer (Z.of_nat (length body)) (ledger w)
               /\ match limit with
                  | Some n => length body <= n
                  | None => True
                  end
         end.


(** The texts handed to the embedding provider, in order. *)
Definition embedded (cs : list call) : list (list N) :=
  flat_map (fun c => match c with Embed t => [t] | _ => [] end) cs.

(** The number of insertions into the store. *)
Definition stored (cs : list call) : nat :=
  length (List.filter (fun c => match c with Store _ _ _ _ => true | _ => false end) cs).

(** The user and assistant texts of a turn. *)
Definition turn_texts (event : option turn_end) : list (list N) :=
  match event with
  | Some e => texts_of [js "user"; js "assistant"] (messages e)
  | None => []
  end.


(** The scoring requests made, in order. *)
Definition scored_docs (cs : list call) : list (list N * list N) :=
  flat_map (fun c => match c with Score q d => [(q, d)] | _ => [] end) cs.

(** The line of a selected memory in the context of the rerank
    plugin: [`- [${r.category}] ${truncate(r.text, 400)}`]. *)
Definition memory_line (r : Rerank.item) : list N :=
  js "- [" ++ Rerank.category r ++ js "] " ++ Rerank.truncate (Rerank.text r) 400.


(* ================================================================== *)
(** * Procedures of the episodic/procedural plugin *)
(* ================================================================== *)

(** [stripInjected] of the episodic/procedural plugin. *)
Definition epiproc_stripInjected (text : list N) : list N :=
  fold_left (fun t tag => replace_all (injected_block tag) [] t)
    [js "relevant-memories"; js "episodic-memories"; js "procedural-memories"]
    text.

Module Procedure.

(** A tool result as [collectContext] keeps it; a missing name or
    call id is the empty string, [exitCode] is [details.exitCode]
    when it is a number. *)
Record tool_result : Type := ToolResult {
  toolName : list N;
  toolCallId : list N;
  isError : bool;
  exitCode : option Z
}.

(** What [buildProcedure] returns ([meta] repeats [patternKey],
    [steps] and [success]). *)
Record procedure : Type := Build {
  text : list N;
  patternKey : list N;
  steps : list (list N);
  success : bool
}.

Section Engine.

(** The arguments of a tool call, and [summarizeArgs]. *)
Variable args : Type.
Variable summarizeArgs : list N -> option args -> bool -> list N.

(** [patternPart(toolName, argsSummary)] *)
Definition patternPart (name argsSummary : list N) : list N :=
  match name with
  | [] => js "unknown"
  | _ =>
      if bool_decide (name = js "exec") || bool_decide (name = js "bash")
      then match argsSummary with
           | [] => name ++ js ":cmd"
           | _ => name ++ js ":"
                  ++ hd [] (Regex.split (plus space) argsSummary)
           end
      else name
  end.

(** A result that makes no step:
<<
  if (!toolName) continue;
  if (result.isError) continue;
  if (typeof result.details?.exitCode === "number"
      && result.details.exitCode !== 0) continue;
>> *)
Definition skipped (r : tool_result) : bool :=
  match toolName r with
  | [] => true
  | _ =>
      isError r
      || match exitCode r with
         | Some code => negb (code =? 0)%Z
         | None => false
         end
  end.

(** The step and the pattern part of a result. *)
Definition step_of (toolCalls : list (list N * (list N * args))) (redact : bool)
    (r : tool_result) : list N * list N :=
  let call := match toolCallId r with
              | [] => None
              | id => get id toolCalls
              end in
  let argsSummary := summarizeArgs (toolName r) (option_map snd call) redact in
  (match argsSummary with
   | [] => toolName r
   | _ => toolName r ++ js ": " ++ argsSummary
   end,
   patternPart (toolName r) argsSummary).

(** The loop of [buildProcedure]; [count] is [steps.length]. *)
Fixpoint collect (toolCalls : list (list N * (list N * args))) (redact : bool)
    (maxSteps count : nat) (results : list tool_result) : list (list N * list N) :=
  match results with
  | [] => []
  | r :: rest =>
      if skipped r then collect toolCalls redact maxSteps count rest
      else
        step_of toolCalls redact r
          :: (if maxSteps <=? S count then []
              else collect toolCalls redact maxSteps (S count) rest)
  end.

(** [buildProcedure(context, event, cfg)]; [userTexts] and the tool
    calls and results are those of [collectContext]. *)
Definition buildProcedure (userTexts : list (list N))
    (toolCalls : list (list N * (list N * args))) (results : list tool_result)
    (ok : bool) (redact : bool) (minSteps maxSteps maxUserChars : nat)
  : option procedure :=
  let found := collect toolCalls redact maxSteps 0 results in
  if length found <? minSteps then None
  else
    let userText := List.last userTexts [] in
    let summaryUser := truncate (epiproc_stripInjected userText) maxUserChars in
    let key := or_text (Js.join (js " -> ") (map snd found)) (js "unknown") in
    Some (Build
            (Js.join nl
               ([js "Procedure pattern: " ++ key;
                 js "Context: " ++ or_text summaryUser (js "(no user text)");
                 js "Steps:"]
                ++ numbered (map fst found)
                ++ [js "Success: " ++ (if ok then js "yes" else js "no")]))
            key (map fst found) ok).

End Engine.

End Procedure.

(* ================================================================== *)
(** * Facts about strings *)
(* ================================================================== *)

Section StringFacts.

Lemma trimStart_length (s : list N) : length (Js.trimStart s) <= length s.
Proof.
  induction s as [|c s IH]; simpl; [lia|].
  destruct (Js.is_space c); simpl; lia.
Qed.

Lemma trimEnd_length (s : list N) : length (Js.trimEnd s) <= length s.
Proof.
  unfold Js.trimEnd. rewrite length_rev.
  etransitivity; [apply trimStart_length|]. now rewrite length_rev.
Qed.

Lemma trim_length (s : list N) : length (Js.trim s) <= length s.
Proof.
  unfold Js.trim. etransitivity; [apply trimEnd_length|apply trimStart_length].
Qed.

Lemma slice0_length (n : nat) (s : list N) : length (Js.slice0 n s) <= n.
Proof. unfold Js.slice0. rewrite length_firstn. lia. Qed.

Lemma trimStart_plain (s : list N) :
  forallb (fun c => negb (Js.is_space c)) s = true -> Js.trimStart s = s.
Proof.
  destruct s as [|c s]; simpl; [easy|].
  intros H. apply andb_prop in H as [Hc _].
  now destruct (Js.is_space c).
Qed.

Lemma forallb_rev {A} (f : A -> bool) (l : list A) :
  forallb f (rev l) = forallb f l.
Proof.
  induction l as [|a l IH]; simpl; [reflexivity|].
  rewrite forallb_app, IH. simpl. rewrite andb_true_r. apply andb_comm.
Qed.

(** A string without white space is its own [trim]. *)
Lemma trim_plain (s : list N) :
  forallb (fun c => negb (Js.is_space c)) s = true -> Js.trim s = s.
Proof.
  intros H. unfold Js.trim, Js.trimEnd.
  rewrite (trimStart_plain s H), trimStart_plain, rev_involutive; [reflexivity|].
  now rewrite forallb_rev.
Qed.

Lemma forallb_repeat_plain (f : N -> bool) (c : N) (n : nat) :
  f c = true -> forallb f (repeat c n) = true.
Proof. intros H. induction n; simpl; [reflexivity|]. now rewrite H. Qed.

Lemma firstn_repeat_S {A} (c : A) (n : nat) :
  firstn n (repeat c (S n)) = repeat c n.
Proof. induction n; simpl in *; [reflexivity|]. now rewrite IHn. Qed.

End StringFacts.

(* ================================================================== *)
(** * C10: truncation is not a strict length bound *)
(* ================================================================== *)

(** As worded, C10 fails twice on the code: [trim] strips leading
    white space as well, and the rerank plugin appends one character,
    not three. *)
Lemma truncate_claim_counterexample :
  truncate (js " abc") 2 = js "a..."
  /\ truncate (js " abc") 2 <> js " a..."
  /\ Rerank.truncate (js "abcd") 2 = js "ab" ++ [8230%N]
  /\ length (Rerank.truncate (js "abcd") 2) = 3.
Proof. repeat split; try reflexivity. discriminate. Qed.

(** C10 (amended): [truncate s maxChars] is [s] itself when [s] has at
    most [maxChars] characters; otherwise it is the first [maxChars]
    characters, trimmed at both ends, followed by the suffix (three
    dots in the layer plugins, one U+2026 in the rerank plugin).  The
    result is never longer than [maxChars + 3] (resp. [maxChars + 1]),
    and these bounds are reached. *)
Theorem truncate_not_a_strict_bound (s : list N) (maxChars : nat) :
  truncate s maxChars =
    (if length s <=? maxChars then s
     else Js.trim (firstn maxChars s) ++ js "...")
  /\ Rerank.truncate s maxChars =
    (if length s <=? maxChars then s
     else Js.trim (firstn maxChars s) ++ [8230%N])
  /\ length (truncate s maxChars) <= maxChars + 3
  /\ length (Rerank.truncate s maxChars) <= maxChars + 1
  /\ length (truncate (repeat 97%N (S maxChars)) maxChars) = maxChars + 3
  /\ length (Rerank.truncate (repeat 97%N (S maxChars)) maxChars) = maxChars + 1.
Proof.
  assert (Hlit : forall n, Js.trim (firstn n (repeat 97%N (S n))) = repeat 97%N n).
  { intros n. rewrite firstn_repeat_S.
    apply trim_plain, forallb_repeat_plain. reflexivity. }
  assert (Hlen : (length (repeat 97%N (S maxChars)) <=? maxChars) = false).
  { apply Nat.leb_gt. rewrite repeat_length. lia. }
  repeat split.
  - destruct s; reflexivity.
  - destruct s; reflexivity.
  - unfold truncate. destruct s as [|c s]; [simpl; lia|].
    destruct (Nat.leb_spec (length (c :: s)) maxChars) as [Hle|Hgt]; [lia|].
    rewrite length_app. pose proof (trim_length (Js.slice0 maxChars (c :: s))).
    pose proof (slice0_length maxChars (c :: s)). simpl length in *. lia.
  - unfold Rerank.truncate. destruct s as [|c s]; [simpl; lia|].
    destruct (Nat.leb_spec (length (c :: s)) maxChars) as [Hle|Hgt]; [lia|].
    rewrite length_app. pose proof (trim_length (Js.slice0 maxChars (c :: s))).
    pose proof (slice0_length maxChars (c :: s)). simpl length in *. lia.
  - unfold truncate. change (repeat 97%N (S maxChars)) with (97%N :: repeat 97%N maxChars) at 1.
    cbv iota beta. rewrite Hlen. unfold Js.slice0. rewrite Hlit, length_app, repeat_length.
    reflexivity.
  - unfold Rerank.truncate. change (repeat 97%N (S maxChars)) with (97%N :: repeat 97%N maxChars) at 1.
    cbv iota beta. rewrite Hlen. unfold Js.slice0. rewrite Hlit, length_app, repeat_length.
    simpl. lia.
Qed.

(* ================================================================== *)
(** * Facts about the matcher *)
(* ================================================================== *)

Section MatcherFacts.

Import Regex.


Lemma take_while_length (cls : N -> bool) (s : list N) :
  length (take_while cls s) <= length s.
Proof.
  induction s as [|ch tl IH]; simpl; [lia|]. destruct (cls ch); simpl; lia.
Qed.
















End MatcherFacts.











(* ================================================================== *)
(** * C9: redaction of a token span *)
(* ================================================================== *)













(* ================================================================== *)
(** * C3: the top-cluster selector *)
(* ================================================================== *)

Section ClusterFacts.

Import Rerank.

Variable cfg : config.

Lemma last_some_snoc (selected : list item) (it : item) :
  List.last (map Some (selected ++ [it])) None = Some it.
Proof. rewrite map_app. simpl. apply last_last. Qed.

Lemma firstn_app_short {A} (n : nat) (l l1 l2 : list A) :
  n <= length l -> firstn n (l ++ l1) = firstn n (l ++ l2).
Proof.
  intros H. rewrite !firstn_app.
  replace (n - length l) with 0 by lia. reflexivity.
Qed.

Lemma cluster_walk_length (minS gap : float) (items : list item) :
  forall (room : nat) (prev : option float),
    length (cluster_walk minS gap room prev items) <= room.
Proof.
  induction items as [|it rest IH]; intros room prev; simpl; [lia|].
  destruct room as [|room]; [simpl; lia|].
  destruct (PrimFloat.ltb (score it) minS); [apply IH|].
  destruct prev as [ps|].
  - destruct (PrimFloat.leb (PrimFloat.sub ps (score it)) gap); simpl; [|lia].
    specialize (IH room (Some (score it))). lia.
  - simpl. specialize (IH room (Some (score it))). lia.
Qed.

(** Once something is selected, the loop extends it the way the
    walk of the specification does, up to the final [slice]. *)
Lemma select_loop_walk (sorted : list item) :
  forall (selected : list item) (pv : item),
    List.last (map Some selected) None = Some pv ->
    firstn (maxDocuments cfg) (select_loop cfg selected sorted)
    = firstn (maxDocuments cfg)
        (selected ++ cluster_walk (minScore cfg) (minGap cfg)
                       (maxDocuments cfg - length selected)
                       (Some (score pv)) sorted).
Proof.
  induction sorted as [|it rest IH]; intros selected pv Hpv; simpl.
  - now rewrite app_nil_r.
  - rewrite Hpv.
    destruct (maxDocuments cfg - length selected) as [|room] eqn:Eroom.
    + assert (Hfull : maxDocuments cfg <= length selected) by lia.
      destruct (PrimFloat.ltb (score it) (minScore cfg)).
      * rewrite (IH selected pv Hpv), Eroom. now apply firstn_app_short.
      * destruct (PrimFloat.leb (PrimFloat.sub (score pv) (score it)) (minGap cfg));
          [|now rewrite app_nil_r].
        assert (Hle : (maxDocuments cfg <=? length (selected ++ [it])) = true).
        { apply Nat.leb_le. rewrite length_app. simpl. lia. }
        rewrite Hle. now apply firstn_app_short.
    + destruct (PrimFloat.ltb (score it) (minScore cfg)).
      * rewrite (IH selected pv Hpv), Eroom. reflexivity.
      * destruct (PrimFloat.leb (PrimFloat.sub (score pv) (score it)) (minGap cfg));
          [|now rewrite app_nil_r].
        destruct (Nat.leb_spec (maxDocuments cfg) (length (selected ++ [it]))) as [Hle|Hgt].
        -- replace (selected ++ it :: cluster_walk (minScore cfg) (minGap cfg) room
                                   (Some (score it)) rest)
             with ((selected ++ [it]) ++ cluster_walk (minScore cfg) (minGap cfg) room
                                   (Some (score it)) rest)
             by now rewrite <- app_assoc.
           rewrite <- (app_nil_r (selected ++ [it])) at 1.
           now apply firstn_app_short.
        -- rewrite (IH (selected ++ [it]) it (last_some_snoc selected it)).
           rewrite length_app in *. simpl in *.
           replace (maxDocuments cfg - (length selected + 1)) with room by lia.
           now rewrite <- app_assoc.
Qed.

(** From the empty selection. *)
Lemma select_loop_start (sorted : list item) :
  firstn (maxDocuments cfg) (select_loop cfg [] sorted)
  = cluster_walk (minScore cfg) (minGap cfg) (maxDocuments cfg) None sorted
  /\ (select_loop cfg [] sorted = [] <-> all_below (minScore cfg) sorted = true).
Proof.
  induction sorted as [|it rest [IH1 IH2]]; simpl.
  - split; [now rewrite firstn_nil|tauto].
  - destruct (PrimFloat.ltb (score it) (minScore cfg)) eqn:Elt.
    + split; [|exact IH2].
      rewrite IH1. destruct (maxDocuments cfg); [now destruct rest|reflexivity].
    + split.
      * rewrite (select_loop_walk rest [it] it eq_refl). simpl.
        destruct (maxDocuments cfg) as [|n]; [reflexivity|].
        simpl. rewrite Nat.sub_0_r. f_equal.
        apply firstn_all2, cluster_walk_length.
      * split; [|discriminate].
        intros H. exfalso.
        assert (Hlen : 1 <= length (select_loop cfg [it] rest)).
        { clear. generalize (@nil item). intros pre.
          assert (G : forall sel, 1 <= length sel -> 1 <= length (select_loop cfg sel rest)).
          { induction rest as [|x r IHr]; intros sel Hsel; simpl; [exact Hsel|].
            destruct (PrimFloat.ltb (score x) (minScore cfg)); [now apply IHr|].
            assert (Hs : 1 <= length (sel ++ [x])) by (rewrite length_app; simpl; lia).
            destruct (List.last (map Some sel) None); [|now apply IHr].
            destruct (PrimFloat.leb _ _); [|exact Hsel].
            destruct (maxDocuments cfg <=? length (sel ++ [x])); [exact Hs|now apply IHr]. }
          apply G. simpl. lia. }
        rewrite H in Hlen. simpl in Hlen. lia.
Qed.

End ClusterFacts.

(** C3: [selectTopCluster] is the selector the specification
    describes (skip below [minScore], extend while the drop from the
    previously selected item is at most [maxGap], stop at the first
    gap break or at [maxCount]; fall back to the first [maxCount]
    items); it never returns more than [maxCount] items; when no item
    reaches [minScore] it returns the first [maxCount] items; on the
    scenario of the specification it returns the items scored 0.9
    and 0.85. *)
Theorem selectTopCluster_is_selectCluster
    (sorted : list Rerank.item) (cfg : Rerank.config) :
  Rerank.selectTopCluster sorted cfg
  = selectCluster_spec sorted (Rerank.minScore cfg) (Rerank.minGap cfg)
      (Rerank.maxDocuments cfg)
  /\ length (Rerank.selectTopCluster sorted cfg) <= Rerank.maxDocuments cfg
  /\ (all_below (Rerank.minScore cfg) sorted = true ->
      Rerank.selectTopCluster sorted cfg = firstn (Rerank.maxDocuments cfg) sorted)
  /\ Rerank.selectTopCluster
       (map scenario_item [0.9; 0.85; 0.6; 0.3]%float)
       (Rerank.Config 0.4 0.08 3)
     = map scenario_item [0.9; 0.85]%float.
Proof.
  destruct (select_loop_start cfg sorted) as [Hwalk Hnil].
  repeat split.
  - unfold Rerank.selectTopCluster, selectCluster_spec. rewrite <- Hwalk.
    destruct (Rerank.select_loop cfg [] sorted) as [|x sel] eqn:E.
    + now rewrite firstn_nil.
    + destruct (Rerank.maxDocuments cfg) as [|n]; [now rewrite !firstn_O|].
      reflexivity.
  - unfold Rerank.selectTopCluster.
    destruct (Rerank.select_loop cfg [] sorted); rewrite length_firstn; lia.
  - intros Hall. unfold Rerank.selectTopCluster.
    apply Hnil in Hall. now rewrite Hall.
Qed.

Lemma selectTopCluster_fallback_witness :
  Rerank.selectTopCluster (map scenario_item [0.3; 0.2; 0.1]%float)
    (Rerank.Config 0.4 0.08 2)
  = map scenario_item [0.3; 0.2]%float.
Proof.
  exact (proj1 (proj2 (proj2
    (selectTopCluster_is_selectCluster
       (map scenario_item [0.3; 0.2; 0.1]%float) (Rerank.Config 0.4 0.08 2))))
    eq_refl).
Defined.

(* ================================================================== *)
(** * C4: temporal decay *)
(* ================================================================== *)

Section DecayFacts.

Local Open Scope R_scope.




End DecayFacts.




(* ================================================================== *)
(** * C5: finalizing a session twice *)
(* ================================================================== *)

(** C5 as worded fails: the second run adds nothing to the
    character total but still counts a session, and the average is
    recomputed over the larger count (1500 characters: 500 per
    session over 3, 375 over 4). *)
Lemma finalize_twice_claim_counterexample :
  let once := Meta.finalizeRoutingSession scenario_ledger in
  let twice := Meta.finalizeRoutingSession once in
  MetaRouting.sessions (stats_of once) = Some 3%Z
  /\ MetaRouting.total_session_chars (stats_of once) = Some 1500%Z
  /\ MetaRouting.after_routing_avg (stats_of once) = Some 500%Z
  /\ MetaRouting.sessions (stats_of twice) = Some 4%Z
  /\ MetaRouting.total_session_chars (stats_of twice) = Some 1500%Z
  /\ MetaRouting.after_routing_avg (stats_of twice) = Some 375%Z.
Proof. vm_compute. repeat split. Qed.

(** C5 (amended): a second finalization right after the first
    leaves [total_session_chars] and [total_session_activations]
    unchanged and the current-session counters at zero; it counts
    one more session and recomputes the average over the new
    count. *)
Theorem finalize_twice (m : MetaRouting.meta) :
  let once := stats_of (Meta.finalizeRoutingSession m) in
  let twice := stats_of (Meta.finalizeRoutingSession (Meta.finalizeRoutingSession m)) in
  MetaRouting.total_session_chars twice = MetaRouting.total_session_chars once
  /\ MetaRouting.total_session_activations twice
     = MetaRouting.total_session_activations once
  /\ MetaRouting.current_session_chars twice = Some 0%Z
  /\ MetaRouting.current_session_activations twice = Some 0%Z
  /\ MetaRouting.last_session_chars twice = Some 0%Z
  /\ MetaRouting.sessions twice
     = Some (or_else (MetaRouting.sessions once) 0 + 1)%Z
  /\ MetaRouting.after_routing_avg twice
     = Some (let n := (or_else (MetaRouting.sessions once) 0 + 1)%Z in
             if (n =? 0)%Z then 0%Z
             else round_div (or_else (MetaRouting.total_session_chars once) 0) n).
Proof.
  assert (Hor : forall z : Z, or_else (Some z) 0 = z).
  { intros z. unfold or_else. now destruct (Z.eqb_spec z 0). }
  unfold Meta.finalizeRoutingSession, stats_of. cbn -[or_else round_div Z.add Z.eqb].
  rewrite !Hor.
  change (or_else (Some 0%Z) 0) with 0%Z. rewrite !Z.add_0_r.
  repeat split; now rewrite ?Hor.
Qed.

(* ================================================================== *)
(** * C6: feedback is commutative in aggregate *)
(* ================================================================== *)

Section FeedbackFacts.

Import MetaRouting.

Variable layer : list N.
Hypothesis layer_named : layer <> [].

Lemma or_else_some (z : Z) : or_else (Some z) 0 = z.
Proof. unfold or_else. now destruct (Z.eqb_spec z 0). Qed.







(** The feedback fields after one more event on the layer. *)
Definition counted (up down : Z) (e : option entry) : Prop :=
  if (0 <? up + down)%Z
  then exists x, e = Some x /\ useful_up x = Some up /\ useful_down x = Some down
                 /\ useful_rate x = Some (rate (Some up) (up + down))
  else match e with
       | Some x => useful_up x = Some 0%Z /\ useful_down x = Some 0%Z
                   /\ useful_rate x = None
       | None => True
       end.


Lemma counted_feedback (up down : Z) (file : meta) :
  counted up down (entry_of file layer) ->
  feedback_of file layer
  = tally (feedback_of file layer) up down.
Proof.
  unfold counted, tally, feedback_of.
  destruct (0 <? up + down)%Z; [|reflexivity].
  intros (x & -> & -> & -> & ->). reflexivity.
Qed.

Lemma fresh_counted (file : meta) :
  fresh_for layer file -> counted 0 0 (entry_of file layer).
Proof. intros H. exact H. Qed.









End FeedbackFacts.



(* ================================================================== *)
(** * C7: token savings without a baseline *)
(* ================================================================== *)




(* ================================================================== *)
(** * Facts about handlers *)
(* ================================================================== *)

Section HandlerFacts.

Lemma returns_ret {A} (a : A) : returns (ret a).
Proof. intros h w. now exists a. Qed.

Lemma returns_bind {A B} (m : M A) (k : A -> M B) :
  (forall a, returns (k a)) -> returns m -> returns (bind m k).
Proof.
  intros Hk Hm h w. unfold bind. destruct (Hm h w) as [a Ha].
  destruct (m h w) as [w' [a'|err]]; simpl in Ha; [|discriminate].
  apply Hk.
Qed.

Lemma returns_try_catch {A} (body : M A) (handler : list N -> M A) :
  (forall err, returns (handler err)) -> returns (try_catch body handler).
Proof.
  intros Hh h w. unfold try_catch.
  destruct (body h w) as [w' [a|err]]; [now exists a|apply Hh].
Qed.

Lemma returns_warn (msg : list N) : returns (warn msg).
Proof. intros h w. now exists tt. Qed.

Lemma returns_date_now : returns date_now.
Proof. intros h w. now eexists. Qed.

Lemma returns_recordRouting (layer : list N) (chars : nat) :
  returns (recordRouting layer chars).
Proof. intros h w. now exists tt. Qed.

Lemma returns_for_each {A S} (body : A -> S -> M S) (xs : list A) :
  (forall x s, returns (body x s)) -> forall s, returns (for_each xs body s).
Proof.
  intros Hb. induction xs as [|x xs IH]; intros s; simpl.
  - apply returns_ret.
  - apply returns_bind; [exact IH|apply Hb].
Qed.

Lemma extends_ret {A} (a : A) : extends (ret a).
Proof. intros h w. exists []. simpl. now rewrite app_nil_r. Qed.

Lemma extends_bind {A B} (m : M A) (k : A -> M B) :
  extends m -> (forall a, extends (k a)) -> extends (bind m k).
Proof.
  intros Hm Hk h w. unfold bind. destruct (Hm h w) as [r1 H1].
  destruct (m h w) as [w' [a|err]]; simpl in H1.
  - destruct (Hk a h w') as [r2 H2]. exists (r1 ++ r2).
    now rewrite H2, H1, app_assoc.
  - now exists r1.
Qed.

Lemma extends_try_catch {A} (body : M A) (handler : list N -> M A) :
  extends body -> (forall err, extends (handler err)) ->
  extends (try_catch body handler).
Proof.
  intros Hb Hh h w. unfold try_catch. destruct (Hb h w) as [r1 H1].
  destruct (body h w) as [w' [a|err]]; simpl in H1.
  - now exists r1.
  - destruct (Hh err h w') as [r2 H2]. exists (r1 ++ r2).
    now rewrite H2, H1, app_assoc.
Qed.

Lemma extends_log {A} (c : call) (f : host -> world -> outcome A) :
  extends (fun h w => (log c w, f h w)).
Proof. intros h w. now exists [c]. Qed.

Lemma extends_quiet {A} (f : host -> world -> world * outcome A) :
  (forall h w, calls (fst (f h w)) = calls w) -> extends f.
Proof. intros Hf h w. exists []. now rewrite Hf, app_nil_r. Qed.

Lemma emits_ret {A} (P : call -> Prop) (a : A) : emits P (ret a).
Proof. intros h w. exists []. simpl. now rewrite app_nil_r. Qed.

Lemma emits_bind {A B} (P : call -> Prop) (m : M A) (k : A -> M B) :
  emits P m -> (forall a, emits P (k a)) -> emits P (bind m k).
Proof.
  intros Hm Hk h w. unfold bind. destruct (Hm h w) as (r1 & H1 & F1).
  destruct (m h w) as [w' [a|err]]; simpl in H1.
  - destruct (Hk a h w') as (r2 & H2 & F2). exists (r1 ++ r2).
    rewrite H2, H1, app_assoc. split; [reflexivity|now apply Forall_app].
  - now exists r1.
Qed.

Lemma emits_try_catch {A} (P : call -> Prop) (body : M A) (handler : list N -> M A) :
  emits P body -> (forall err, emits P (handler err)) ->
  emits P (try_catch body handler).
Proof.
  intros Hb Hh h w. unfold try_catch. destruct (Hb h w) as (r1 & H1 & F1).
  destruct (body h w) as [w' [a|err]]; simpl in H1.
  - now exists r1.
  - destruct (Hh err h w') as (r2 & H2 & F2). exists (r1 ++ r2).
    rewrite H2, H1, app_assoc. split; [reflexivity|now apply Forall_app].
Qed.

Lemma emits_log {A} (P : call -> Prop) (c : call) (f : host -> world -> outcome A) :
  P c -> emits P (fun h w => (log c w, f h w)).
Proof. intros Hc h w. exists [c]. split; [reflexivity|]. now constructor. Qed.

Lemma emits_quiet {A} (P : call -> Prop) (f : host -> world -> world * outcome A) :
  (forall h w, calls (fst (f h w)) = calls w) -> emits P f.
Proof. intros Hf h w. exists []. rewrite Hf, app_nil_r. now split. Qed.

Lemma emits_for_each {A S} (P : call -> Prop) (body : A -> S -> M S) (xs : list A) :
  (forall x s, emits P (body x s)) -> forall s, emits P (for_each xs body s).
Proof.
  intros Hb. induction xs as [|x xs IH]; intros s; simpl.
  - apply emits_ret.
  - apply emits_bind; [apply Hb|exact IH].
Qed.

(** A prefix that fits and neither starts nor ends with white space
    survives [truncate]. *)
Lemma trimStart_app_stop (a : list N) (d : N) (b : list N) :
  Js.is_space d = false ->
  exists a', Js.trimStart (a ++ d :: b) = a' ++ d :: b.
Proof.
  intros Hd. induction a as [|c a IH]; simpl.
  - exists []. now rewrite Hd.
  - destruct (Js.is_space c); [exact IH|now exists (c :: a)].
Qed.

Lemma truncate_keeps_prefix (c d : N) (body rest : list N) (max : nat) :
  Js.is_space c = false -> Js.is_space d = false ->
  length (c :: body ++ [d]) <= max ->
  exists tail,
    truncate ((c :: body ++ [d]) ++ rest) max = (c :: body ++ [d]) ++ tail.
Proof.
  intros Hc Hd Hlen. unfold truncate.
  change ((c :: body ++ [d]) ++ rest) with (c :: (body ++ [d]) ++ rest).
  cbv iota beta.
  destruct (length (c :: (body ++ [d]) ++ rest) <=? max); [now exists rest|].
  unfold Js.slice0.
  change (c :: (body ++ [d]) ++ rest) with ((c :: body ++ [d]) ++ rest).
  rewrite firstn_app, (firstn_all2 (c :: body ++ [d])) by exact Hlen.
  set (x := firstn (max - length (c :: body ++ [d])) rest).
  unfold Js.trim. change (Js.trimStart ((c :: body ++ [d]) ++ x))
    with (Js.trimStart (c :: (body ++ [d]) ++ x)).
  cbn [Js.trimStart]. rewrite Hc. unfold Js.trimEnd.
  replace (c :: (body ++ [d]) ++ x) with ((c :: body) ++ d :: x)
    by (simpl; now rewrite <- app_assoc).
  rewrite rev_app_distr. cbn [rev]. rewrite <- (app_assoc (rev x)). cbn [app].
  destruct (trimStart_app_stop (rev x) d (rev body ++ [c]) Hd) as [a' Ha'].
  rewrite Ha'. exists (rev a' ++ js "...").
  rewrite rev_app_distr. cbn [rev]. rewrite rev_app_distr, rev_involutive.
  cbn [rev app]. now rewrite <- !app_assoc.
Qed.

Lemma usable_prompt_short (min : nat) (event : option turn_start) :
  too_short min event -> usable_prompt min event = None.
Proof.
  unfold too_short, usable_prompt. destruct event as [[[[|c p]|]]|]; try reflexivity.
  cbn [prompt]. intros H. apply Nat.ltb_lt in H. now rewrite H.
Qed.

Lemma usable_prompt_long (min : nat) (p : list N) :
  p <> [] -> min <= length p ->
  usable_prompt min (Some (TurnStart (Some p))) = Some p.
Proof.
  intros Hp Hlen. unfold usable_prompt. cbn [prompt]. destruct p as [|c p]; [easy|].
  apply Nat.ltb_ge in Hlen. now rewrite Hlen.
Qed.

End HandlerFacts.

(* ================================================================== *)
(** * C8: the length check comes first *)
(* ================================================================== *)

Section GateFacts.

Variable toLowerCase : list N -> list N.
Variables shouldRecallGoals timeline_shouldRecall shouldRecallGraph
  shouldRecallEpisodic shouldRecallProcedural shouldRecallEntities
  meta_shouldRecall sentiment_shouldRecall blackboard_shouldRecall
  : list N -> bool.
Variables goal_lines timeline_lines graph_lines : Z -> list hit -> list (list N).
Variable rank_entries : layer_config -> Z -> list hit -> list hit.
Variable procedural_rate : hit -> list N.
Variables meta_report blackboard_report : list (list N).
Variable sentiment_report : option (list N).
Variable toolskill_summaries : list N -> bool -> list (list N).

Lemma vector_recall_short (keywords : list N -> bool)
    (lines_of : Z -> list hit -> list (list N)) (table layer tag plugin : list N)
    (cfg : layer_config) (event : option turn_start) :
  too_short 3 event ->
  skipped (vector_recall keywords lines_of table layer tag plugin cfg event).
Proof.
  intros H h w. unfold vector_recall. now rewrite (usable_prompt_short 3 event H).
Qed.

Lemma vector_recall_always (keywords : list N -> bool)
    (lines_of : Z -> list hit -> list (list N)) (table layer tag plugin : list N)
    (cfg : layer_config) (p : list N) :
  p <> [] -> 3 <= length p -> alwaysRecall cfg = true ->
  embeds_first p (vector_recall keywords lines_of table layer tag plugin cfg
                    (Some (TurnStart (Some p)))).
Proof.
  intros Hp Hlen Halways h w. unfold vector_recall.
  rewrite (usable_prompt_long 3 p Hp Hlen), Halways. cbn [negb andb].
  unfold try_catch, bind at 1, embed.
  destruct (answer (embed_reply h (length (calls w)) p)) as [v|err].
  - match goal with
    | |- context [bind ?m ?k h (log (Embed p) w)] =>
        assert (He : extends (bind m k))
    end.
    { apply extends_bind; [apply extends_log|]. intros results.
      destruct results; [apply extends_ret|].
      apply extends_bind; [apply extends_quiet; reflexivity|]. intros now.
      destruct (lines_of now _); [apply extends_ret|].
      apply extends_bind; [apply extends_quiet; reflexivity|].
      intros _. apply extends_ret. }
    match goal with
    | |- context [bind ?m ?k h (log (Embed p) w)] =>
        destruct (He h (log (Embed p) w)) as [r1 H1];
        destruct (bind m k h (log (Embed p) w)) as [w' [a|err]]
    end; simpl in H1.
    + exists r1. simpl. now rewrite H1, <- app_assoc.
    + exists (r1 ++ [Warn (plugin ++ js ": recall failed: " ++ err)]).
      unfold bind, warn, ret. simpl. rewrite H1. now rewrite <- !app_assoc.
  - exists [Warn (plugin ++ js ": recall failed: " ++ err)].
    unfold bind, warn, ret. simpl. now rewrite <- app_assoc.
Qed.

(** C8: in every layer the length check comes first.  A query that
    is missing, empty or shorter than the minimum of the layer (3; 5
    for the episodic/procedural and rerank plugins; 2 for the
    blackboard) makes no call at all, changes nothing and injects no
    context, whatever the configuration, [alwaysRecall] included.
    [alwaysRecall] matters only after that check: with it, a query
    that passes the check is embedded at once. *)
Theorem recall_gate_length_first (event : option turn_start) :
  (too_short 3 event ->
     (forall cfg, skipped (goal_before_agent_start shouldRecallGoals goal_lines cfg event))
     /\ (forall cfg, skipped (timeline_before_agent_start timeline_shouldRecall
                                timeline_lines cfg event))
     /\ (forall cfg, skipped (graph_before_agent_start shouldRecallGraph
                                graph_lines cfg event))
     /\ (forall cfg, skipped (entity_before_agent_start toLowerCase
                                shouldRecallEntities cfg event))
     /\ (forall always max, skipped (meta_before_agent_start meta_shouldRecall
                                       meta_report always max event))
     /\ (forall always, skipped (sentiment_before_agent_start sentiment_shouldRecall
                                   sentiment_report always event))
     /\ (forall always max, skipped (toolskill_before_agent_start
                                       toolskill_summaries always max event)))
  /\ (too_short 5 event ->
     (forall cfg, skipped (epiproc_before_agent_start shouldRecallEpisodic
                             shouldRecallProcedural rank_entries procedural_rate
                             cfg event))
     /\ (forall cfg maxDocChars maxTotalMs,
           skipped (rerank_before_agent_start cfg maxDocChars maxTotalMs event)))
  /\ (too_short 2 event ->
     forall always, skipped (blackboard_before_agent_start blackboard_shouldRecall
                               blackboard_report always event))
  /\ (forall cfg p,
        event = Some (TurnStart (Some p)) -> p <> [] -> 3 <= length p ->
        alwaysRecall cfg = true ->
        embeds_first p (goal_before_agent_start shouldRecallGoals goal_lines cfg event)
        /\ embeds_first p (timeline_before_agent_start timeline_shouldRecall
                             timeline_lines cfg event)
        /\ embeds_first p (graph_before_agent_start shouldRecallGraph
                             graph_lines cfg event)).
Proof.
  split; [|split; [|split]].
  - intros H. pose proof (usable_prompt_short 3 event H) as Hu.
    repeat split; intros; try (now apply vector_recall_short); intros h w.
    + unfold entity_before_agent_start. now rewrite Hu.
    + unfold meta_before_agent_start. now rewrite Hu.
    + unfold sentiment_before_agent_start. now rewrite Hu.
    + unfold toolskill_before_agent_start. now rewrite Hu.
  - intros H. pose proof (usable_prompt_short 5 event H) as Hu.
    split; intros; intros h w.
    + unfold epiproc_before_agent_start. now rewrite Hu.
    + unfold rerank_before_agent_start. now rewrite Hu.
  - intros H always h w. unfold blackboard_before_agent_start.
    now rewrite (usable_prompt_short 2 event H).
  - intros cfg p -> Hp Hlen Halways.
    repeat split; now apply vector_recall_always.
Qed.

End GateFacts.

Lemma recall_gate_length_first_witness :
  let cfg := LayerConfig 4 true ExplicitOrPattern 1200 true in
  goal_before_agent_start (fun _ => true) (fun _ _ => [])
    cfg (Some (TurnStart (Some (js "hi")))) all_up empty_world
  = (empty_world, Returned None)
  /\ exists rest,
       calls (fst (goal_before_agent_start (fun _ => false) (fun _ _ => [])
                     cfg (Some (TurnStart (Some (js "hello")))) all_up empty_world))
       = Embed (js "hello") :: rest.
Proof.
  intros cfg.
  pose (none := fun _ : list N => false).
  pose (lines := fun (_ : Z) (_ : list hit) => @nil (list N)).
  split.
  - assert (Hshort : too_short 3 (Some (TurnStart (Some (js "hi")))))
      by (simpl; lia).
    destruct (recall_gate_length_first lower_ascii (fun _ => true) none none none
                none none none none none lines lines lines (fun _ _ r => r)
                (fun _ => []) [] [] None (fun _ _ => [])
                (Some (TurnStart (Some (js "hi"))))) as [H3 _].
    destruct (H3 Hshort) as [Hgoal _]. apply Hgoal.
  - destruct (recall_gate_length_first lower_ascii none none none none
                none none none none none lines lines lines (fun _ _ r => r)
                (fun _ => []) [] [] None (fun _ _ => [])
                (Some (TurnStart (Some (js "hello"))))) as (_ & _ & _ & Hlong).
    destruct (Hlong cfg (js "hello") eq_refl ltac:(discriminate) ltac:(simpl; lia)
                eq_refl) as [Hgoal _].
    apply (Hgoal all_up empty_world).
Defined.

(* ================================================================== *)
(** * Failures of the collaborators during capture *)

Lemma texts_of_user (text : list N) :
  text <> [] ->
  texts_of [js "user"; js "assistant"] [Message (js "user") (Text text)] = [text].
Proof. intros H. destruct text as [|c s]; [easy|]. reflexivity. Qed.

Section CaptureFailures.

Variable toLowerCase : list N -> list N.
Variable formatIso : Z -> list N.
Variable parseDateFromText : list N -> option Z.
Variable parseGoals : list N -> captureMode -> list goal.

(** The goal plugin wraps the embedding and the insertion in a
    [try]/[catch] that only logs. *)
Lemma goal_capture_returns (cfg : layer_config) (g : goal) (seen : gset (list N)) :
  returns (goal_capture toLowerCase cfg g seen).
Proof.
  unfold goal_capture. destruct (goal_text g); [apply returns_ret|].
  destruct (bool_decide _); [apply returns_ret|].
  apply returns_bind; [intros; apply returns_ret|].
  apply returns_try_catch. intros err. apply returns_warn.
Qed.

Lemma goal_agent_end_returns (cfg : layer_config) (event : option turn_end) :
  returns (goal_agent_end toLowerCase parseGoals cfg event).
Proof.
  unfold goal_agent_end. destruct event as [e|]; [|apply returns_ret].
  destruct (texts_of _ _); [apply returns_ret|].
  apply returns_bind; [intros; apply returns_ret|].
  apply returns_for_each. intros raw seen.
  apply returns_for_each. intros g s. apply goal_capture_returns.
Qed.

(** So does the timeline plugin. *)
Lemma timeline_capture_returns (cfg : layer_config) (evt : list N) (u : unit) :
  returns (timeline_capture formatIso parseDateFromText cfg evt u).
Proof.
  unfold timeline_capture. destruct evt; [apply returns_ret|].
  apply returns_bind.
  - intros occurredAt. apply returns_bind; [|apply returns_date_now].
    intros recordedAt. apply returns_try_catch. intros err. apply returns_warn.
  - destruct (parseDateFromText _) as [t|]; [|apply returns_date_now].
    destruct (t =? 0)%Z; [apply returns_date_now|apply returns_ret].
Qed.

Lemma timeline_agent_end_returns (cfg : layer_config) (event : option turn_end) :
  returns (timeline_agent_end formatIso parseDateFromText cfg event).
Proof.
  unfold timeline_agent_end. destruct event as [e|]; [|apply returns_ret].
  destruct (texts_of _ _); [apply returns_ret|].
  apply returns_for_each. intros raw u.
  apply returns_for_each. intros evt v. apply timeline_capture_returns.
Qed.

(** The entity plugin awaits the embedding outside any [try]: when
    the provider fails, the first entity of the turn ends the handler. *)
Lemma entity_capture_throws (cfg : layer_config) (e : entity)
    (st : list (list N * index_entry) * list (list N))
    (h : host) (w : world) (err : list N) :
  entity_name e <> [] ->
  (forall n t, embed_reply h n t = inl err) ->
  entity_capture toLowerCase cfg e st h w
  = (log (Embed (entity_summary cfg e)) w, Thrown err).
Proof.
  intros Hname Hdown. unfold entity_capture.
  destruct (entity_name e) as [|c s]; [easy|].
  unfold bind, embed. now rewrite Hdown.
Qed.

(** C1 (the handlers the claim cites).  A failure of the embedding
    provider never leaves the [agent_end] handlers of the goal and
    timeline plugins: they return whatever the collaborators answer.
    The [agent_end] handler of the entity plugin does not: when the
    text of a user message yields an entity and the provider fails,
    the handler ends with the provider's error right after the first
    embedding request, and the index file is not rewritten. *)
Theorem entity_agent_end_propagates_failure
    (cfg : layer_config) (text : list N) (e : entity) (es : list entity)
    (h : host) (w : world) (err : list N) :
  text <> [] ->
  extractEntitiesFromText toLowerCase text (capture_mode cfg) = e :: es ->
  entity_name e <> [] ->
  (forall n t, embed_reply h n t = inl err) ->
  returns (goal_agent_end toLowerCase parseGoals cfg (user_says text))
  /\ returns (timeline_agent_end formatIso parseDateFromText cfg (user_says text))
  /\ entity_agent_end toLowerCase cfg (user_says text) h w
     = (log (Embed (entity_summary cfg e)) w, Thrown err).
Proof.
  intros Htext Hextract Hname Hdown.
  split; [apply goal_agent_end_returns|].
  split; [apply timeline_agent_end_returns|].
  unfold entity_agent_end, user_says. cbn [messages].
  rewrite (texts_of_user text Htext).
  unfold bind at 1. unfold loadIndex at 1. cbn [for_each].
  rewrite Hextract. cbn [for_each].
  unfold bind. now rewrite (entity_capture_throws cfg e _ h w err Hname Hdown).
Qed.

End CaptureFailures.

Lemma entity_agent_end_propagates_failure_witness :
  entity_agent_end lower_ascii default_config (user_says (js "client: Acme"))
    provider_down empty_world
  = (World [Embed (js "Entity: Acme" ++ nl ++ js "Type: client" ++ nl ++ js "Details: ")]
           0 (MetaRouting.Meta None None) [],
     Thrown (js "Error: connect ECONNREFUSED")).
Proof.
  refine (proj2 (proj2 (entity_agent_end_propagates_failure lower_ascii
            (fun _ => []) (fun _ => None) (fun _ _ => []) default_config
            (js "client: Acme") (Entity (js "client") (js "Acme") []) []
            provider_down empty_world (js "Error: connect ECONNREFUSED")
            _ _ _ _))).
  - discriminate.
  - vm_compute. reflexivity.
  - discriminate.
  - reflexivity.
Defined.

(* ================================================================== *)
(** * Redaction on the capture paths *)

Lemma timeline_summary_in_clear (evt body rest : list N) (d : N) (max : nat) :
  evt = body ++ [d] -> Js.is_space d = false ->
  7 + length evt <= max ->
  exists tail, truncate (js "Event: " ++ evt ++ rest) max = js "Event: " ++ evt ++ tail.
Proof.
  intros -> Hd Hlen.
  destruct (truncate_keeps_prefix 69 d (js "vent: " ++ body) rest max eq_refl Hd)
    as [tail Htail].
  - simpl. rewrite !length_app in *. simpl in *. lia.
  - exists tail. rewrite (app_assoc (js "Event: ") (body ++ [d]) rest).
    rewrite (app_assoc (js "Event: ") (body ++ [d]) tail).
    rewrite (app_assoc (js "Event: ") body [d]).
    exact Htail.
Qed.

Section CaptureRedaction.

Variable toLowerCase : list N -> list N.
Variable formatIso : Z -> list N.
Variable parseDateFromText : list N -> option Z.
Variable parseGoals : list N -> captureMode -> list goal.

Lemma emits_embed (P : call -> Prop) (text : list N) :
  P (Embed text) -> emits P (embed text).
Proof. intros H. now apply (emits_log P (Embed text)). Qed.

Lemma emits_store (P : call -> Prop) (table text : list N) (v : vector)
    (columns : list (list N * json)) :
  P (Store table text v columns) -> emits P (store table text v columns).
Proof. intros H. now apply (emits_log P (Store table text v columns)). Qed.

Lemma emits_warn (enabled : bool) (msg : list N) :
  emits (redacted_call enabled) (warn msg).
Proof. now apply (emits_log _ (Warn msg) (fun _ _ => Returned tt)). Qed.

Lemma emits_date_now (P : call -> Prop) : emits P date_now.
Proof. now apply emits_quiet. Qed.

(** What the goal plugin embeds and stores is the redacted summary. *)
Lemma goal_agent_end_redacts (cfg : layer_config) (event : option turn_end) :
  emits (redacted_call (redaction_enabled cfg))
        (goal_agent_end toLowerCase parseGoals cfg event).
Proof.
  unfold goal_agent_end. destruct event as [e|]; [|apply emits_ret].
  destruct (texts_of _ _); [apply emits_ret|].
  apply emits_bind; [|intros; apply emits_ret].
  apply emits_for_each. intros raw seen.
  apply emits_for_each. intros g s. unfold goal_capture.
  destruct (goal_text g); [apply emits_ret|].
  destruct (bool_decide _); [apply emits_ret|].
  apply emits_bind; [|intros; apply emits_ret].
  apply emits_try_catch; [|intros; apply emits_warn].
  apply emits_bind; [apply emits_embed; now eexists|]. intros v.
  apply emits_bind; [apply emits_date_now|]. intros capturedAt.
  apply emits_store. now eexists.
Qed.

(** So is what the entity plugin embeds and stores. *)
Lemma entity_agent_end_redacts (cfg : layer_config) (event : option turn_end) :
  emits (redacted_call (redaction_enabled cfg))
        (entity_agent_end toLowerCase cfg event).
Proof.
  unfold entity_agent_end. destruct event as [e|]; [|apply emits_ret].
  destruct (texts_of _ _); [apply emits_ret|].
  apply emits_bind; [now apply emits_quiet|]. intros index.
  apply emits_bind.
  - apply emits_for_each. intros raw st.
    apply emits_for_each. intros x s. unfold entity_capture.
    destruct (entity_name x); [apply emits_ret|].
    apply emits_bind; [apply emits_embed; now eexists|]. intros v.
    apply emits_bind; [apply emits_date_now|]. intros capturedAt.
    apply emits_bind; [apply emits_store; now eexists|]. intros _.
    apply emits_bind; [apply emits_date_now|]. intros updatedAt.
    apply emits_ret.
  - intros st. destruct (snd st); [apply emits_ret|now apply emits_quiet].
Qed.

(** The timeline plugin embeds and stores the summary as it is. *)
Lemma timeline_capture_calls (cfg : layer_config) (evt : list N)
    (h : host) (w : world) (v : vector) :
  evt <> [] ->
  (forall n t, embed_reply h n t = inr v) ->
  (forall n t, store_reply h n t = inr tt) ->
  exists occurredAt recordedAt columns,
    calls (fst (timeline_capture formatIso parseDateFromText cfg evt tt h w))
    = calls w
      ++ [Embed (truncate (js "Event: " ++ evt ++ nl
                           ++ js "Occurred: " ++ formatIso occurredAt ++ nl
                           ++ js "Recorded: " ++ formatIso recordedAt)
                          (maxChars cfg));
          Store (js "timeline")
                (truncate (js "Event: " ++ evt ++ nl
                           ++ js "Occurred: " ++ formatIso occurredAt ++ nl
                           ++ js "Recorded: " ++ formatIso recordedAt)
                          (maxChars cfg))
                v columns].
Proof.
  intros Hevt Hembed Hstore. unfold timeline_capture.
  destruct evt as [|c s]; [easy|].
  destruct (parseDateFromText (c :: s)) as [t|]; [destruct (t =? 0)%Z|];
    unfold bind, try_catch, date_now, ret, embed, store;
    cbv beta iota; rewrite Hembed; cbv beta iota delta [answer];
    rewrite Hstore; cbv beta iota; cbn [fst calls log];
    rewrite <- app_assoc; do 3 eexists; reflexivity.
Qed.

(** C2 (the capture paths the claim cites).  Whatever the goal and
    entity plugins hand to the provider and to the store went through
    [redactSensitive] with the configured switch.  The timeline plugin
    has no such step: when a user message yields one event that fits
    the summary, the text embedded and the text stored both begin with
    "Event: " followed by the event as it was written. *)
Theorem timeline_capture_stores_in_clear
    (cfg : layer_config) (text evt body : list N) (d : N)
    (h : host) (w : world) (v : vector) :
  text <> [] ->
  extractEvents text = [evt] ->
  evt = body ++ [d] -> Js.is_space d = false ->
  7 + length evt <= maxChars cfg ->
  (forall n t, embed_reply h n t = inr v) ->
  (forall n t, store_reply h n t = inr tt) ->
  emits (redacted_call (redaction_enabled cfg))
        (goal_agent_end toLowerCase parseGoals cfg (user_says text))
  /\ emits (redacted_call (redaction_enabled cfg))
           (entity_agent_end toLowerCase cfg (user_says text))
  /\ exists tail columns,
       calls (fst (timeline_agent_end formatIso parseDateFromText cfg
                     (user_says text) h w))
       = calls w
         ++ [Embed (js "Event: " ++ evt ++ tail);
             Store (js "timeline") (js "Event: " ++ evt ++ tail) v columns].
Proof.
  intros Htext Hevents Hshape Hd Hlen Hembed Hstore.
  split; [apply goal_agent_end_redacts|].
  split; [apply entity_agent_end_redacts|].
  unfold timeline_agent_end, user_says. cbn [messages].
  rewrite (texts_of_user text Htext). cbn [for_each].
  rewrite Hevents. cbn [for_each].
  assert (Hne : evt <> []) by (subst evt; now destruct body).
  destruct (timeline_capture_calls cfg evt h w v Hne Hembed Hstore)
    as (occurredAt & recordedAt & columns & Hcalls).
  destruct (timeline_summary_in_clear evt body
              (nl ++ js "Occurred: " ++ formatIso occurredAt ++ nl
               ++ js "Recorded: " ++ formatIso recordedAt)
              d (maxChars cfg) Hshape Hd Hlen) as [tail Htail].
  rewrite Htail in Hcalls. exists tail, columns.
  unfold bind, ret.
  destruct (timeline_capture formatIso parseDateFromText cfg evt tt h w)
    as [w1 [[]|err]]; exact Hcalls.
Qed.

End CaptureRedaction.

Lemma timeline_capture_stores_in_clear_witness :
  (exists tail columns,
     calls (fst (timeline_agent_end (fun _ => []) (fun _ => None) default_config
                   (user_says (js "event: token: abcdef123456"))
                   all_up empty_world))
     = [Embed (js "Event: token: abcdef123456" ++ tail);
        Store (js "timeline") (js "Event: token: abcdef123456" ++ tail) [] columns])
  /\ redactSensitive (js "Event: token: abcdef123456") true = js "Event: [redacted]".
Proof.
  split; [|vm_compute; reflexivity].
  refine (proj2 (proj2 (timeline_capture_stores_in_clear lower_ascii
            (fun _ => []) (fun _ => None) (fun _ _ => []) default_config
            (js "event: token: abcdef123456") (js "token: abcdef123456")
            (js "token: abcdef12345") 54%N all_up empty_world [] _ _ _ _ _ _ _))).
  - discriminate.
  - vm_compute. reflexivity.
  - reflexivity.
  - reflexivity.
  - simpl. lia.
  - reflexivity.
  - reflexivity.
Defined.

(* ================================================================== *)
(** * The recall handlers never throw *)
(* ================================================================== *)

Section RecallFacts.

Variable toLowerCase : list N -> list N.
Variables shouldRecallGoals timeline_shouldRecall shouldRecallGraph
  shouldRecallEpisodic shouldRecallProcedural shouldRecallEntities
  meta_shouldRecall sentiment_shouldRecall blackboard_shouldRecall
  : list N -> bool.
Variables goal_lines timeline_lines graph_lines : Z -> list hit -> list (list N).
Variable rank_entries : layer_config -> Z -> list hit -> list hit.
Variable procedural_rate : hit -> list N.
Variables meta_report blackboard_report : list (list N).
Variable sentiment_report : option (list N).
Variable toolskill_summaries : list N -> bool -> list (list N).

Lemma returns_then {A B} (m : M A) (k : M B) :
  returns m -> returns k -> returns (m;; k).
Proof. intros Hm Hk. apply returns_bind; [intros _; exact Hk|exact Hm]. Qed.

Lemma vector_recall_returns (keywords : list N -> bool)
    (lines_of : Z -> list hit -> list (list N)) (table layer tag plugin : list N)
    (cfg : layer_config) (event : option turn_start) :
  returns (vector_recall keywords lines_of table layer tag plugin cfg event).
Proof.
  unfold vector_recall. destruct (usable_prompt 3 event); [|apply returns_ret].
  destruct (_ && _); [apply returns_ret|].
  apply returns_try_catch. intros err.
  apply returns_then; [apply returns_warn|apply returns_ret].
Qed.

Lemma epiproc_part_returns (table layer what : list N) (format : list hit -> list N)
    (cfg : layer_config) (p : list N) (parts : list (list N)) :
  returns (epiproc_part rank_entries table layer what format cfg p parts).
Proof.
  unfold epiproc_part. apply returns_try_catch. intros err.
  apply returns_then; [apply returns_warn|apply returns_ret].
Qed.

Lemma rerank_score_returns (query : list N) (maxDocChars : nat) (maxTotalMs start : Z)
    (candidates : list candidate) :
  forall scored,
    returns (rerank_score query maxDocChars maxTotalMs start candidates scored).
Proof.
  induction candidates as [|item rest IH]; intros scored; simpl.
  - apply returns_ret.
  - apply returns_bind; [|apply returns_date_now]. intros now.
    destruct (_ <? _)%Z; [apply returns_ret|].
    apply returns_bind; [intros; apply IH|]. intros h w. now eexists.
Qed.

Lemma entity_recall_returns (cfg : layer_config) (event : option turn_start) :
  returns (entity_before_agent_start toLowerCase shouldRecallEntities cfg event).
Proof.
  unfold entity_before_agent_start.
  destruct (usable_prompt 3 event) as [p|]; [|apply returns_ret].
  apply returns_bind; [|intros h w; now eexists]. intros index.
  apply returns_bind.
  - intros found. destruct (entity_combine _ _ _ _); [apply returns_ret|].
    apply returns_then; [apply returns_recordRouting|apply returns_ret].
  - destruct (_ || _); [|apply returns_ret].
    apply returns_try_catch. intros err.
    apply returns_then; [apply returns_warn|apply returns_ret].
Qed.

(** Every [before_agent_start] handler returns, whatever the
    event, the configuration and the answers of the provider, the
    store and the search command: a failure of a collaborator is
    caught inside the handler. *)
Theorem recall_handlers_return (event : option turn_start) :
  (forall cfg, returns (goal_before_agent_start shouldRecallGoals goal_lines cfg event))
  /\ (forall cfg, returns (timeline_before_agent_start timeline_shouldRecall
                             timeline_lines cfg event))
  /\ (forall cfg, returns (graph_before_agent_start shouldRecallGraph
                             graph_lines cfg event))
  /\ (forall cfg, returns (epiproc_before_agent_start shouldRecallEpisodic
                             shouldRecallProcedural rank_entries procedural_rate
                             cfg event))
  /\ (forall cfg, returns (entity_before_agent_start toLowerCase
                             shouldRecallEntities cfg event))
  /\ (forall cfg maxDocChars maxTotalMs,
        returns (rerank_before_agent_start cfg maxDocChars maxTotalMs event))
  /\ (forall always max, returns (meta_before_agent_start meta_shouldRecall
                                    meta_report always max event))
  /\ (forall always, returns (sentiment_before_agent_start sentiment_shouldRecall
                                sentiment_report always event))
  /\ (forall always, returns (blackboard_before_agent_start blackboard_shouldRecall
                                blackboard_report always event))
  /\ (forall always max, returns (toolskill_before_agent_start
                                    toolskill_summaries always max event)).
Proof.
  repeat split; intros.
  - apply vector_recall_returns.
  - apply vector_recall_returns.
  - apply vector_recall_returns.
  - unfold epiproc_before_agent_start.
    destruct (usable_prompt 5 event) as [p|]; [|apply returns_ret].
    destruct (negb _ && negb _); [apply returns_ret|].
    apply returns_bind.
    + intros parts. apply returns_bind.
      * intros parts'. destruct parts'; apply returns_ret.
      * destruct (_ && _); [apply epiproc_part_returns|apply returns_ret].
    + destruct (_ && _); [apply epiproc_part_returns|apply returns_ret].
  - apply entity_recall_returns.
  - unfold rerank_before_agent_start.
    destruct (usable_prompt 5 event) as [q|]; [|apply returns_ret].
    apply returns_bind.
    + intros [[|c cs]|]; try apply returns_ret.
      apply returns_bind; [|apply returns_date_now]. intros start.
      apply returns_bind; [|apply rerank_score_returns].
      intros scored. destruct scored; apply returns_ret.
    + apply returns_try_catch. intros err.
      apply returns_then; [apply returns_warn|apply returns_ret].
  - unfold meta_before_agent_start.
    destruct (usable_prompt 3 event); [|apply returns_ret].
    destruct (_ && _); [apply returns_ret|].
    destruct meta_report; [apply returns_ret|].
    apply returns_then; [apply returns_recordRouting|apply returns_ret].
  - unfold sentiment_before_agent_start.
    destruct (usable_prompt 3 event); [|apply returns_ret].
    destruct (_ && _); [apply returns_ret|].
    destruct sentiment_report; [|apply returns_ret].
    apply returns_then; [apply returns_recordRouting|apply returns_ret].
  - unfold blackboard_before_agent_start.
    destruct (usable_prompt 2 event); [|apply returns_ret].
    destruct (_ && _); [apply returns_ret|].
    destruct blackboard_report; [apply returns_ret|].
    apply returns_then; [apply returns_recordRouting|apply returns_ret].
  - unfold toolskill_before_agent_start.
    destruct (usable_prompt 3 event) as [p|]; [|apply returns_ret].
    destruct (toolskill_summaries p always); [apply returns_ret|].
    apply returns_then; [apply returns_recordRouting|apply returns_ret].
Qed.

End RecallFacts.

(* ================================================================== *)
(** * The entity plugin: index and recall *)
(* ================================================================== *)

Section ObjectFacts.

Context {V : Type}.

Lemma get_assign (key : list N) (value : V) (obj : list (list N * V)) :
  get key (assign key value obj) = Some value.
Proof.
  unfold get. induction obj as [|[k v] rest IH]; simpl.
  - now rewrite bool_decide_eq_true_2.
  - destruct (bool_decide (k = key)) eqn:E; simpl; rewrite E; [reflexivity|exact IH].
Qed.

Lemma get_assign_other (key other : list N) (value : V) (obj : list (list N * V)) :
  other <> key -> get other (assign key value obj) = get other obj.
Proof.
  intros Hne. unfold get. induction obj as [|[k v] rest IH]; simpl.
  - now rewrite bool_decide_eq_false_2 by congruence.
  - destruct (bool_decide (k = key)) eqn:E; simpl.
    + apply bool_decide_eq_true_1 in E. subst k.
      now rewrite bool_decide_eq_false_2 by congruence.
    + destruct (bool_decide (k = other)); [reflexivity|exact IH].
Qed.

Lemma assign_keys (key : list N) (value : V) (obj : list (list N * V)) :
  map fst (assign key value obj)
  = if bool_decide (key ∈ map fst obj) then map fst obj else map fst obj ++ [key].
Proof.
  induction obj as [|[k v] rest IH]; simpl; [reflexivity|].
  destruct (bool_decide (k = key)) eqn:E; simpl.
  - apply bool_decide_eq_true_1 in E. subst k.
    now rewrite bool_decide_eq_true_2 by (apply elem_of_cons; now left).
  - apply bool_decide_eq_false_1 in E. rewrite IH.
    destruct (bool_decide (key ∈ map fst rest)) eqn:E'.
    + apply bool_decide_eq_true_1 in E'.
      now rewrite bool_decide_eq_true_2 by (apply elem_of_cons; now right).
    + apply bool_decide_eq_false_1 in E'.
      rewrite bool_decide_eq_false_2; [reflexivity|].
      intros Hin. apply elem_of_cons in Hin. destruct Hin; congruence.
Qed.

(** Writing a property of a JSON object and reading it back: the
    value written is the value read, the other properties read as
    before, a key that is there keeps its place and a new one goes
    last, and no key is ever repeated. *)
Theorem assign_then_get (key : list N) (value : V) (obj : list (list N * V)) :
  get key (assign key value obj) = Some value
  /\ (forall other, other <> key -> get other (assign key value obj) = get other obj)
  /\ (key ∈ map fst obj -> map fst (assign key value obj) = map fst obj)
  /\ (key ∉ map fst obj -> map fst (assign key value obj) = map fst obj ++ [key])
  /\ (NoDup (map fst obj) -> NoDup (map fst (assign key value obj))).
Proof.
  split; [apply get_assign|].
  split; [intros other; apply get_assign_other|].
  rewrite assign_keys.
  split; [intros Hin; now rewrite bool_decide_eq_true_2|].
  split; [intros Hin; now rewrite bool_decide_eq_false_2|].
  intros Hnd. destruct (bool_decide (key ∈ map fst obj)) eqn:E; [exact Hnd|].
  apply bool_decide_eq_false_1 in E.
  apply NoDup_app. split; [exact Hnd|]. split.
  - intros x Hx Hx'. apply list_elem_of_singleton in Hx'. now subst x.
  - apply NoDup_singleton.
Qed.

End ObjectFacts.

Lemma assign_then_get_witness :
  get (js "b") (assign (js "b") 7 [(js "a", 1); (js "b", 2)]) = Some 7
  /\ get (js "a") (assign (js "b") 7 [(js "a", 1); (js "b", 2)]) = Some 1
  /\ map fst (assign (js "c") 7 [(js "a", 1); (js "b", 2)]) = [js "a"; js "b"; js "c"].
Proof.
  destruct (assign_then_get (js "b") 7 [(js "a", 1); (js "b", 2)])
    as (Hget & Hother & _).
  destruct (assign_then_get (js "c") 7 [(js "a", 1); (js "b", 2)])
    as (_ & _ & _ & Hnew & _).
  split; [exact Hget|]. split.
  - rewrite (Hother (js "a")); [reflexivity|discriminate].
  - apply Hnew. vm_compute. intros Hin.
    repeat (apply elem_of_cons in Hin; destruct Hin as [Hin|Hin]; [discriminate|]).
    now apply elem_of_nil in Hin.
Defined.

Lemma bind_returned {A B} (m : M A) (k : A -> M B)
    (h : host) (w w' : world) (a : A) :
  m h w = (w', Returned a) -> bind m k h w = k a h w'.
Proof. intros H. unfold bind. now rewrite H. Qed.

Section EntityFacts.

Variable toLowerCase : list N -> list N.
Variable shouldRecallEntities : list N -> bool.

Lemma entity_combine_facts (entries : list (list N * list N * list N)) :
  forall (limit : nat) (seen : gset (list N)),
    let out := entity_combine toLowerCase limit seen entries in
    length out <= Nat.max 1 limit
    /\ sublist out entries
    /\ Forall (fun e => seen_key toLowerCase e ∉ seen) out
    /\ NoDup (map (seen_key toLowerCase) out).
Proof.
  induction entries as [|[[name type] summary] rest IH]; intros limit seen; simpl.
  - repeat split; [lia|constructor|constructor|constructor].
  - destruct (bool_decide _) eqn:Eseen.
    + destruct (IH limit seen) as (Hlen & Hsub & Hout & Hnd).
      repeat split; try assumption. now apply sublist_cons.
    + apply bool_decide_eq_false_1 in Eseen.
      destruct (limit <=? 1) eqn:Elim.
      * repeat split; simpl; [lia| | |].
        -- apply sublist_skip, sublist_nil_l.
        -- now repeat constructor.
        -- apply NoDup_singleton.
      * apply Nat.leb_gt in Elim.
        destruct (IH (Nat.pred limit)
                     ({[entity_key toLowerCase (or_text type (js "entity")) name]} ∪ seen))
          as (Hlen & Hsub & Hout & Hnd).
        repeat split; simpl.
        -- lia.
        -- now apply sublist_skip.
        -- constructor; [exact Eseen|].
           eapply Forall_impl; [exact Hout|]. intros e He Hs. apply He.
           apply elem_of_union. now right.
        -- apply NoDup_cons. split; [|exact Hnd].
           intros Hin. apply list_elem_of_In, in_map_iff in Hin.
           destruct Hin as (e & Hkey & Hin).
           rewrite Forall_forall in Hout. apply list_elem_of_In in Hin.
           specialize (Hout e Hin). rewrite Hkey in Hout. apply Hout.
           apply elem_of_union. left. now apply elem_of_singleton.
Qed.

Lemma entity_combine_complete (entries : list (list N * list N * list N)) :
  forall (limit : nat) (seen : gset (list N)),
    length entries <= limit ->
    forall e, e ∈ entries ->
      seen_key toLowerCase e ∈ seen \/ seen_key toLowerCase e ∈ map (seen_key toLowerCase) (entity_combine toLowerCase limit seen entries).
Proof.
  induction entries as [|[[name type] summary] rest IH]; intros limit seen Hlen e He.
  - now apply elem_of_nil in He.
  - simpl in *. apply elem_of_cons in He.
    destruct (bool_decide _) eqn:Eseen.
    + apply bool_decide_eq_true_1 in Eseen. destruct He as [->|He]; [now left|].
      apply IH; [lia|exact He].
    + destruct (limit <=? 1) eqn:Elim.
      * apply Nat.leb_le in Elim. destruct rest; [|simpl in Hlen; lia].
        destruct He as [->|He]; [|now apply elem_of_nil in He].
        right. simpl. apply elem_of_cons. now left.
      * destruct He as [->|He]; [right; simpl; apply elem_of_cons; now left|].
        destruct (IH (Nat.pred limit)
                     ({[entity_key toLowerCase (or_text type (js "entity")) name]} ∪ seen)
                     ltac:(lia) e He) as [Hs|Hin].
        -- apply elem_of_union in Hs. destruct Hs as [Hs|Hs]; [|now left].
           apply elem_of_singleton in Hs. right. simpl. apply elem_of_cons.
           left. exact Hs.
        -- right. simpl. apply elem_of_cons. now right.
Qed.

(** The merge of the entity recall (index matches first, then the
    rows of the store) keeps the order of its input, never lists two
    items under the same lower-cased [type::name] key, and returns
    at most [recallLimit] items (one when the limit is 0); when the
    input is no longer than the limit, every key of the input is in
    the result. *)
Theorem entity_combine_dedup (limit : nat) (entries : list (list N * list N * list N)) :
  let out := entity_combine toLowerCase limit ∅ entries in
  length out <= Nat.max 1 limit
  /\ sublist out entries
  /\ NoDup (map (seen_key toLowerCase) out)
  /\ (length entries <= limit ->
      forall e, e ∈ entries -> seen_key toLowerCase e ∈ map (seen_key toLowerCase) out).
Proof.
  destruct (entity_combine_facts entries limit ∅) as (Hlen & Hsub & _ & Hnd).
  repeat split; try assumption.
  intros Hfit e He.
  destruct (entity_combine_complete entries limit ∅ Hfit e He) as [H|H];
    [now apply elem_of_empty in H|exact H].
Qed.

(** When the embedding provider fails, the entity recall injects
    exactly what it would inject from the index file alone: the
    answer is the one of the same handler with vector recall not
    allowed.  With [alwaysRecall] the failed attempt costs one
    embedding request and one warning. *)
Theorem entity_recall_without_provider
    (cfg : layer_config) (event : option turn_start)
    (h : host) (w : world) (err : list N) :
  (forall n t, embed_reply h n t = inl err) ->
  snd (entity_before_agent_start toLowerCase shouldRecallEntities cfg event h w)
  = snd (entity_before_agent_start toLowerCase (fun _ => false) (on_demand cfg)
           event h w)
  /\ (forall p, usable_prompt 3 event = Some p -> alwaysRecall cfg = true ->
      calls (fst (entity_before_agent_start toLowerCase shouldRecallEntities
                    cfg event h w))
      = calls w ++ [Embed p; Warn (js "memory-entity: recall failed: " ++ err)]).
Proof.
  intros Hdown. unfold entity_before_agent_start.
  destruct (usable_prompt 3 event) as [p|]; [|split; [reflexivity|discriminate]].
  rewrite !(bind_returned loadIndex _ h w w (entities_json w) eq_refl).
  assert (Hcatch :
    forall limit,
      try_catch
        (let! v := embed p in
         let! results := search_table (js "entities") v limit in
         ret (map (fun it =>
                     (match assoc_text (js "name") (hit_columns it) with
                      | Some n => n | None => [] end,
                      match assoc_text (js "type") (hit_columns it) with
                      | Some t => t | None => [] end,
                      hit_text it))
                  results))
        (fun err => warn (js "memory-entity: recall failed: " ++ err);; ret []) h w
      = (log (Warn (js "memory-entity: recall failed: " ++ err)) (log (Embed p) w),
         Returned [])).
  { intros limit. unfold try_catch, bind at 1, embed. now rewrite Hdown. }
  cbn [alwaysRecall on_demand orb recallLimit maxChars].
  rewrite (bind_returned (ret []) _ h w w [] eq_refl).
  split.
  - destruct (alwaysRecall cfg || shouldRecallEntities p).
    + rewrite (bind_returned _ _ h w _ [] (Hcatch _)).
      destruct (entity_combine _ _ _ _); reflexivity.
    + now rewrite (bind_returned (ret []) _ h w w [] eq_refl).
  - intros q Hq Halways. injection Hq as <-. rewrite Halways. cbn [orb].
    rewrite (bind_returned _ _ h w _ [] (Hcatch _)).
    destruct (entity_combine _ _ _ _); cbn; now rewrite <- app_assoc.
Qed.

Lemma entity_capture_stores (cfg : layer_config) (e : entity)
    (st : list (list N * index_entry) * list (list N))
    (h : host) (w : world) (v : vector) :
  entity_name e <> [] ->
  (forall n t, embed_reply h n t = inr v) ->
  (forall n t, store_reply h n t = inr tt) ->
  exists capturedAt updatedAt columns,
    entity_capture toLowerCase cfg e st h w
    = (World (calls w ++ [Embed (entity_summary cfg e);
                          Store (js "entities") (entity_summary cfg e) v columns])
             (S (S (clock_reads w))) (ledger w) (entities_json w),
       Returned
         (assign (entity_key toLowerCase (entity_type e) (entity_name e))
                 (IndexEntry (entity_name e) (entity_type e)
                             (entity_summary cfg e) updatedAt)
                 (fst st),
          snd st ++ [entity_key toLowerCase (entity_type e) (entity_name e)]))
    /\ assoc_text (js "name") columns = Some (entity_name e)
    /\ capturedAt = now_at h (clock_reads w).
Proof.
  intros Hname Hembed Hstore. unfold entity_capture.
  destruct (entity_name e) as [|c s]; [easy|].
  unfold bind, embed, store, date_now, ret. cbv beta iota.
  rewrite Hembed. cbv beta iota delta [answer]. rewrite Hstore. cbv beta iota.
  cbn [calls clock_reads ledger entities_json log].
  rewrite <- app_assoc. do 3 eexists. split; [reflexivity|]. split; reflexivity.
Qed.

(** A successful capture of one entity can be read back: after an
    [agent_end] whose text yields the entity, the index file has,
    under the key [type::name] in lower case, the entity's name, type
    and the summary that was embedded and stored; every other key of
    the index reads as before. *)
Theorem entity_capture_indexes
    (cfg : layer_config) (text : list N) (e : entity)
    (h : host) (w : world) (v : vector) :
  text <> [] ->
  extractEntitiesFromText toLowerCase text (capture_mode cfg) = [e] ->
  entity_name e <> [] ->
  (forall n t, embed_reply h n t = inr v) ->
  (forall n t, store_reply h n t = inr tt) ->
  let r := entity_agent_end toLowerCase cfg (user_says text) h w in
  let key := entity_key toLowerCase (entity_type e) (entity_name e) in
  snd r = Returned tt
  /\ (exists updatedAt,
        get key (entities_json (fst r))
        = Some (IndexEntry (entity_name e) (entity_type e)
                           (entity_summary cfg e) updatedAt))
  /\ (forall other, other <> key ->
        get other (entities_json (fst r)) = get other (entities_json w))
  /\ exists columns,
       calls (fst r)
       = calls w ++ [Embed (entity_summary cfg e);
                     Store (js "entities") (entity_summary cfg e) v columns].
Proof.
  intros Htext Hextract Hname Hembed Hstore r key. subst r.
  unfold entity_agent_end, user_says. cbn [messages].
  rewrite (texts_of_user text Htext).
  rewrite (bind_returned loadIndex _ h w w (entities_json w) eq_refl).
  cbn [for_each]. rewrite Hextract. cbn [for_each].
  destruct (entity_capture_stores cfg e (entities_json w, []) h w v
              Hname Hembed Hstore)
    as (capturedAt & updatedAt & columns & Hrun & _ & _).
  rewrite (bind_returned _ _ h w _ _
             (bind_returned _ _ h w _ _
                (bind_returned _ _ h w _ _ Hrun))).
  unfold ret. cbn [snd fst app]. unfold saveIndex. cbn [fst snd calls entities_json].
  split; [reflexivity|].
  split; [exists updatedAt; apply get_assign|].
  split; [intros other Hother; now apply get_assign_other|].
  now exists columns.
Qed.

End EntityFacts.

Lemma entity_combine_dedup_witness :
  let acme := (js "Acme", js "client", js "first") in
  let again := (js "ACME", js "Client", js "second") in
  let bob := (js "Bob", [], js "third") in
  seen_key lower_ascii again
  ∈ map (seen_key lower_ascii) (entity_combine lower_ascii 3 ∅ [acme; again; bob])
  /\ entity_combine lower_ascii 3 ∅ [acme; again; bob] = [acme; bob].
Proof.
  intros acme again bob.
  destruct (entity_combine_dedup lower_ascii 3 [acme; again; bob])
    as (_ & _ & _ & Hall).
  split; [|vm_compute; reflexivity].
  apply Hall; [simpl; lia|].
  apply elem_of_cons. right. apply elem_of_cons. now left.
Defined.

Lemma entity_recall_without_provider_witness :
  let cfg := LayerConfig 4 true ExplicitOrPattern 1200 true in
  let index := [(js "client::acme",
                 IndexEntry (js "Acme") (js "client") (js "Entity: Acme") 0)] in
  let w := World [] 0 (MetaRouting.Meta None None) index in
  let r := entity_before_agent_start lower_ascii (fun _ => true) cfg
             (Some (TurnStart (Some (js "acme status")))) provider_down w in
  snd r = Returned (Some (js "<entity-memories>" ++ nl
                          ++ js "1. [client] Entity: Acme" ++ nl
                          ++ js "</entity-memories>"))
  /\ calls (fst r)
     = [Embed (js "acme status");
        Warn (js "memory-entity: recall failed: Error: connect ECONNREFUSED")].
Proof.
  intros cfg index w r. subst r.
  destruct (entity_recall_without_provider lower_ascii (fun _ => true) cfg
              (Some (TurnStart (Some (js "acme status")))) provider_down w
              (js "Error: connect ECONNREFUSED") (fun _ _ => eq_refl))
    as [Hsame Hcalls].
  split.
  - rewrite Hsame. vm_compute. reflexivity.
  - apply (Hcalls (js "acme status")); reflexivity.
Defined.

Lemma entity_capture_indexes_witness :
  let r := entity_agent_end lower_ascii default_config
             (user_says (js "client: Acme")) all_up empty_world in
  snd r = Returned tt
  /\ exists updatedAt,
       get (js "client::acme") (entities_json (fst r))
       = Some (IndexEntry (js "Acme") (js "client")
                 (js "Entity: Acme" ++ nl ++ js "Type: client" ++ nl ++ js "Details: ")
                 updatedAt).
Proof.
  intros r. subst r.
  destruct (entity_capture_indexes lower_ascii default_config (js "client: Acme")
              (Entity (js "client") (js "Acme") []) all_up empty_world []
              ltac:(discriminate) ltac:(vm_compute; reflexivity)
              ltac:(discriminate) (fun _ _ => eq_refl) (fun _ _ => eq_refl))
    as (Hret & Hget & _).
  split; [exact Hret|exact Hget].
Defined.

(* ================================================================== *)
(** * What the cluster selector returns *)
(* ================================================================== *)

Lemma cluster_walk_sound (minS gap : float) (items : list Rerank.item) :
  forall (room : nat) (prev : option float),
    let out := cluster_walk minS gap room prev items in
    sublist out items
    /\ Forall (fun it => PrimFloat.ltb (Rerank.score it) minS = false) out
    /\ within_gap gap out
    /\ match prev, out with
       | Some ps, a :: _ => PrimFloat.leb (PrimFloat.sub ps (Rerank.score a)) gap = true
       | _, _ => True
       end.
Proof.
  induction items as [|it rest IH]; intros room prev; simpl.
  - repeat split; try constructor. now destruct prev.
  - destruct room as [|room].
    { repeat split; try constructor; [apply sublist_nil_l|now destruct prev]. }
    destruct (PrimFloat.ltb (Rerank.score it) minS) eqn:Elt.
    { destruct (IH (S room) prev) as (Hsub & Hq & Hgap & Hprev).
      repeat split; try assumption. now apply sublist_cons. }
    assert (Hstep :
      let out := it :: cluster_walk minS gap room (Some (Rerank.score it)) rest in
      sublist out (it :: rest)
      /\ Forall (fun it => PrimFloat.ltb (Rerank.score it) minS = false) out
      /\ within_gap gap out).
    { destruct (IH room (Some (Rerank.score it))) as (Hsub & Hq & Hgap & Hprev).
      repeat split; [now apply sublist_skip|now constructor|].
      simpl. destruct (cluster_walk minS gap room (Some (Rerank.score it)) rest);
        [exact I|now split]. }
    destruct prev as [ps|].
    + destruct (PrimFloat.leb (PrimFloat.sub ps (Rerank.score it)) gap) eqn:Egap.
      * destruct Hstep as (Hsub & Hq & Hgap). repeat split; assumption.
      * repeat split; try constructor. apply sublist_nil_l.
    + destruct Hstep as (Hsub & Hq & Hgap). repeat split; assumption.
Qed.

Lemma cluster_walk_head (minS gap : float) (items : list Rerank.item) (room : nat) :
  hd_error (cluster_walk minS gap (S room) None items)
  = find (fun it => negb (PrimFloat.ltb (Rerank.score it) minS)) items.
Proof.
  induction items as [|it rest IH]; simpl; [reflexivity|].
  destruct (PrimFloat.ltb (Rerank.score it) minS); simpl; [exact IH|reflexivity].
Qed.

(** [selectTopCluster] only drops items: what it returns is a
    sub-list of its input, in the input's order.  When some item
    reaches [minScore], every item returned reaches it, each item
    returned is at most [minGap] below the one returned before it,
    and (for [maxDocuments >= 1]) the first item returned is the first
    item of the input that reaches [minScore]. *)
Theorem selectTopCluster_sound (sorted : list Rerank.item) (cfg : Rerank.config) :
  sublist (Rerank.selectTopCluster sorted cfg) sorted
  /\ (all_below (Rerank.minScore cfg) sorted = false ->
      Forall (fun it => PrimFloat.ltb (Rerank.score it) (Rerank.minScore cfg) = false)
             (Rerank.selectTopCluster sorted cfg)
      /\ within_gap (Rerank.minGap cfg) (Rerank.selectTopCluster sorted cfg)
      /\ (1 <= Rerank.maxDocuments cfg ->
          hd_error (Rerank.selectTopCluster sorted cfg)
          = find (fun it => negb (PrimFloat.ltb (Rerank.score it) (Rerank.minScore cfg)))
                 sorted)).
Proof.
  destruct (select_loop_start cfg sorted) as [Hwalk Hnone].
  destruct (cluster_walk_sound (Rerank.minScore cfg) (Rerank.minGap cfg) sorted
              (Rerank.maxDocuments cfg) None) as (Hsub & Hq & Hgap & _).
  unfold Rerank.selectTopCluster.
  destruct (Rerank.select_loop cfg [] sorted) as [|s sel] eqn:Eloop.
  - split; [apply sublist_take|].
    intros Hsome. rewrite (proj1 Hnone eq_refl) in Hsome. discriminate.
  - rewrite Hwalk. split; [exact Hsub|]. intros _.
    split; [exact Hq|]. split; [exact Hgap|].
    intros Hmax. destruct (Rerank.maxDocuments cfg) as [|room]; [lia|].
    apply cluster_walk_head.
Qed.

Lemma selectTopCluster_sound_witness :
  let cfg := Rerank.Config 0.4 0.08 3 in
  let out := Rerank.selectTopCluster (map scenario_item [0.3; 0.9; 0.85; 0.6]%float) cfg in
  hd_error out = Some (scenario_item 0.9%float)
  /\ within_gap 0.08%float out.
Proof.
  intros cfg out. subst out.
  destruct (selectTopCluster_sound (map scenario_item [0.3; 0.9; 0.85; 0.6]%float) cfg)
    as [_ Hsome].
  destruct (Hsome eq_refl) as (_ & Hgap & Hhead).
  split; [|exact Hgap].
  rewrite Hhead; [reflexivity|simpl; lia].
Defined.

(* ================================================================== *)
(** * The counters of the ledger agree *)
(* ================================================================== *)

Section LedgerFacts.

Import MetaRouting.

Variable f : entry -> option Z.

Lemma total_insert (ls : gmap (list N) entry) (k : list N) (e : entry) :
  map_fold (fun (_ : list N) x acc => (or_else (f x) 0 + acc)%Z) 0%Z (<[k := e]> ls)
  = (map_fold (fun (_ : list N) x acc => (or_else (f x) 0 + acc)%Z) 0%Z ls
     - match ls !! k with Some e0 => or_else (f e0) 0 | None => 0 end
     + or_else (f e) 0)%Z.
Proof.
  destruct (ls !! k) as [e0|] eqn:Ek.
  - rewrite <- (insert_delete_eq ls k e).
    rewrite (map_fold_insert_L _ 0%Z k e (delete k ls));
      [|intros; lia|apply lookup_delete_eq].
    rewrite (map_fold_delete_L _ 0%Z k e0 ls); [lia|intros; lia|exact Ek].
  - rewrite (map_fold_insert_L _ 0%Z k e ls); [lia|intros; lia|exact Ek].
Qed.

Lemma layer_total_put (st : stats) (layer : list N) (e : entry) :
  layer_total f (put_entry (fst (ensureLayer st layer)) layer e)
  = (layer_total f st
     - or_else (f (snd (ensureLayer st layer))) 0
     + or_else (f e) 0
     + match default ∅ (layers st) !! layer with
       | Some _ => 0
       | None => or_else (f fresh_entry) 0
       end)%Z.
Proof.
  unfold layer_total, put_entry, ensureLayer.
  destruct (default ∅ (layers st) !! layer) as [e0|] eqn:Ek; cbn [fst snd layers with_layers default];
    repeat match goal with
           | |- context [Datatypes.id ?x] => change (Datatypes.id x) with x
           end.
  - rewrite total_insert, Ek. lia.
  - rewrite insert_insert_eq, total_insert, Ek. lia.
Qed.

End LedgerFacts.

Section LedgerSteps.

Import MetaRouting.

Lemma ensureLayer_entry (st : stats) (layer : list N) :
  snd (ensureLayer st layer)
  = default fresh_entry (default ∅ (layers st) !! layer).
Proof. unfold ensureLayer. now destruct (default ∅ (layers st) !! layer). Qed.

Lemma layer_total_step (f : entry -> option Z) (st : stats) (layer : list N)
    (e : entry) (d : Z) :
  or_else (f fresh_entry) 0 = 0%Z ->
  or_else (f e) 0 = (or_else (f (snd (ensureLayer st layer))) 0 + d)%Z ->
  layer_total f (put_entry (fst (ensureLayer st layer)) layer e)
  = (layer_total f st + d)%Z.
Proof.
  intros Hfresh He. rewrite layer_total_put, He, Hfresh.
  destruct (default ∅ (layers st) !! layer); lia.
Qed.

Lemma consistent_feedback_step (now : Z) (st : stats) (fb : list N * bool) :
  stats_consistent st -> stats_consistent (Meta.apply_one now st fb).
Proof.
  intros (Ha & Hc & Hsc & Hsa). unfold Meta.apply_one.
  destruct (fst fb) as [|c l]; [now repeat split|].
  rewrite (surjective_pairing (ensureLayer st (c :: l))).
  unfold stats_consistent.
  rewrite !(layer_total_step _ st (c :: l) _ 0) by (try reflexivity; cbn; lia).
  unfold put_entry, ensureLayer.
  destruct (default ∅ (layers st) !! (c :: l)); cbn; repeat split; lia.
Qed.

Lemma stats_consistent_make (ls : option (gmap (list N) entry))
    (ta tc csc csa s tsc tsa ara lsc lsa lu : option Z) :
  or_else ta 0 = layer_total activations (with_layers empty_stats (default ∅ ls)) ->
  or_else tc 0 = layer_total chars_injected (with_layers empty_stats (default ∅ ls)) ->
  (or_else tsc 0 + or_else csc 0 = or_else tc 0)%Z ->
  (or_else tsa 0 + or_else csa 0 = or_else ta 0)%Z ->
  stats_consistent (Stats ls ta tc csc csa s tsc tsa ara lsc lsa lu).
Proof. intros. repeat split; assumption. Qed.

Lemma layer_total_layers (f : entry -> option Z) (st : stats) :
  layer_total f (with_layers empty_stats (default ∅ (layers st))) = layer_total f st.
Proof. reflexivity. Qed.

Lemma consistent_route (now : Z) (layer : list N) (chars : Z) (file : meta) :
  ledger_consistent file -> ledger_consistent (recordRouting now layer chars file).
Proof.
  intros (Ha & Hc & Hsc & Hsa). unfold recordRouting.
  destruct layer as [|c l]; [now repeat split|].
  fold (stats_of file). set (st := stats_of file) in *. clearbody st.
  rewrite (surjective_pairing (ensureLayer st (c :: l))).
  unfold ledger_consistent, stats_of. cbn [routing_stats from_option].
  apply stats_consistent_make; rewrite ?or_else_some, ?layer_total_layers.
  - rewrite (layer_total_step activations st (c :: l) _ 1);
      [lia|reflexivity|cbn [activations]; apply or_else_some].
  - rewrite (layer_total_step chars_injected st (c :: l) _ chars);
      [lia|reflexivity|cbn [chars_injected]; apply or_else_some].
  - lia.
  - lia.
Qed.

Lemma consistent_feedback (now : Z) (layer : list N) (useful : bool) (file : meta) :
  ledger_consistent file ->
  ledger_consistent (recordRoutingFeedback now layer useful file).
Proof.
  intros H. unfold recordRoutingFeedback.
  destruct layer as [|c l]; [exact H|].
  fold (stats_of file).
  pose proof (consistent_feedback_step now (stats_of file) (c :: l, useful) H) as Hstep.
  unfold Meta.apply_one in Hstep. cbn [fst snd] in Hstep.
  destruct (ensureLayer (stats_of file) (c :: l)) as [st1 e].
  exact Hstep.
Qed.

Lemma consistent_batch (now : Z) (fbs : list (list N * bool)) (file : meta) :
  ledger_consistent file -> ledger_consistent (Meta.applyFeedback now file fbs).
Proof.
  intros H. unfold Meta.applyFeedback. destruct fbs as [|fb fbs]; [exact H|].
  fold (stats_of file).
  assert (Hloop : forall l st, stats_consistent st ->
                    stats_consistent (fold_left (Meta.apply_one now) l st)).
  { induction l as [|x l IH]; intros st Hst; [exact Hst|].
    simpl. apply IH. now apply consistent_feedback_step. }
  refine (Hloop (fb :: fbs)
            (with_layers (stats_of file) (default ∅ (layers (stats_of file)))) _).
  exact H.
Qed.

Lemma consistent_finalize (file : meta) :
  ledger_consistent file -> ledger_consistent (Meta.finalizeRoutingSession file).
Proof.
  intros (Ha & Hc & Hsc & Hsa). unfold Meta.finalizeRoutingSession.
  fold (stats_of file). set (st := stats_of file) in *. clearbody st.
  unfold ledger_consistent, stats_of. cbn [routing_stats from_option].
  apply stats_consistent_make; rewrite ?or_else_some, ?layer_total_layers;
    [exact Ha|exact Hc|change (or_else (Some 0%Z) 0) with 0%Z; lia..].
Qed.

Lemma consistent_savings (now : Z) (file : meta) :
  ledger_consistent file -> ledger_consistent (Meta.updateTokenSavings now file).
Proof.
  intros H. unfold Meta.updateTokenSavings.
  destruct (routing_stats file) as [st|] eqn:E; [|exact H].
  unfold ledger_consistent, stats_of in H. rewrite E in H.
  destruct (before_routing_avg _); exact H.
Qed.

End LedgerSteps.

(** Whatever sequence of ledger operations is run on an empty
    ledger file ([recordRouting], [recordRoutingFeedback],
    [applyFeedback], [finalizeRoutingSession], [updateTokenSavings]),
    the counters agree: [total_activations] and
    [total_chars_injected] are the sums of the per-layer counters,
    and each is what the finalized sessions hold plus what the current
    session holds. *)
Theorem ledger_counters_agree (ops : list ledger_op) :
  ledger_consistent (fold_left ledger_step ops (MetaRouting.Meta None None)).
Proof.
  assert (Hstep : forall op file,
            ledger_consistent file -> ledger_consistent (ledger_step file op)).
  { intros [now layer chars|now layer useful|now fbs| |now] file H; simpl.
    - now apply consistent_route.
    - now apply consistent_feedback.
    - now apply consistent_batch.
    - now apply consistent_finalize.
    - now apply consistent_savings. }
  assert (Hrun : forall l file,
            ledger_consistent file -> ledger_consistent (fold_left ledger_step l file)).
  { induction l as [|op l IH]; intros file H; [exact H|]. simpl. apply IH, Hstep, H. }
  apply Hrun. repeat split.
Qed.

(* ================================================================== *)
(** * The start of the week and the token savings *)
(* ================================================================== *)

Lemma startOfWeek_bounds (ts : Z) :
  (Meta.startOfWeek ts <= ts < Meta.startOfWeek ts + 7 * 86400000)%Z.
Proof. unfold Meta.startOfWeek. Z.div_mod_to_equations. lia. Qed.

(** [startOfWeek ts] is the last Monday 00:00 UTC that is not after
    [ts]: it is a whole number of days, its day of the week is 1,
    [ts] lies in the seven days that start there, and every instant
    of those seven days has the same start of week (so the function
    is idempotent). *)
Theorem startOfWeek_monday (ts : Z) :
  let s := Meta.startOfWeek ts in
  (s <= ts < s + 7 * 86400000)%Z
  /\ (s mod 86400000 = 0)%Z
  /\ ((s / 86400000 + 4) mod 7 = 1)%Z
  /\ Meta.startOfWeek s = s
  /\ (forall t, (s <= t < s + 7 * 86400000)%Z -> Meta.startOfWeek t = s).
Proof.
  intros s. split; [apply startOfWeek_bounds|].
  assert (Hsame : forall t, (s <= t < s + 7 * 86400000)%Z -> Meta.startOfWeek t = s).
  { intros t Ht. subst s. unfold Meta.startOfWeek in *.
    Z.div_mod_to_equations. lia. }
  split; [subst s; unfold Meta.startOfWeek; Z.div_mod_to_equations; lia|].
  split; [subst s; unfold Meta.startOfWeek; Z.div_mod_to_equations; lia|].
  split; [apply Hsame; lia|exact Hsame].
Qed.

Lemma startOfWeek_monday_witness :
  Meta.startOfWeek 1700000000000 = 1699833600000%Z
  /\ Meta.startOfWeek 1699833600000 = 1699833600000%Z.
Proof.
  destruct (startOfWeek_monday 1700000000000) as (_ & _ & _ & Hidem & Hsame).
  split; [reflexivity|].
  apply (Hsame 1699833600000%Z).
  change (Meta.startOfWeek 1700000000000) with 1699833600000%Z. lia.
Defined.

(** With a baseline, [updateTokenSavings] records a saving that is
    never negative ([max(0, before - last_session_chars)]) and adds it
    to [saved_total]; the routing statistics and the baseline are left
    alone.  The week is rolled over only when a stored [week_start] is
    seven days old or more: then [week_start] becomes the Monday of
    [now] and [saved_this_week] restarts from this saving.  When no
    [week_start] is stored, none is written, and [saved_this_week]
    keeps accumulating. *)
Theorem token_savings_with_baseline
    (now before : Z) (m : MetaRouting.meta) (st : MetaRouting.stats) :
  MetaRouting.routing_stats m = Some st ->
  MetaRouting.before_routing_avg (token_of m) = Some before ->
  let tk := token_of m in
  let tk' := token_of (Meta.updateTokenSavings now m) in
  let saved := Z.max 0 (before - or_else (MetaRouting.last_session_chars st) 0) in
  (0 <= saved)%Z
  /\ MetaRouting.routing_stats (Meta.updateTokenSavings now m) = Some st
  /\ MetaRouting.before_routing_avg tk' = Some before
  /\ MetaRouting.saved_last_session tk' = Some saved
  /\ MetaRouting.saved_total tk'
     = Some (or_else (MetaRouting.saved_total tk) 0 + saved)%Z
  /\ (MetaRouting.week_start tk = None ->
      MetaRouting.week_start tk' = None
      /\ MetaRouting.saved_this_week tk'
         = Some (or_else (MetaRouting.saved_this_week tk) 0 + saved)%Z)
  /\ (forall ws, MetaRouting.week_start tk = Some ws ->
      (now - ws < 7 * 86400000)%Z ->
      MetaRouting.week_start tk' = Some ws
      /\ MetaRouting.saved_this_week tk'
         = Some (or_else (MetaRouting.saved_this_week tk) 0 + saved)%Z)
  /\ (forall ws, MetaRouting.week_start tk = Some ws ->
      (7 * 86400000 <= now - ws)%Z ->
      MetaRouting.week_start tk' = Some (Meta.startOfWeek now)
      /\ MetaRouting.saved_this_week tk' = Some saved).
Proof.
  intros Hst Hbefore tk tk' saved. subst tk tk'.
  unfold Meta.updateTokenSavings, token_of in *. rewrite Hst.
  set (tk := default MetaRouting.empty_token (MetaRouting.token_savings m)) in *.
  rewrite Hbefore. cbn [MetaRouting.routing_stats MetaRouting.token_savings
                        from_option MetaRouting.before_routing_avg
                        MetaRouting.saved_last_session MetaRouting.saved_total
                        MetaRouting.week_start MetaRouting.saved_this_week].
  change (7 * 24 * 60 * 60 * 1000)%Z with (7 * 86400000)%Z.
  split; [apply Z.le_max_l|]. do 4 (split; [reflexivity|]).
  split; [|split].
  - intros Hws. rewrite Hws. cbn [from_option]. unfold Datatypes.id.
    pose proof (startOfWeek_bounds now) as Hb.
    destruct (Z.leb_spec (7 * 86400000) (now - Meta.startOfWeek now)); [lia|].
    split; reflexivity.
  - intros ws Hws Hnew. rewrite Hws. cbn [from_option]. unfold Datatypes.id.
    destruct (Z.leb_spec (7 * 86400000) (now - ws)); [lia|]. split; reflexivity.
  - intros ws Hws Hold. rewrite Hws. cbn [from_option]. unfold Datatypes.id.
    destruct (Z.leb_spec (7 * 86400000) (now - ws)); [|lia]. split; reflexivity.
Qed.

Lemma token_savings_with_baseline_witness :
  let st := stats_of (Meta.finalizeRoutingSession scenario_ledger) in
  let m := MetaRouting.Meta (Some st)
             (Some (MetaRouting.Token None (Some 800%Z) None (Some 10%Z) None (Some 5%Z))) in
  let tk' := token_of (Meta.updateTokenSavings 1700000000000 m) in
  MetaRouting.saved_last_session tk' = Some 300%Z
  /\ MetaRouting.saved_total tk' = Some 310%Z
  /\ MetaRouting.week_start tk' = None
  /\ MetaRouting.saved_this_week tk' = Some 305%Z.
Proof.
  intros st m tk'.
  destruct (token_savings_with_baseline 1700000000000 800 m st eq_refl eq_refl)
    as (_ & _ & _ & Hlast & Htotal & Hnone & _).
  destruct (Hnone eq_refl) as [Hws Hweek].
  split; [exact Hlast|]. split; [exact Htotal|]. split; [exact Hws|exact Hweek].
Defined.

(* ================================================================== *)
(** * Decay: older records score lower *)
(* ================================================================== *)

Section DecayOrder.

Local Open Scope R_scope.





End DecayOrder.


(* ================================================================== *)
(** * The blackboard: one item per key *)
(* ================================================================== *)

Section BlackboardFacts.

Import Blackboard.

Variable toLowerCase : list N -> list N.

Lemma upsertItem_present (now : Z) (board : list item) (t x : list N) :
  key toLowerCase t x ∈ board_keys toLowerCase board ->
  board_notes (upsertItem toLowerCase now board t x) = board_notes board.
Proof.
  induction board as [|it rest IH]; simpl; intros Hin.
  - now apply elem_of_nil in Hin.
  - destruct (bool_decide _) eqn:E; [reflexivity|].
    apply bool_decide_eq_false_1 in E. apply elem_of_cons in Hin.
    destruct Hin as [Hin|Hin]; [now symmetry in Hin|].
    simpl. f_equal. now apply IH.
Qed.

Lemma upsertItem_absent (now : Z) (board : list item) (t x : list N) :
  key toLowerCase t x ∉ board_keys toLowerCase board ->
  upsertItem toLowerCase now board t x = board ++ [Item t x (Some now)].
Proof.
  induction board as [|it rest IH]; simpl; intros Hout; [reflexivity|].
  destruct (bool_decide _) eqn:E.
  - apply bool_decide_eq_true_1 in E. exfalso. apply Hout.
    apply elem_of_cons. now left.
  - f_equal. apply IH. intros Hin. apply Hout. apply elem_of_cons. now right.
Qed.

Lemma board_keys_notes (a b : list item) :
  board_notes a = board_notes b -> board_keys toLowerCase a = board_keys toLowerCase b.
Proof.
  revert b. induction a as [|x a IH]; intros [|y b] H; simpl in *;
    try discriminate; [reflexivity|].
  injection H as Ht Hx Hrest. rewrite Ht, Hx. f_equal. now apply IH.
Qed.

Lemma board_keys_snoc (board : list item) (it : item) :
  board_keys toLowerCase (board ++ [it])
  = board_keys toLowerCase board ++ [key toLowerCase (type it) (text it)].
Proof. unfold board_keys. now rewrite map_app. Qed.

Lemma upsertItem_keys (now : Z) (board : list item) (t x : list N) :
  board_keys toLowerCase (upsertItem toLowerCase now board t x)
  = if bool_decide (key toLowerCase t x ∈ board_keys toLowerCase board)
    then board_keys toLowerCase board
    else board_keys toLowerCase board ++ [key toLowerCase t x].
Proof.
  destruct (bool_decide _) eqn:E.
  - apply bool_decide_eq_true_1 in E.
    apply board_keys_notes. now apply upsertItem_present.
  - apply bool_decide_eq_false_1 in E.
    rewrite (upsertItem_absent now board t x E). apply board_keys_snoc.
Qed.

Lemma upsertItem_NoDup (now : Z) (board : list item) (t x : list N) :
  NoDup (board_keys toLowerCase board) ->
  NoDup (board_keys toLowerCase (upsertItem toLowerCase now board t x)).
Proof.
  intros Hnd. rewrite upsertItem_keys.
  destruct (bool_decide _) eqn:E; [exact Hnd|].
  apply bool_decide_eq_false_1 in E. apply NoDup_app.
  split; [exact Hnd|]. split; [|apply NoDup_singleton].
  intros k Hk Hk'. apply list_elem_of_singleton in Hk'. now subst k.
Qed.

(** [upsertItem] keeps one item per lower-cased [type::text] key.
    If the key is on the board, nothing is added or rewritten but
    the timestamp (the item keeps the spelling it was first written
    with); otherwise the new item goes last.  Either way the key is
    on the board afterwards, a board without repeated keys stays so,
    and a second upsert of the same item adds nothing. *)
Theorem upsertItem_one_per_key (now : Z) (board : list item) (t x : list N) :
  let out := upsertItem toLowerCase now board t x in
  key toLowerCase t x ∈ board_keys toLowerCase out
  /\ (key toLowerCase t x ∈ board_keys toLowerCase board ->
      board_notes out = board_notes board)
  /\ (key toLowerCase t x ∉ board_keys toLowerCase board ->
      out = board ++ [Item t x (Some now)])
  /\ (NoDup (board_keys toLowerCase board) -> NoDup (board_keys toLowerCase out))
  /\ (forall later, board_notes (upsertItem toLowerCase later out t x) = board_notes out).
Proof.
  intros out.
  assert (Hin : key toLowerCase t x ∈ board_keys toLowerCase out).
  { subst out. rewrite upsertItem_keys. destruct (bool_decide _) eqn:E.
    - now apply bool_decide_eq_true_1 in E.
    - apply elem_of_app. right. now apply list_elem_of_singleton. }
  split; [exact Hin|].
  split; [apply upsertItem_present|].
  split; [apply upsertItem_absent|].
  split; [apply upsertItem_NoDup|].
  intros later. now apply upsertItem_present.
Qed.

End BlackboardFacts.

Lemma upsertItem_one_per_key_witness :
  let board := [Blackboard.Item (js "todo") (js "Buy milk") (Some 1%Z)] in
  board_notes (Blackboard.upsertItem lower_ascii 2 board (js "TODO") (js "buy MILK"))
  = [(js "todo", js "Buy milk")]
  /\ Blackboard.upsertItem lower_ascii 2 board (js "todo") (js "buy bread")
     = [Blackboard.Item (js "todo") (js "Buy milk") (Some 1%Z);
        Blackboard.Item (js "todo") (js "buy bread") (Some 2%Z)].
Proof.
  intros board.
  destruct (upsertItem_one_per_key lower_ascii 2 board (js "TODO") (js "buy MILK"))
    as (_ & Hsame & _).
  destruct (upsertItem_one_per_key lower_ascii 2 board (js "todo") (js "buy bread"))
    as (_ & _ & Hnew & _).
  split.
  - apply Hsame. vm_compute. apply elem_of_cons. now left.
  - apply Hnew. vm_compute. intros Hin. apply elem_of_cons in Hin.
    destruct Hin as [Hin|Hin]; [discriminate|now apply elem_of_nil in Hin].
Defined.


Section BlackboardHandler.

Variable toLowerCase : list N -> list N.


End BlackboardHandler.


(* ================================================================== *)
(** * The tool-skill statistics stay sound *)
(* ================================================================== *)

Section AssocFacts.

Context {V : Type}.




End AssocFacts.



Section ToolSkillFacts.

Import ToolSkill.







End ToolSkillFacts.


(* ================================================================== *)
(** * The procedure statistics are the tallies of the runs *)
(* ================================================================== *)

Section ProcStatsFacts.

Import ProcStats.

Variable key : list N.
Hypothesis key_named : key <> [].





End ProcStatsFacts.



(* ================================================================== *)
(** * Closing a session *)
(* ================================================================== *)

Section SessionFacts.

Import MetaRouting.

Lemma apply_one_counters (now : Z) (st : stats) (fb : list N * bool) :
  session_counters (Meta.apply_one now st fb) = session_counters st.
Proof.
  unfold Meta.apply_one. destruct (fst fb); [reflexivity|].
  unfold ensureLayer. now destruct (default ∅ (layers st) !! _).
Qed.

Lemma applyFeedback_counters (now : Z) (fbs : list (list N * bool)) (file : meta) :
  session_counters (stats_of (Meta.applyFeedback now file fbs))
  = session_counters (stats_of file).
Proof.
  unfold Meta.applyFeedback. destruct fbs as [|fb fbs]; [reflexivity|].
  fold (stats_of file).
  assert (Hloop : forall l st,
            session_counters (fold_left (Meta.apply_one now) l st) = session_counters st).
  { induction l as [|x l IH]; intros st; [reflexivity|].
    simpl. now rewrite IH, apply_one_counters. }
  change (session_counters
            (fold_left (Meta.apply_one now) (fb :: fbs)
               (with_layers (stats_of file) (default ∅ (layers (stats_of file)))))
          = session_counters (stats_of file)).
  now rewrite Hloop.
Qed.

Lemma route_all_counters (routes : list (Z * list N * Z)) :
  forall file,
    Forall (fun r => snd (fst r) <> []) routes ->
    session_counters (stats_of (route_all routes file))
    = (Some (or_else (current_session_chars (stats_of file)) 0 + chars_of routes)%Z,
       Some (or_else (current_session_activations (stats_of file)) 0
             + Z.of_nat (length routes))%Z,
       sessions (stats_of file), total_session_chars (stats_of file),
       total_session_activations (stats_of file))
    \/ (routes = [] /\ route_all routes file = file).
Proof.
  induction routes as [|[[now layer] chars] routes IH]; intros file Hnamed.
  - right. now split.
  - left. inversion Hnamed as [|r rs Hlayer Hrest]; subst. cbn [fst snd] in Hlayer.
    change (route_all ((now, layer, chars) :: routes) file)
      with (route_all routes (recordRouting now layer chars file)).
    set (file1 := recordRouting now layer chars file).
    assert (Hstep : session_counters (stats_of file1)
                    = (Some (or_else (current_session_chars (stats_of file)) 0 + chars)%Z,
                       Some (or_else (current_session_activations (stats_of file)) 0 + 1)%Z,
                       sessions (stats_of file), total_session_chars (stats_of file),
                       total_session_activations (stats_of file))).
    { subst file1. unfold recordRouting. destruct layer as [|c l]; [easy|].
      fold (stats_of file). now destruct (ensureLayer (stats_of file) (c :: l)). }
    injection Hstep as Hc Ha Hs Ht Hta.
    destruct (IH file1 Hrest) as [Hgo|[-> Hsame]].
    + rewrite Hgo, Hc, Ha, Hs, Ht, Hta, !or_else_some.
      cbn [chars_of fold_right snd length]. fold (chars_of routes).
      repeat match goal with
             | |- (_, _) = (_, _) => f_equal
             | |- Some _ = Some _ => f_equal
             end; lia.
    + rewrite Hsame. unfold session_counters. rewrite Hc, Ha, Hs, Ht, Hta.
      cbn [chars_of fold_right snd length]. repeat f_equal; lia.
Qed.

(** What [agent_end] of the meta plugin does to a session: after the
    recall injections of a turn (each a [recordRouting] call on a
    named layer) and the closing of the session, [last_session_chars]
    and [last_session_activations] hold what was pending before plus
    the characters and the number of the injections, the same amounts
    are added to the totals over sessions, one session is counted,
    and the current-session counters are back to zero; feedback found
    in the turn changes none of this. *)
Theorem session_accounting
    (routes : list (Z * list N * Z)) (now_feedback now_savings : Z)
    (feedbacks : list (list N * bool)) (file : meta) :
  Forall (fun r => snd (fst r) <> []) routes ->
  let before := stats_of file in
  let after := stats_of (close_session now_feedback now_savings feedbacks
                           (route_all routes file)) in
  let chars := (or_else (current_session_chars before) 0 + chars_of routes)%Z in
  let acts := (or_else (current_session_activations before) 0
               + Z.of_nat (length routes))%Z in
  last_session_chars after = Some chars
  /\ last_session_activations after = Some acts
  /\ total_session_chars after = Some (or_else (total_session_chars before) 0 + chars)%Z
  /\ total_session_activations after
     = Some (or_else (total_session_activations before) 0 + acts)%Z
  /\ sessions after = Some (or_else (sessions before) 0 + 1)%Z
  /\ current_session_chars after = Some 0%Z
  /\ current_session_activations after = Some 0%Z.
Proof.
  intros Hnamed before after chars acts. subst before.
  set (routed := route_all routes file).
  set (fed := match feedbacks with
              | [] => routed
              | _ => Meta.applyFeedback now_feedback routed feedbacks
              end).
  assert (Hfed : session_counters (stats_of fed) = session_counters (stats_of routed)).
  { subst fed. destruct feedbacks; [reflexivity|apply applyFeedback_counters]. }
  assert (Hrouted : session_counters (stats_of routed)
                    = (Some chars, Some acts, sessions (stats_of file),
                       total_session_chars (stats_of file), total_session_activations (stats_of file))
                      \/ (routes = [] /\ routed = file)).
  { subst routed. now apply route_all_counters. }
  assert (Hpending :
    or_else (current_session_chars (stats_of fed)) 0 = chars
    /\ or_else (current_session_activations (stats_of fed)) 0 = acts
    /\ sessions (stats_of fed) = sessions (stats_of file)
    /\ total_session_chars (stats_of fed) = total_session_chars (stats_of file)
    /\ total_session_activations (stats_of fed) = total_session_activations (stats_of file)).
  { destruct Hrouted as [Hr|[Hnil Hsame]].
    - rewrite Hr in Hfed. injection Hfed as -> -> -> -> ->.
      rewrite !or_else_some. repeat split.
    - rewrite Hsame in Hfed. injection Hfed as -> -> -> -> ->.
      subst chars acts. rewrite Hnil. cbn [chars_of fold_right length].
      repeat split; try reflexivity; lia. }
  destruct Hpending as (Hc & Ha & Hs & Ht & Hta).
  assert (Hafter : after = stats_of (Meta.finalizeRoutingSession fed)).
  { subst after. unfold close_session. fold routed. fold fed.
    unfold Meta.updateTokenSavings, Meta.finalizeRoutingSession.
    cbn [routing_stats]. now destruct (before_routing_avg _). }
  rewrite Hafter. unfold Meta.finalizeRoutingSession, stats_of at 1 2 3 4 5 6 7.
  cbn [routing_stats from_option last_session_chars last_session_activations
       total_session_chars total_session_activations sessions
       current_session_chars current_session_activations].
  fold (stats_of fed). rewrite Hc, Ha, Hs, Ht, Hta.
  repeat split; reflexivity.
Qed.

End SessionFacts.

Lemma session_accounting_witness :
  let routes := [(10%Z, js "goal", 120%Z); (11%Z, js "entity", 80%Z)] in
  let after := stats_of (close_session 20 21 [(js "goal", true)]
                           (route_all routes scenario_ledger)) in
  MetaRouting.last_session_chars after = Some 700%Z
  /\ MetaRouting.last_session_activations after = Some 3%Z
  /\ MetaRouting.sessions after = Some 3%Z.
Proof.
  intros routes after.
  destruct (session_accounting routes 20 21 [(js "goal", true)] scenario_ledger)
    as (Hc & Ha & _ & _ & Hs & _).
  - repeat constructor; discriminate.
  - split; [exact Hc|]. split; [exact Ha|exact Hs].
Defined.

(* ================================================================== *)
(** * The sentiment state is bounded *)
(* ================================================================== *)

(** Whatever the state file held, after a capture it holds at most
    500 entries: the entries it had, then the new one, cut from the
    front to the last 500.  The new entry is the last one and its
    sample is at most 160 code units long.  The handler calls no
    collaborator and never throws, and it writes nothing when the
    text has fewer lexicon matches than [minMatch]. *)
Theorem sentiment_entries_capped
    (sentimentScore : list N -> Sentiment.scored) (minMatch : nat)
    (event : option turn_end) (entries : list Sentiment.entry)
    (h : host) (w : world) :
  exists written,
    quiet_result (Sentiment.agent_end sentimentScore minMatch event entries) h w written
    /\ match written with
       | Some entries' =>
           length entries' = Nat.min (length entries + 1) 500
           /\ exists dropped fresh,
                dropped ++ entries' = entries ++ [fresh]
                /\ last entries' = Some fresh
                /\ length (Sentiment.sample fresh) <= 160
                /\ minMatch <= Sentiment.matches
                                 (sentimentScore
                                    (Js.join nl (texts_of [js "user"]
                                                   (match event with
                                                    | Some e => messages e
                                                    | None => []
                                                    end))))
       | None => True
       end.
Proof.
  unfold Sentiment.agent_end. destruct event as [e|]; [|exists None; split; [now exists w|exact I]].
  destruct (texts_of [js "user"] (messages e)) as [|t ts] eqn:Etexts;
    [exists None; split; [now exists w|exact I]|].
  set (combined := Js.join nl (t :: ts)).
  destruct (Sentiment.matches (sentimentScore combined) <? minMatch) eqn:Ematch;
    [exists None; split; [now exists w|exact I]|].
  apply Nat.ltb_ge in Ematch.
  set (fresh := Sentiment.Entry (now_at h (clock_reads w))
                  (Sentiment.s_label (sentimentScore combined))
                  (Sentiment.s_score (sentimentScore combined))
                  (Js.slice0 160 combined)).
  exists (Some (if 500 <? length (entries ++ [fresh])
                then skipn (length (entries ++ [fresh]) - 500) (entries ++ [fresh])
                else entries ++ [fresh])).
  split.
  - exists (World (calls w) (S (clock_reads w)) (ledger w) (entities_json w)).
    split; reflexivity.
  - rewrite length_app. cbn [length].
    destruct (500 <? length entries + 1) eqn:Ecap.
    + apply Nat.ltb_lt in Ecap. split; [rewrite length_skipn, length_app; simpl; lia|].
      exists (firstn (length entries + 1 - 500) (entries ++ [fresh])), fresh.
      split; [apply firstn_skipn|]. split.
      * rewrite skipn_app.
        replace (length entries + 1 - 500 - length entries) with 0 by lia.
        cbn [skipn]. now rewrite last_snoc.
      * split; [|exact Ematch]. unfold fresh, Js.slice0. cbn [Sentiment.sample].
        rewrite length_take. lia.
    + apply Nat.ltb_ge in Ecap. split; [rewrite length_app; simpl; lia|].
      exists [], fresh. split; [reflexivity|]. split; [apply last_snoc|].
      split; [|exact Ematch]. unfold fresh, Js.slice0. cbn [Sentiment.sample].
      rewrite length_take. lia.
Qed.

(* ================================================================== *)
(** * The ledger records what is injected *)
(* ================================================================== *)

Lemma truncate_length (s : list N) (max : nat) : length (truncate s max) <= max + 3.
Proof.
  unfold truncate. destruct s as [|c s]; [simpl; lia|].
  destruct (length (c :: s) <=? max) eqn:E.
  - apply Nat.leb_le in E. lia.
  - rewrite length_app. pose proof (trim_length (Js.slice0 max (c :: s))).
    pose proof (slice0_length max (c :: s)). simpl. lia.
Qed.

Section LedgerRecall.

Variable toLowerCase : list N -> list N.
Variables shouldRecallGoals timeline_shouldRecall shouldRecallGraph
  shouldRecallEntities meta_shouldRecall sentiment_shouldRecall
  blackboard_shouldRecall : list N -> bool.
Variables goal_lines timeline_lines graph_lines : Z -> list hit -> list (list N).
Variables meta_report blackboard_report : list (list N).
Variable sentiment_report : option (list N).
Variable toolskill_summaries : list N -> bool -> list (list N).

Ltac nothing_injected :=
  match goal with
  | |- exists w' r, ret None ?h ?w = (w', Returned r) /\ _ =>
      exists w, None; split; reflexivity
  end.

Lemma vector_recall_records (keywords : list N -> bool)
    (lines_of : Z -> list hit -> list (list N)) (table layer tag plugin : list N)
    (cfg : layer_config) (event : option turn_start) :
  records_injection layer (js "<" ++ tag ++ js ">") (js "</" ++ tag ++ js ">")
    (Some (maxChars cfg + 3))
    (vector_recall keywords lines_of table layer tag plugin cfg event).
Proof.
  intros h w. unfold vector_recall.
  destruct (usable_prompt 3 event) as [p|]; [|nothing_injected].
  destruct (_ && _); [nothing_injected|].
  unfold try_catch, bind, embed, search_table, date_now, recordRouting, warn, ret.
  destruct (embed_reply h (length (calls w)) p) as [err|v]; cbn [answer].
  { eexists _, None. split; reflexivity. }
  destruct (search_reply h _ table v (recallLimit cfg * 3)) as [err|[|r rs]]; cbn [answer].
  - eexists _, None. split; reflexivity.
  - eexists _, None. split; reflexivity.
  - destruct (lines_of _ _) as [|l ls].
    + eexists _, None. split; reflexivity.
    + eexists _, (Some _). split; [reflexivity|].
      exists (truncate (Js.join nl (l :: ls)) (maxChars cfg)). eexists.
      split; [cbn [app]; now rewrite <- (app_assoc tag)|]. split; [reflexivity|].
      apply truncate_length.
Qed.

(** The recall handlers of the goal, timeline, graph, entity, meta,
    sentiment, blackboard and tool-skill plugins record in the ledger
    exactly what they inject: one [recordRouting] of their layer with
    the length of the body placed between the tags when a context is
    injected, nothing when none is.  The body is at most
    [maxChars + 3] code units long where [truncate] cuts it and at
    most [maxChars] in the meta plugin, which slices. *)
Theorem recall_records_what_it_injects (event : option turn_start) :
  (forall cfg,
     records_injection (js "goal") (js "<goal-intent>") (js "</goal-intent>")
       (Some (maxChars cfg + 3))
       (goal_before_agent_start shouldRecallGoals goal_lines cfg event))
  /\ (forall cfg,
        records_injection (js "timeline") (js "<timeline>") (js "</timeline>")
          (Some (maxChars cfg + 3))
          (timeline_before_agent_start timeline_shouldRecall timeline_lines cfg event))
  /\ (forall cfg,
        records_injection (js "graph") (js "<causal-graph>") (js "</causal-graph>")
          (Some (maxChars cfg + 3))
          (graph_before_agent_start shouldRecallGraph graph_lines cfg event))
  /\ (forall cfg,
        records_injection (js "entity") (js "<entity-memories>") (js "</entity-memories>")
          (Some (maxChars cfg + 3))
          (entity_before_agent_start toLowerCase shouldRecallEntities cfg event))
  /\ (forall always max,
        records_injection (js "meta") (js "<meta-memory>") (js "</meta-memory>")
          (Some max)
          (meta_before_agent_start meta_shouldRecall meta_report always max event))
  /\ (forall always,
        records_injection (js "sentiment") (js "<sentiment-memory>")
          (js "</sentiment-memory>") None
          (sentiment_before_agent_start sentiment_shouldRecall sentiment_report
             always event))
  /\ (forall always,
        records_injection (js "blackboard") (js "<collab-blackboard>")
          (js "</collab-blackboard>") None
          (blackboard_before_agent_start blackboard_shouldRecall blackboard_report
             always event))
  /\ (forall always max,
        records_injection (js "tool_skill") (js "<tool-skill-memories>")
          (js "</tool-skill-memories>") (Some (max + 3))
          (toolskill_before_agent_start toolskill_summaries always max event)).
Proof.
  repeat split; intros.
  - apply (vector_recall_records _ _ _ (js "goal") (js "goal-intent")).
  - apply (vector_recall_records _ _ _ (js "timeline") (js "timeline")).
  - apply (vector_recall_records _ _ _ (js "graph") (js "causal-graph")).
  - intros h w. unfold entity_before_agent_start.
    destruct (usable_prompt 3 event) as [p|]; [|nothing_injected].
    rewrite (bind_returned loadIndex _ h w w (entities_json w) eq_refl).
    match goal with
    | |- context [bind ?m ?k h w] =>
        assert (Hfound : exists w1 found,
                  m h w = (w1, Returned found) /\ ledger w1 = ledger w)
    end.
    { destruct (_ || _); [|now exists w, []].
      unfold try_catch, bind, embed, search_table, warn, ret.
      destruct (embed_reply h (length (calls w)) p) as [err|v]; cbn [answer].
      { eexists _, _. split; reflexivity. }
      destruct (search_reply h _ _ v (recallLimit cfg)) as [err|rs]; cbn [answer];
        eexists _, _; split; reflexivity. }
    destruct Hfound as (w1 & found & Hrun & Hledger).
    rewrite (bind_returned _ _ h w w1 found Hrun).
    destruct (entity_combine _ _ _ _) as [|e es].
    + exists w1, None. now split.
    + unfold bind, recordRouting, ret. eexists _, (Some _). split; [reflexivity|].
      eexists _, _. split; [reflexivity|]. cbn [ledger]. rewrite Hledger.
      split; [reflexivity|apply truncate_length].
  - intros h w. unfold meta_before_agent_start.
    destruct (usable_prompt 3 event) as [p|]; [|nothing_injected].
    destruct (_ && _); [nothing_injected|].
    destruct meta_report as [|l ls]; [nothing_injected|].
    unfold bind, recordRouting, ret. eexists _, (Some _). split; [reflexivity|].
    eexists _, _. split; [reflexivity|]. split; [reflexivity|apply slice0_length].
  - intros h w. unfold sentiment_before_agent_start.
    destruct (usable_prompt 3 event) as [p|]; [|nothing_injected].
    destruct (_ && _); [nothing_injected|].
    destruct sentiment_report as [body|]; [|nothing_injected].
    unfold bind, recordRouting, ret. eexists _, (Some _). split; [reflexivity|].
    eexists _, _. split; [reflexivity|]. now split.
  - intros h w. unfold blackboard_before_agent_start.
    destruct (usable_prompt 2 event) as [p|]; [|nothing_injected].
    destruct (_ && _); [nothing_injected|].
    destruct blackboard_report as [|l ls]; [nothing_injected|].
    unfold bind, recordRouting, ret. eexists _, (Some _). split; [reflexivity|].
    eexists _, _. split; [reflexivity|]. now split.
  - intros h w. unfold toolskill_before_agent_start.
    destruct (usable_prompt 3 event) as [p|]; [|nothing_injected].
    destruct (toolskill_summaries p always) as [|s ss]; [nothing_injected|].
    unfold bind, recordRouting, ret. eexists _, (Some _). split; [reflexivity|].
    eexists _, _. split; [reflexivity|]. split; [reflexivity|apply truncate_length].
Qed.

End LedgerRecall.

(* ================================================================== *)
(** * One capture per goal and turn *)
(* ================================================================== *)

Lemma for_each_app {A S} (body : A -> S -> M S) (xs ys : list A) (s : S)
    (h : host) (w : world) :
  for_each (xs ++ ys) body s h w
  = bind (for_each xs body s) (for_each ys body) h w.
Proof.
  revert s w. induction xs as [|x xs IH]; intros s w; simpl; [reflexivity|].
  unfold bind. destruct (body x s h w) as [w1 [s1|err]]; [|reflexivity].
  rewrite IH. reflexivity.
Qed.

Lemma for_each_flat_map {A B S} (f : A -> list B) (body : B -> S -> M S)
    (xs : list A) :
  forall (s : S) (h : host) (w : world),
    for_each xs (fun x s' => for_each (f x) body s') s h w
    = for_each (flat_map f xs) body s h w.
Proof.
  induction xs as [|x xs IH]; intros s h w; simpl; [reflexivity|].
  rewrite for_each_app. unfold bind.
  destruct (for_each (f x) body s h w) as [w1 [s1|err]]; [apply IH|reflexivity].
Qed.

Section GoalCapture.

Variable toLowerCase : list N -> list N.
Variable parseGoals : list N -> captureMode -> list goal.
Variable cfg : layer_config.

Lemma goal_capture_step (g : goal) (seen : gset (list N)) (h : host) (w : world) :
  exists w' new,
    calls w' = calls w ++ new
    /\ ((((goal_text g = []) \/ (toLowerCase (goal_text g) ∈ seen))
         /\ goal_capture toLowerCase cfg g seen h w = (w', Returned seen)
         /\ new = [])
        \/ (goal_text g <> [] /\ (toLowerCase (goal_text g) ∉ seen)
            /\ goal_capture toLowerCase cfg g seen h w
               = (w', Returned ({[toLowerCase (goal_text g)]} ∪ seen))
            /\ embedded new = [goal_summary cfg g]
            /\ stored new <= 1)).
Proof.
  unfold goal_capture. destruct (goal_text g) as [|c s] eqn:Etext.
  { exists w, []. rewrite app_nil_r. split; [reflexivity|]. left.
    split; [now left|now split]. }
  destruct (bool_decide (toLowerCase (c :: s) ∈ seen)) eqn:Eseen.
  { apply bool_decide_eq_true_1 in Eseen.
    exists w, []. rewrite app_nil_r. split; [reflexivity|]. left.
    split; [now right|now split]. }
  apply bool_decide_eq_false_1 in Eseen.
  assert (Htext : c :: s <> []) by discriminate.
  unfold bind, try_catch, embed, store, date_now, warn, ret.
  destruct (embed_reply h (length (calls w)) (goal_summary cfg g)) as [err|v];
    cbn [answer].
  - refine (ex_intro _ _ (ex_intro _ [_; _]
              (conj _ (or_intror (conj Htext (conj Eseen (conj eq_refl _))))))).
    + cbn [calls log]. now rewrite <- app_assoc.
    + split; [reflexivity|unfold stored; simpl; lia].
  - cbn [calls log clock_reads].
    destruct (store_reply h _ (js "goals")) as [err|[]]; cbn [answer].
    + refine (ex_intro _ _ (ex_intro _ [_; _; _]
                (conj _ (or_intror (conj Htext (conj Eseen (conj eq_refl _))))))).
      * cbn [calls log]. now rewrite <- !app_assoc.
      * split; [reflexivity|unfold stored; simpl; lia].
    + refine (ex_intro _ _ (ex_intro _ [_; _]
                (conj _ (or_intror (conj Htext (conj Eseen (conj eq_refl _))))))).
      * cbn [calls log]. now rewrite <- !app_assoc.
      * split; [reflexivity|unfold stored; simpl; lia].
Qed.

Lemma goal_loop (goals : list goal) :
  forall (seen : gset (list N)) (h : host) (w : world),
    exists w' seen' captured new,
      for_each goals (goal_capture toLowerCase cfg) seen h w = (w', Returned seen')
      /\ calls w' = calls w ++ new
      /\ embedded new = map (goal_summary cfg) captured
      /\ stored new <= length captured
      /\ sublist captured goals
      /\ NoDup (map (fun g => toLowerCase (goal_text g)) captured)
      /\ Forall (fun g => goal_text g <> [] /\ toLowerCase (goal_text g) ∉ seen) captured
      /\ (forall k, k ∈ seen' <->
                    k ∈ seen \/ k ∈ map (fun g => toLowerCase (goal_text g)) captured)
      /\ (forall g, g ∈ goals -> goal_text g <> [] -> toLowerCase (goal_text g) ∈ seen').
Proof.
  induction goals as [|g goals IH]; intros seen h w.
  - exists w, seen, [], []. rewrite app_nil_r. simpl.
    repeat split; try constructor; try tauto.
    + intros [H|H]; [exact H|now apply elem_of_nil in H].
    + intros g Hg. now apply elem_of_nil in Hg.
  - cbn [for_each].
    destruct (goal_capture_step g seen h w) as (w1 & new1 & Hcalls1 & Hcase).
    destruct Hcase as [(Hskip & Hrun & ->)|(Htext & Hfresh & Hrun & Hemb & Hst)].
    + rewrite (bind_returned _ _ h w w1 seen Hrun).
      destruct (IH seen h w1)
        as (w2 & seen2 & captured & new & Hrun2 & Hcalls & Hemb & Hst & Hsub & Hnd
            & Hall & Hseen & Hcover).
      exists w2, seen2, captured, new.
      rewrite app_nil_r in Hcalls1. rewrite Hcalls1 in Hcalls.
      repeat split; try assumption; try (now apply Hseen).
      * now apply sublist_cons.
      * intros g' Hg' Htext'. apply elem_of_cons in Hg'.
        destruct Hg' as [->|Hg']; [|now apply Hcover].
        destruct Hskip as [Hempty|Hin]; [contradiction|].
        apply Hseen. now left.
    + rewrite (bind_returned _ _ h w w1 _ Hrun).
      destruct (IH ({[toLowerCase (goal_text g)]} ∪ seen) h w1)
        as (w2 & seen2 & captured & new & Hrun2 & Hcalls & Hemb2 & Hst2 & Hsub & Hnd
            & Hall & Hseen & Hcover).
      exists w2, seen2, (g :: captured), (new1 ++ new).
      split; [exact Hrun2|].
      split; [rewrite Hcalls, Hcalls1; now rewrite app_assoc|].
      split; [unfold embedded in *; rewrite flat_map_app, Hemb, Hemb2; reflexivity|].
      split; [unfold stored in *; rewrite List.filter_app, length_app; simpl; lia|].
      split; [now apply sublist_skip|].
      split.
      { cbn [map]. apply NoDup_cons. split; [|exact Hnd].
        intros Hin. apply list_elem_of_In, in_map_iff in Hin.
        destruct Hin as (g' & Hkey & Hin). apply list_elem_of_In in Hin.
        rewrite Forall_forall in Hall. destruct (Hall g' Hin) as [_ Hout].
        apply Hout. rewrite Hkey. apply elem_of_union. left.
        now apply elem_of_singleton. }
      split.
      { constructor; [now split|].
        eapply Forall_impl; [exact Hall|]. intros g' [Ht Hout]. split; [exact Ht|].
        intros Hin. apply Hout. apply elem_of_union. now right. }
      split.
      { intros k. rewrite Hseen. cbn [map]. rewrite elem_of_union, elem_of_singleton,
          elem_of_cons. tauto. }
      intros g' Hg' Htext'. apply elem_of_cons in Hg'.
      destruct Hg' as [->|Hg']; [|now apply Hcover].
      apply Hseen. left. apply elem_of_union. left. now apply elem_of_singleton.
Qed.

(** In one [agent_end] the goal plugin attempts each goal once: the
    summaries handed to the embedding provider are those of a
    sub-list of the parsed goals in which no lower-cased goal text
    occurs twice and none is empty, every parsed goal with a text has
    its lower-cased text among them, and no more insertions are made
    than goals were attempted.  This holds whatever the provider and
    the store answer: a goal whose capture failed is not tried again
    in the same turn. *)
Theorem goal_captured_once_per_turn
    (event : option turn_end) (h : host) (w : world) :
  let goals := flat_map (fun raw => parseGoals raw (capture_mode cfg))
                        (turn_texts event) in
  exists captured new,
    calls (fst (goal_agent_end toLowerCase parseGoals cfg event h w)) = calls w ++ new
    /\ embedded new = map (goal_summary cfg) captured
    /\ stored new <= length captured
    /\ sublist captured goals
    /\ NoDup (map (fun g => toLowerCase (goal_text g)) captured)
    /\ Forall (fun g => goal_text g <> []) captured
    /\ (forall g, g ∈ goals -> goal_text g <> [] ->
          toLowerCase (goal_text g) ∈ map (fun g => toLowerCase (goal_text g)) captured).
Proof.
  intros goals. unfold goal_agent_end.
  assert (Hnone : goals = [] ->
            exists captured new,
              calls w = calls w ++ new
              /\ embedded new = map (goal_summary cfg) captured
              /\ stored new <= length captured
              /\ sublist captured goals
              /\ NoDup (map (fun g => toLowerCase (goal_text g)) captured)
              /\ Forall (fun g => goal_text g <> []) captured
              /\ (forall g, g ∈ goals -> goal_text g <> [] ->
                    toLowerCase (goal_text g)
                    ∈ map (fun g => toLowerCase (goal_text g)) captured)).
  { intros ->. exists [], []. rewrite app_nil_r.
    repeat split; try constructor. intros g Hg. now apply elem_of_nil in Hg. }
  destruct event as [e|]; [|now apply Hnone].
  subst goals. unfold turn_texts in *.
  destruct (texts_of [js "user"; js "assistant"] (messages e)) as [|t ts] eqn:Etexts;
    [now apply Hnone|].
  destruct (goal_loop (flat_map (fun raw => parseGoals raw (capture_mode cfg)) (t :: ts))
              ∅ h w)
    as (w2 & seen2 & captured & new & Hrun & Hcalls & Hemb & Hst & Hsub & Hnd & Hall
        & Hseen & Hcover).
  exists captured, new.
  rewrite <- for_each_flat_map in Hrun.
  rewrite (bind_returned _ _ h w w2 seen2 Hrun). cbn [ret fst].
  repeat split; try assumption.
  - eapply Forall_impl; [exact Hall|]. now intros g [Ht _].
  - intros g Hg Htext. specialize (Hcover g Hg Htext). apply Hseen in Hcover.
    destruct Hcover as [Hempty|Hin]; [now apply elem_of_empty in Hempty|exact Hin].
Qed.

End GoalCapture.

(* ================================================================== *)
(** * What the rerank handler injects *)
(* ================================================================== *)

Lemma insert_by_score_elem (it x : Rerank.item) (sorted : list Rerank.item) :
  x ∈ insert_by_score it sorted <-> x = it \/ x ∈ sorted.
Proof.
  induction sorted as [|y rest IH]; simpl.
  - rewrite list_elem_of_singleton, elem_of_nil. tauto.
  - destruct (PrimFloat.ltb _ _).
    + rewrite elem_of_cons. tauto.
    + rewrite !elem_of_cons, IH. tauto.
Qed.

Lemma sort_by_score_elem (x : Rerank.item) (items : list Rerank.item) :
  x ∈ sort_by_score items <-> x ∈ items.
Proof.
  unfold sort_by_score.
  assert (H : forall l acc,
            x ∈ fold_left (fun acc it => insert_by_score it acc) l acc
            <-> x ∈ l \/ x ∈ acc).
  { induction l as [|y l IH]; intros acc; simpl.
    - rewrite elem_of_nil. tauto.
    - rewrite IH, insert_by_score_elem, elem_of_cons. tauto. }
  rewrite H, elem_of_nil. tauto.
Qed.

Lemma selectTopCluster_length (sorted : list Rerank.item) (cfg : Rerank.config) :
  length (Rerank.selectTopCluster sorted cfg) <= Rerank.maxDocuments cfg.
Proof.
  unfold Rerank.selectTopCluster.
  destruct (Rerank.select_loop cfg [] sorted); rewrite length_take; lia.
Qed.

Lemma selectTopCluster_elem (sorted : list Rerank.item) (cfg : Rerank.config)
    (x : Rerank.item) :
  x ∈ Rerank.selectTopCluster sorted cfg -> x ∈ sorted.
Proof.
  destruct (select_loop_start cfg sorted) as [Hwalk _].
  destruct (cluster_walk_sound (Rerank.minScore cfg) (Rerank.minGap cfg) sorted
              (Rerank.maxDocuments cfg) None) as (Hsub & _).
  unfold Rerank.selectTopCluster.
  destruct (Rerank.select_loop cfg [] sorted) as [|s sel] eqn:Eloop.
  - intros Hx. eapply elem_of_sublist; [exact Hx|apply sublist_take].
  - rewrite Hwalk. intros Hx. eapply elem_of_sublist; [exact Hx|exact Hsub].
Qed.

Lemma rerank_score_items (query : list N) (maxDocChars : nat) (maxTotalMs start : Z)
    (candidates : list candidate) :
  forall (scored : list Rerank.item) (h : host) (w : world),
    exists w' out new,
      rerank_score query maxDocChars maxTotalMs start candidates scored h w
      = (w', Returned (scored ++ out))
      /\ ledger w' = ledger w
      /\ calls w' = calls w ++ new
      /\ scored_docs new
         = map (fun c => (query, Rerank.truncate (cand_text c) maxDocChars))
               (firstn (length out) candidates)
      /\ map Rerank.text out = map cand_text (firstn (length out) candidates)
      /\ length out <= length candidates.
Proof.
  induction candidates as [|c rest IH]; intros scored h w.
  - exists w, [], []. rewrite !app_nil_r. simpl. repeat split; lia.
  - cbn [rerank_score]. unfold bind at 1. unfold date_now at 1.
    destruct (_ <? _)%Z.
    + eexists _, [], []. rewrite !app_nil_r. cbn [ret].
      split; [reflexivity|]. simpl. repeat split; lia.
    + unfold bind at 1. unfold score_candidate at 1.
      match goal with
      | |- context [rerank_score _ _ _ _ rest ?acc h ?w1] =>
          destruct (IH acc h w1) as (w2 & out & new & Hrun & Hledger & Hcalls
                                     & Hdocs & Htexts & Hlen)
      end.
      rewrite Hrun. eexists w2, (_ :: out), (_ :: new).
      split; [now rewrite <- app_assoc|].
      split; [exact Hledger|].
      split; [rewrite Hcalls; cbn [calls log]; now rewrite <- app_assoc|].
      cbn [length firstn map scored_docs flat_map app Rerank.text].
      split; [f_equal; exact Hdocs|]. split; [f_equal; exact Htexts|lia].
Qed.

(** The rerank handler never throws and never writes the ledger.
    What it injects is the header, one line per selected memory and
    the footer, with at most [maxDocuments] memories, each the text
    of a candidate that the search returned; and every scoring
    request is for the query and the (truncated) text of a candidate,
    in the order of the candidates, at most one per candidate. *)
Theorem rerank_injects_candidates
    (cfg : Rerank.config) (maxDocChars : nat) (maxTotalMs : Z)
    (event : option turn_start) (h : host) (w : world) :
  exists w' r,
    rerank_before_agent_start cfg maxDocChars maxTotalMs event h w = (w', Returned r)
    /\ ledger w' = ledger w
    /\ (forall ctx, r = Some ctx ->
        exists query candidates selected asked,
          usable_prompt 5 event = Some query
          /\ ltm_reply h (length (calls w)) query = inr candidates
          /\ ctx = js "<relevant-memories>" ++ nl
                   ++ js "The following memories may be relevant to this conversation:"
                   ++ nl ++ Js.join nl (map memory_line selected) ++ nl
                   ++ js "</relevant-memories>"
          /\ length selected <= Rerank.maxDocuments cfg
          /\ Forall (fun it => Rerank.text it ∈ map cand_text candidates) selected
          /\ scored_docs (skipn (length (calls w)) (calls w'))
             = map (fun c => (query, Rerank.truncate (cand_text c) maxDocChars))
                   (firstn asked candidates)).
Proof.
  unfold rerank_before_agent_start.
  destruct (usable_prompt 5 event) as [query|];
    [|exists w, None; repeat split; discriminate].
  unfold bind at 1. unfold try_catch, bind at 1, fetchCandidates at 1.
  destruct (ltm_reply h (length (calls w)) query) as [err|cs] eqn:Eltm; cbn [answer].
  { eexists _, None. cbn [warn bind ret]. repeat split; discriminate. }
  cbn [ret]. destruct cs as [|c cs].
  { eexists _, None. repeat split; discriminate. }
  unfold bind at 1. unfold date_now at 1. unfold bind at 1.
  match goal with
  | |- context [rerank_score query maxDocChars maxTotalMs ?start ?cands [] h ?w1] =>
      destruct (rerank_score_items query maxDocChars maxTotalMs start cands [] h w1)
        as (w2 & out & new & Hrun & Hledger & Hcalls & Hdocs & Htexts & Hlen)
  end.
  rewrite Hrun. cbn [app]. destruct out as [|o out].
  { exists w2, None. split; [reflexivity|]. split; [exact Hledger|discriminate]. }
  eexists w2, (Some _). split; [reflexivity|]. split; [exact Hledger|].
  intros ctx [= <-].
  exists query, (c :: cs), (Rerank.selectTopCluster (sort_by_score (o :: out)) cfg),
    (length (o :: out)).
  split; [reflexivity|]. split; [exact Eltm|]. split; [reflexivity|].
  split; [apply selectTopCluster_length|]. split.
  - apply Forall_forall. intros it Hit.
    apply selectTopCluster_elem in Hit.
    apply (proj1 (sort_by_score_elem _ _)) in Hit.
    apply list_elem_of_In, (in_map Rerank.text) in Hit. rewrite Htexts in Hit.
    apply in_map_iff in Hit. destruct Hit as (x & <- & Hx).
    apply list_elem_of_In, in_map, list_elem_of_In.
    apply list_elem_of_In in Hx.
    eapply elem_of_sublist; [exact Hx|apply sublist_take].
  - rewrite Hcalls. cbn [calls log clock_reads].
    rewrite <- app_assoc, skipn_app, skipn_all, Nat.sub_diag. cbn [app skipn].
    unfold scored_docs in *. cbn [flat_map app]. exact Hdocs.
Qed.

Lemma rerank_injects_candidates_witness :
  let h := Host (fun _ _ => inr []) (fun _ _ _ _ => inr []) (fun _ _ => inr tt)
             (fun _ _ => inr [Candidate (js "likes tea") (Some (js "preference"))
                                (Some 0.9%float);
                              Candidate (js "old note") None (Some 0.5%float)])
             (fun _ _ _ => None) (fun n => Z.of_nat n) in
  let run := rerank_before_agent_start (Rerank.Config 0.4 0.08 3) 800 20000
               (Some (TurnStart (Some (js "hello")))) h empty_world in
  snd run
  = Returned (Some (js "<relevant-memories>" ++ nl
                    ++ js "The following memories may be relevant to this conversation:"
                    ++ nl ++ js "- [preference] likes tea" ++ nl
                    ++ js "</relevant-memories>"))
  /\ ledger (fst run) = ledger empty_world.
Proof.
  intros h run. subst run.
  destruct (rerank_injects_candidates (Rerank.Config 0.4 0.08 3) 800 20000
              (Some (TurnStart (Some (js "hello")))) h empty_world)
    as (w' & r & Hrun & Hledger & _).
  rewrite Hrun. cbn [fst snd]. split; [|exact Hledger].
  vm_compute in Hrun. injection Hrun as _ <-. reflexivity.
Defined.

(* ================================================================== *)
(** * The steps of a captured procedure *)
(* ================================================================== *)

Lemma kept_result (r : Procedure.tool_result) :
  Procedure.skipped r = false ->
  Procedure.toolName r <> []
  /\ Procedure.isError r = false
  /\ (Procedure.exitCode r = None \/ Procedure.exitCode r = Some 0%Z).
Proof.
  unfold Procedure.skipped.
  destruct (Procedure.toolName r); [discriminate|].
  intros H. apply orb_false_iff in H as [Herr Hcode].
  split; [discriminate|]. split; [exact Herr|].
  destruct (Procedure.exitCode r) as [code|]; [right | now left].
  apply negb_false_iff, Z.eqb_eq in Hcode. now subst.
Qed.

Lemma or_text_nonempty (x d : list N) : d <> [] -> or_text x d <> [].
Proof. destruct x; simpl; [tauto | discriminate]. Qed.

Section ProcedureFacts.

Variable args : Type.
Variable summarizeArgs : list N -> option args -> bool -> list N.
Variable toolCalls : list (list N * (list N * args)).
Variable redact : bool.

Lemma collect_filter (maxSteps : nat) (results : list Procedure.tool_result)
    (count : nat) :
  Procedure.collect args summarizeArgs toolCalls redact maxSteps count results
  = map (Procedure.step_of args summarizeArgs toolCalls redact)
      (firstn (Nat.max 1 (maxSteps - count))
         (List.filter (fun r => negb (Procedure.skipped r)) results)).
Proof.
  revert count.
  induction results as [|r rest IH]; intros count; simpl.
  - now rewrite firstn_nil.
  - destruct (Procedure.skipped r); simpl; [apply IH|].
    destruct (Nat.max 1 (maxSteps - count)) as [|k] eqn:Ek; [lia|].
    simpl. f_equal.
    destruct (Nat.leb_spec maxSteps (S count)) as [Hle | Hlt].
    + assert (k = 0) as -> by lia. reflexivity.
    + rewrite IH. do 2 f_equal. lia.
Qed.

End ProcedureFacts.

(** The steps of a procedure are those of the first [maxSteps]
    tool results (one when [maxSteps] is [0]) that have a tool name,
    are no error and have no exit code other than [0], in their order;
    a failed tool result never gives a step.  With fewer than
    [minSteps] such results there is no procedure; otherwise there is
    one, its pattern key is not empty and its [success] is the
    event's. *)
Theorem buildProcedure_steps (args : Type)
    (summarizeArgs : list N -> option args -> bool -> list N)
    (userTexts : list (list N)) (toolCalls : list (list N * (list N * args)))
    (results : list Procedure.tool_result) (ok redact : bool)
    (minSteps maxSteps maxUserChars : nat) :
  let used := firstn (Nat.max 1 maxSteps)
                (List.filter (fun r => negb (Procedure.skipped r)) results) in
  let built := Procedure.buildProcedure args summarizeArgs userTexts toolCalls
                 results ok redact minSteps maxSteps maxUserChars in
  Forall (fun r => Procedure.toolName r <> []
                   /\ Procedure.isError r = false
                   /\ (Procedure.exitCode r = None
                       \/ Procedure.exitCode r = Some 0%Z)) used
  /\ (length used < minSteps -> built = None)
  /\ (minSteps <= length used ->
      exists p, built = Some p
        /\ Procedure.steps p
           = map (fun r => fst (Procedure.step_of args summarizeArgs toolCalls redact r))
               used
        /\ Procedure.patternKey p <> []
        /\ Procedure.success p = ok).
Proof.
  intros used built.
  assert (Hlen : length (Procedure.collect args summarizeArgs toolCalls redact
                           maxSteps 0 results) = length used).
  { rewrite collect_filter, length_map, Nat.sub_0_r. reflexivity. }
  split; [|split].
  - apply List.Forall_forall. intros r Hr.
    apply kept_result.
    apply list_elem_of_In in Hr.
    apply (fun H => elem_of_sublist _ _ _ H (sublist_take _ _)) in Hr.
    apply list_elem_of_In, filter_In in Hr as [_ Hr].
    now apply negb_true_iff in Hr.
  - intros Hfew. unfold built, Procedure.buildProcedure.
    rewrite Hlen.
    destruct (Nat.ltb_spec (length used) minSteps) as [_ | Hge]; [reflexivity | lia].
  - intros Hmany. unfold built, Procedure.buildProcedure.
    rewrite Hlen.
    destruct (Nat.ltb_spec (length used) minSteps) as [Hlt | _]; [lia|].
    eexists. split; [reflexivity|].
    cbn [Procedure.steps Procedure.patternKey Procedure.success].
    split; [| split; [|reflexivity]].
    + rewrite collect_filter, Nat.sub_0_r, map_map. reflexivity.
    + apply or_text_nonempty. discriminate.
Qed.

Lemma buildProcedure_steps_witness :
  exists p,
    Procedure.buildProcedure unit (fun _ _ _ => [])
      [js "deploy"] []
      [Procedure.ToolResult (js "read") [] false None;
       Procedure.ToolResult (js "exec") [] true None;
       Procedure.ToolResult (js "exec") [] false (Some 1%Z);
       Procedure.ToolResult (js "write") [] false (Some 0%Z);
       Procedure.ToolResult (js "exec") [] false None]
      true true 2 2 100 = Some p
    /\ Procedure.steps p = [js "read"; js "write"]
    /\ Procedure.patternKey p <> []
    /\ Procedure.success p = true.
Proof.
  destruct (buildProcedure_steps unit (fun _ _ _ => [])
              [js "deploy"] []
              [Procedure.ToolResult (js "read") [] false None;
               Procedure.ToolResult (js "exec") [] true None;
               Procedure.ToolResult (js "exec") [] false (Some 1%Z);
               Procedure.ToolResult (js "write") [] false (Some 0%Z);
               Procedure.ToolResult (js "exec") [] false None]
              true true 2 2 100) as (_ & _ & Hsome).
  exact (Hsome ltac:(simpl; lia)).
Defined.
